(** * Balance-sheet reconciliation engine ([BalanceSheetReconciler], app.py)

    A shallow embedding of the reconciliation core of the application:
    the report payloads are JSON documents as [requests] decodes them, the
    checks are Python methods that raise, mutate the reconciler instance
    and write to the database session.  The embedding keeps all three:
    values are dynamically typed, every primitive can raise, and the
    methods run in a state-and-exception monad over the instance and the
    database. *)

From Stdlib Require Import ZArith List String Ascii Bool Lia.
From Stdlib Require Import Floats DecimalString.
From stdpp Require Import base option gmap strings.

Import ListNotations.
Local Open Scope string_scope.
Local Open Scope Z_scope.
Local Open Scope list_scope.

#[local] Set Warnings "-register-all".

(** ** Python values

    What [response.json()] can return, and what the checks compute from
    it.  A [dict] is kept as an association list in insertion order (the
    order [for k in d] visits the keys); a lookup takes the first binding
    of a key.  A [str] is kept as its UTF-8 encoding: equality and
    substring search on the encodings are those on the texts, a character
    is a lead byte with its continuation bytes, and [str.upper()], which
    follows the Unicode case mapping, is a parameter of the development
    (as [float()] on a [str] is). *)

Inductive value : Type :=
| VNone
| VBool (b : bool)
| VInt (z : Z)
| VFloat (f : float)
| VStr (s : string)
| VList (l : list value)
| VDict (d : list (string * value)).

Inductive exn : Type :=
| TypeError
| KeyError (key : string)
| IndexError
| AttributeError (name : string)
| ValueError
| OverflowError
| SQLAlchemyError
| Exception_ (msg : string).

Inductive result (A : Type) : Type :=
| Ok (a : A)
| Raise (e : exn).
Arguments Ok {A} a.
Arguments Raise {A} e.

#[global] Instance result_ret : MRet result := fun _ a => Ok a.
#[global] Instance result_bind : MBind result := fun _ _ f m =>
  match m with
  | Ok a => f a
  | Raise e => Raise e
  end.

Definition is_ok {A} (r : result A) : bool :=
  match r with Ok _ => true | Raise _ => false end.

(** [for x in xs: acc = body(acc, x)], stopping at the first exception. *)
Fixpoint for_fold {S A} (xs : list A) (acc : S) (body : S -> A -> result S)
  : result S :=
  match xs with
  | [] => Ok acc
  | x :: xs' => acc' ← body acc x; for_fold xs' acc' body
  end.

(** ** Dictionaries and text *)

Fixpoint dict_lookup (k : string) (d : list (string * value)) : option value :=
  match d with
  | [] => None
  | (k', v) :: d' => if String.eqb k k' then Some v else dict_lookup k d'
  end.

(** [needle in hay] on two [str]. *)
Fixpoint is_substr (needle hay : string) : bool :=
  String.prefix needle hay
  || match hay with
     | EmptyString => false
     | String _ hay' => is_substr needle hay'
     end.

(** A continuation byte of a UTF-8 sequence: [10xxxxxx]. *)
Definition continuation (c : ascii) : bool :=
  let n := N_of_ascii c in
  (128 <=? n)%N && (n <? 192)%N.

(** The characters of a text: every lead byte with the continuation
    bytes that follow it. *)
Definition starts_inside (s : string) : bool :=
  match s with
  | String c _ => continuation c
  | EmptyString => false
  end.

Fixpoint code_points (s : string) : list string :=
  match s with
  | EmptyString => []
  | String c s' =>
      match code_points s' with
      | point :: points =>
          if starts_inside s' then String c point :: points
          else String c EmptyString :: point :: points
      | [] => [String c EmptyString]
      end
  end.

Definition chars (s : string) : list value := map VStr (code_points s).

(** ** Numbers

    Python's [int] is unbounded ([Z]); its [float] is binary64, the
    kernel's primitive [float].  An [int] operand of a mixed operation is
    converted to the nearest [float] (ties to even), which overflows for
    magnitudes of 2^1024 and beyond; a comparison between an [int] and a
    [float] is exact. *)

Definition float_of_Z (z : Z) : result float :=
  let f := SF2Prim (binary_normalize prec emax z 0 false) in
  if is_infinity f then Raise OverflowError else Ok f.

(** The exact order between a [float] and an [int]; [None] for a NaN. *)
Definition float_cmp_Z (f : float) (z : Z) : option comparison :=
  match Prim2SF f with
  | S754_nan => None
  | S754_zero _ => Some (0 ?= z)
  | S754_infinity s => Some (if s then Lt else Gt)
  | S754_finite s m e =>
      let sm := if s then Z.neg m else Z.pos m in
      Some (if 0 <=? e then (sm * 2 ^ e ?= z) else (sm ?= z * 2 ^ (- e)))
  end.

Inductive number : Type :=
| NInt (z : Z)
| NFloat (f : float).

(** [bool] is a subclass of [int]: [True] is 1 and [False] is 0. *)
Definition as_number (v : value) : option number :=
  match v with
  | VBool b => Some (NInt (if b then 1 else 0))
  | VInt z => Some (NInt z)
  | VFloat f => Some (NFloat f)
  | _ => None
  end.

Definition number_to_float (n : number) : result float :=
  match n with
  | NInt z => float_of_Z z
  | NFloat f => Ok f
  end.

(** A binary arithmetic operator on two numbers: exact on two [int],
    otherwise in floating point after converting the [int] operand. *)
Definition arith (fz : Z -> Z -> Z) (ff : float -> float -> float)
  (a b : number) : result value :=
  match a, b with
  | NInt x, NInt y => Ok (VInt (fz x y))
  | _, _ =>
      x ← number_to_float a;
      y ← number_to_float b;
      Ok (VFloat (ff x y))
  end.

(** [a + b]. *)
Definition py_add (a b : value) : result value :=
  match as_number a, as_number b with
  | Some x, Some y => arith Z.add PrimFloat.add x y
  | _, _ =>
      match a, b with
      | VStr s, VStr t => Ok (VStr (String.append s t))
      | VList l, VList m => Ok (VList (l ++ m))
      | _, _ => Raise TypeError
      end
  end.

(** [a - b]. *)
Definition py_sub (a b : value) : result value :=
  match as_number a, as_number b with
  | Some x, Some y => arith Z.sub PrimFloat.sub x y
  | _, _ => Raise TypeError
  end.

(** [a * b] for two numbers (the only use is [abs(...) * 2]). *)
Definition py_mul (a b : value) : result value :=
  match as_number a, as_number b with
  | Some x, Some y => arith Z.mul PrimFloat.mul x y
  | _, _ => Raise TypeError
  end.

(** [abs(a)]. *)
Definition py_abs (a : value) : result value :=
  match as_number a with
  | Some (NInt z) => Ok (VInt (Z.abs z))
  | Some (NFloat f) => Ok (VFloat (PrimFloat.abs f))
  | None => Raise TypeError
  end.

(** [-a]. *)
Definition py_neg (a : value) : result value :=
  match as_number a with
  | Some (NInt z) => Ok (VInt (- z))
  | Some (NFloat f) => Ok (VFloat (PrimFloat.opp f))
  | None => Raise TypeError
  end.

Definition number_ltb (a b : number) : bool :=
  match a, b with
  | NInt x, NInt y => x <? y
  | NFloat x, NFloat y => PrimFloat.ltb x y
  | NFloat x, NInt y =>
      match float_cmp_Z x y with Some Lt => true | _ => false end
  | NInt x, NFloat y =>
      match float_cmp_Z y x with Some Gt => true | _ => false end
  end.

(** [a < b] where one side is a number: the other side has to be one
    too (the checks only compare against numeric constants). *)
Definition py_lt (a b : value) : result bool :=
  match as_number a, as_number b with
  | Some x, Some y => Ok (number_ltb x y)
  | _, _ => Raise TypeError
  end.

(** [a > b]. *)
Definition py_gt (a b : value) : result bool := py_lt b a.

(** [v == 0] and [v == 'text'] (never raise). *)
Definition py_eq_zero (v : value) : bool :=
  match as_number v with
  | Some (NInt z) => z =? 0
  | Some (NFloat f) => PrimFloat.eqb f zero
  | None => false
  end.

Definition py_eq_str (v : value) (s : string) : bool :=
  match v with
  | VStr t => String.eqb t s
  | _ => false
  end.

(** ** Built-ins on containers *)

(** [bool(v)]. *)
Definition truthy (v : value) : bool :=
  match v with
  | VNone => false
  | VBool b => b
  | VInt z => negb (z =? 0)
  | VFloat f => negb (PrimFloat.eqb f zero)
  | VStr s => negb (String.eqb s "")
  | VList l => match l with [] => false | _ => true end
  | VDict d => match d with [] => false | _ => true end
  end.

(** ['key' in x]. *)
Definition py_contains (k : string) (x : value) : result bool :=
  match x with
  | VDict d => Ok (match dict_lookup k d with Some _ => true | None => false end)
  | VList l => Ok (existsb (fun e => py_eq_str e k) l)
  | VStr s => Ok (is_substr k s)
  | _ => Raise TypeError
  end.

(** [x['key']]. *)
Definition py_getitem (x : value) (k : string) : result value :=
  match x with
  | VDict d =>
      match dict_lookup k d with
      | Some v => Ok v
      | None => Raise (KeyError k)
      end
  | _ => Raise TypeError
  end.

(** [x[-1]]. *)
Definition py_last (x : value) : result value :=
  match x with
  | VList l =>
      match List.last (map Some l) None with
      | Some v => Ok v
      | None => Raise IndexError
      end
  | VStr s =>
      match List.last (map Some (chars s)) None with
      | Some v => Ok v
      | None => Raise IndexError
      end
  | VDict _ => Raise (KeyError "-1")
  | _ => Raise TypeError
  end.

(** The items [for e in x] visits. *)
Definition py_iter (x : value) : result (list value) :=
  match x with
  | VList l => Ok l
  | VDict d => Ok (map (fun kv => VStr (fst kv)) d)
  | VStr s => Ok (chars s)
  | _ => Raise TypeError
  end.

(** [len(x)]. *)
Definition py_len (x : value) : result Z :=
  match x with
  | VList l => Ok (Z.of_nat (List.length l))
  | VDict d => Ok (Z.of_nat (List.length d))
  | VStr s => Ok (Z.of_nat (List.length (chars s)))
  | _ => Raise TypeError
  end.

(** [x.get('key', dflt)]. *)
Definition py_get (x : value) (k : string) (dflt : value) : result value :=
  match x with
  | VDict d => Ok (default dflt (dict_lookup k d))
  | _ => Raise (AttributeError "get")
  end.

(** The text an f-string interpolates for [{x}]: the only value the
    checks interpolate without a format is an account type that has just
    compared equal to a [str] literal. *)
Definition py_str (x : value) : string :=
  match x with
  | VStr s => s
  | _ => ""
  end.

(** [sum(values)]: the running total starts as the [int] 0. *)
Definition py_sum (values : list value) : result value :=
  for_fold values (VInt 0) py_add.

(** ** Fixed-point formatting: [f'{x:.2f}'] and [f'{x:,.2f}']

    The decimal expansion of the exact binary value, rounded to two
    places with ties to even. *)

Definition round_half_even (n d : Z) : Z :=
  let q := n / d in
  let r := n mod d in
  if 2 * r <? d then q
  else if d <? 2 * r then q + 1
  else if Z.even q then q else q + 1.

(** The number of hundredths nearest to [m * 2^e]. *)
Definition hundredths (m : positive) (e : Z) : Z :=
  if 0 <=? e then Z.pos m * 2 ^ e * 100
  else round_half_even (Z.pos m * 100) (2 ^ (- e)).

Definition digits (n : Z) : string :=
  NilZero.string_of_uint (N.to_uint (Z.to_N n)).

Definition two_digits (n : Z) : string :=
  if n <? 10 then String.append "0" (digits n) else digits n.

(** A comma before every group of three digits, given the digits from
    the least significant one. *)
Fixpoint commas (rev_digits : list ascii) : list ascii :=
  match rev_digits with
  | a :: b :: c :: (_ :: _) as rest => a :: b :: c :: ","%char :: commas rest
  | l => l
  end.

Definition grouped (s : string) : string :=
  string_of_list_ascii (rev (commas (rev (list_ascii_of_string s)))).

Definition fixed2 (grouping : bool) (f : float) : string :=
  match Prim2SF f with
  | S754_nan => "nan"
  | S754_infinity s => if s then "-inf" else "inf"
  | S754_zero s => if s then "-0.00" else "0.00"
  | S754_finite s m e =>
      let c := hundredths m e in
      let whole := digits (c / 100) in
      String.append (if s then "-" else "")
        (String.append (if grouping then grouped whole else whole)
           (String.append "." (two_digits (c mod 100))))
  end.

(** [format(x, '.2f')], or [format(x, ',.2f')] with [grouping]: an
    [int] is converted to [float] first. *)
Definition py_format_2f (grouping : bool) (x : value) : result string :=
  match as_number x with
  | Some n => f ← number_to_float n; Ok (fixed2 grouping f)
  | None => match x with VStr _ => Raise ValueError | _ => Raise TypeError end
  end.

(** ** The reconciler instance and the database *)

(** An adjustment dict: always built with these six keys. *)
Record adjustment : Type := {
  account_name : value;
  original_amount : value;
  adjusted_amount : value;
  adjustment_amount : value;
  reason : string;
  adjustment_type : string
}.

(** [self.adjustments] and [self.reconciliation_checks]. *)
Record reconciler : Type := {
  adjustments : list adjustment;
  reconciliation_checks : gmap string value
}.

(** A calendar date, kept as its ISO text (what [isoformat()] and an
    f-string give). *)
Definition date : Type := string.

(** [datetime.now().date()] as a run without [as_of_date] reads it: once
    for the date of the snapshot and once more for its period. *)
Record clock : Type := {
  date_read : date;
  period_read : date
}.

Module Snapshot.
(** A row of [balance_sheet_snapshots] ([created_at] left out), with
    the values handed to the session. *)
Record row : Type := {
  id : Z;
  date_ : date;
  period : string;
  total_assets : value;
  total_liabilities : value;
  total_equity : value;
  is_balanced : bool;
  adjustments_count : Z;
  status : string
}.
End Snapshot.

Module AdjustmentRow.
(** A row of [adjustments] ([created_at] left out): the key, the link
    to the snapshot and the values handed to the session (a Float column
    keeps a number as a [float]). *)
Record row : Type := {
  id : Z;
  reconciliation_log_id : Z;
  fields : adjustment
}.
End AdjustmentRow.

(** The committed content of the two tables [reconcile] writes; a
    primary key is one more than the largest one in the table.  A commit
    that the database refuses raises an exception of SQLAlchemy's
    hierarchy ([SQLAlchemyError]) and leaves the tables as they were. *)
Record database : Type := {
  balance_sheet_snapshots : list Snapshot.row;
  adjustments_table : list AdjustmentRow.row
}.

Definition next_id (ids : list Z) : Z := 1 + fold_right Z.max 0 ids.

Record world : Type := {
  self : reconciler;
  db : database
}.

(** A method body: it returns or raises, and leaves a world behind in
    both cases. *)
Definition M (A : Type) : Type := world -> result A * world.

#[global] Instance M_ret : MRet M := fun _ a w => (Ok a, w).
#[global] Instance M_bind : MBind M := fun _ _ f m w =>
  match m w with
  | (Ok a, w') => f a w'
  | (Raise e, w') => (Raise e, w')
  end.

Definition lift {A} (r : result A) : M A := fun w => (r, w).

Definition raise {A} (e : exn) : M A := fun w => (Raise e, w).

(** [self.adjustments.append(adj)]. *)
Definition append_adjustment (adj : adjustment) : M unit := fun w =>
  (Ok tt,
   {| self := {| adjustments := adjustments (self w) ++ [adj];
                 reconciliation_checks := reconciliation_checks (self w) |};
      db := db w |}).

(** [self.reconciliation_checks[name] = v]. *)
Definition set_check (name : string) (v : value) : M unit := fun w =>
  (Ok tt,
   {| self := {| adjustments := adjustments (self w);
                 reconciliation_checks :=
                   <[name := v]> (reconciliation_checks (self w)) |};
      db := db w |}).

Definition get_adjustments : M (list adjustment) := fun w =>
  (Ok (adjustments (self w)), w).

Definition get_checks : M (gmap string value) := fun w =>
  (Ok (reconciliation_checks (self w)), w).

(** [for x in xs: body(x)] for a body with effects. *)
Fixpoint for_each {A} (xs : list A) (body : A -> M unit) : M unit :=
  match xs with
  | [] => mret tt
  | x :: xs' => body x;; for_each xs' body
  end.

(** A loop whose body may [break]: the flag says whether it did. *)
Fixpoint for_fold_break {S A} (xs : list A) (acc : S)
  (body : S -> A -> result (S * bool)) : result S :=
  match xs with
  | [] => Ok acc
  | x :: xs' =>
      '(acc', broke) ← body acc x;
      if broke : bool then Ok acc' else for_fold_break xs' acc' body
  end.

(** ** The summary balance sheet *)

Inductive bucket : Type :=
| AssetsCurrent | AssetsFixed | AssetsOther
| LiabilitiesCurrent | LiabilitiesLongTerm
| EquityOwners | EquityRetained | EquityNetIncome.

(** The three nested dicts ['assets'], ['liabilities'] and ['equity']. *)
Record categories : Type := {
  assets_current : value;
  assets_fixed : value;
  assets_other : value;
  liabilities_current : value;
  liabilities_long_term : value;
  equity_owners_equity : value;
  equity_retained_earnings : value;
  equity_net_income : value
}.

Definition fetch (b : bucket) (c : categories) : value :=
  match b with
  | AssetsCurrent => assets_current c
  | AssetsFixed => assets_fixed c
  | AssetsOther => assets_other c
  | LiabilitiesCurrent => liabilities_current c
  | LiabilitiesLongTerm => liabilities_long_term c
  | EquityOwners => equity_owners_equity c
  | EquityRetained => equity_retained_earnings c
  | EquityNetIncome => equity_net_income c
  end.

(** [summary[...][...] = v]. *)
Definition store (b : bucket) (v : value) (c : categories) : categories :=
  let '(Build_categories ac af ao lc ll eo er en) := c in
  match b with
  | AssetsCurrent => Build_categories v af ao lc ll eo er en
  | AssetsFixed => Build_categories ac v ao lc ll eo er en
  | AssetsOther => Build_categories ac af v lc ll eo er en
  | LiabilitiesCurrent => Build_categories ac af ao v ll eo er en
  | LiabilitiesLongTerm => Build_categories ac af ao lc v eo er en
  | EquityOwners => Build_categories ac af ao lc ll v er en
  | EquityRetained => Build_categories ac af ao lc ll eo v en
  | EquityNetIncome => Build_categories ac af ao lc ll eo er v
  end.

Definition empty_categories : categories :=
  Build_categories (VInt 0) (VInt 0) (VInt 0) (VInt 0) (VInt 0)
    (VInt 0) (VInt 0) (VInt 0).

Module Summary.
Record t : Type := {
  groups : categories;
  total_assets : value;
  total_liabilities : value;
  total_equity : value
}.
End Summary.

(** What [_generate_summary_balance_sheet] returns: [{}] or the filled
    summary. *)
Inductive summary_dict : Type :=
| EmptyDict
| SummaryDict (s : Summary.t).

(** [summary_bs['total_...']]. *)
Definition summary_getitem (s : summary_dict) (k : string) : result value :=
  match s with
  | EmptyDict => Raise (KeyError k)
  | SummaryDict t =>
      if String.eqb k "total_assets" then Ok (Summary.total_assets t)
      else if String.eqb k "total_liabilities" then Ok (Summary.total_liabilities t)
      else if String.eqb k "total_equity" then Ok (Summary.total_equity t)
      else Raise (KeyError k)
  end.

(** The dict [reconcile] returns.  In Python its ['adjustments'] and
    ['reconciliation_checks'] are the list and the dict of the instance
    themselves; the record holds their content at the time of the return. *)
Record run_result : Type := {
  summary_balance_sheet : summary_dict;
  result_adjustments : list adjustment;
  result_checks : gmap string value;
  result_is_balanced : bool
}.

(** ** The collaborator object [qbo_api] *)

Definition method : Type := option date -> result value.

Inductive attribute : Type :=
| Data (v : value)
| Method (m : method).

(** An object is its attribute table. *)
Definition object : Type := list (string * attribute).

Fixpoint getattr (obj : object) (name : string) : option attribute :=
  match obj with
  | [] => None
  | (n, a) :: obj' => if String.eqb name n then Some a else getattr obj' name
  end.

(** [obj.name(arg)]: a missing attribute is an [AttributeError], and a
    data attribute is not callable. *)
Definition invoke (obj : object) (name : string) (arg : option date)
  : result value :=
  match getattr obj name with
  | None => Raise (AttributeError name)
  | Some (Data _) => Raise TypeError
  | Some (Method m) => m arg
  end.

Definition call (obj : object) (name : string) (arg : option date) : M value :=
  lift (invoke obj name arg).

(** A GET request: the decoded JSON body, or [None] when [requests]
    raised a [RequestException] (every method catches it and returns
    [None]). *)
Definition http : Type := string -> list (string * string) -> option value.

Definition body_or_none (r : option value) : result value :=
  Ok (default VNone r).

Definition as_of_params (key : string) (as_of_date : option date)
  : list (string * string) :=
  match as_of_date with
  | Some d => [(key, d)]
  | None => []
  end.

(** The class [QuickBooksAPI]: the four instance attributes set by
    [__init__] and the seven methods of the class. *)
Definition QuickBooksAPI (realm_id access_token : string) (get : http) : object :=
  [ ("realm_id", Data (VStr realm_id));
    ("access_token", Data (VStr access_token));
    ("base_url", Data (VStr (String.append
        "https://quickbooks.api.intuit.com/v3/company/" realm_id)));
    ("headers", Data (VDict
        [ ("Authorization", VStr (String.append "Bearer " access_token));
          ("Accept", VStr "application/json");
          ("Content-Type", VStr "application/json") ]));
    ("refresh_access_token", Method (fun _ => Ok (VList [VNone; VNone])));
    ("get_company_info", Method (fun _ =>
        body_or_none (get (String.append "/companyinfo/" realm_id) [])));
    ("get_trial_balance", Method (fun as_of_date =>
        body_or_none (get "/reports/TrialBalance"
                        (as_of_params "asofdate" as_of_date))));
    ("get_balance_sheet_report", Method (fun as_of_date =>
        body_or_none (get "/reports/BalanceSheet"
                        (as_of_params "as_of_date" as_of_date))));
    ("get_open_ar", Method (fun _ =>
        body_or_none (get "/query"
          [("query", "SELECT * FROM Customer WHERE Balance > 0")])));
    ("get_open_ap", Method (fun _ =>
        body_or_none (get "/query"
          [("query", "SELECT * FROM Vendor WHERE Balance > 0")])));
    ("get_chart_of_accounts", Method (fun _ =>
        body_or_none (get "/query"
          [("query", "SELECT * FROM Account WHERE Active = true")]))) ].

(** What the six fetches of a run returned. *)
Record payloads : Type := {
  trial_balance : value;
  balance_sheet : value;
  chart_of_accounts : value;
  open_ar : value;
  open_ap : value;
  bank_accounts : value
}.

Definition serves (qbo_api : object) (as_of_date : option date) (p : payloads)
  : Prop :=
  invoke qbo_api "get_trial_balance" as_of_date = Ok (trial_balance p)
  /\ invoke qbo_api "get_balance_sheet_report" as_of_date = Ok (balance_sheet p)
  /\ invoke qbo_api "get_chart_of_accounts" None = Ok (chart_of_accounts p)
  /\ invoke qbo_api "get_open_ar" None = Ok (open_ar p)
  /\ invoke qbo_api "get_open_ap" None = Ok (open_ap p)
  /\ invoke qbo_api "get_bank_accounts" None = Ok (bank_accounts p).

(** The three reports [reconcile] insists on. *)
Definition mandatory (p : payloads) : list value :=
  [trial_balance p; balance_sheet p; chart_of_accounts p].

(** A collaborator that answers the six fetches with given payloads. *)
Definition stub_api (p : payloads) : object :=
  [ ("get_trial_balance", Method (fun _ => Ok (trial_balance p)));
    ("get_balance_sheet_report", Method (fun _ => Ok (balance_sheet p)));
    ("get_chart_of_accounts", Method (fun _ => Ok (chart_of_accounts p)));
    ("get_open_ar", Method (fun _ => Ok (open_ar p)));
    ("get_open_ap", Method (fun _ => Ok (open_ap p)));
    ("get_bank_accounts", Method (fun _ => Ok (bank_accounts p))) ].

(** ** Writing to the database session *)

(** [db.session.add(reconciliation_log); db.session.commit()]: the row
    gets its primary key.  The row that [reconcile] builds has a date and
    a text in the two NOT NULL columns and numbers, a flag and a count in
    the others, which the table takes. *)
Definition db_add_snapshot (d : date) (period : string) (ta tl te : value)
  (balanced : bool) (count : Z) : M Snapshot.row := fun w =>
  let row :=
    {| Snapshot.id := next_id (map Snapshot.id (balance_sheet_snapshots (db w)));
       Snapshot.date_ := d;
       Snapshot.period := period;
       Snapshot.total_assets := ta;
       Snapshot.total_liabilities := tl;
       Snapshot.total_equity := te;
       Snapshot.is_balanced := balanced;
       Snapshot.adjustments_count := count;
       Snapshot.status := "completed" |} in
  (Ok row,
   {| self := self w;
      db := {| balance_sheet_snapshots := balance_sheet_snapshots (db w) ++ [row];
               adjustments_table := adjustments_table (db w) |} |}).

(** The INSERT of one [Adjustment(reconciliation_log_id=..., ...)]. *)
Definition db_add_adjustment (log_id : Z) (adj : adjustment) : M unit := fun w =>
  let row :=
    {| AdjustmentRow.id :=
         next_id (map AdjustmentRow.id (adjustments_table (db w)));
       AdjustmentRow.reconciliation_log_id := log_id;
       AdjustmentRow.fields := adj |} in
  (Ok tt,
   {| self := self w;
      db := {| balance_sheet_snapshots := balance_sheet_snapshots (db w);
               adjustments_table := adjustments_table (db w) ++ [row] |} |}).

(** ** The route [/api/balance-sheet] *)

Module Account.
(** A row of [accounts], with the columns the route reads. *)
Record row : Type := {
  id : Z;
  name : string;
  account_type : string;
  subcategory : option string;
  balance : option float;
  status : option string;
  description : option string
}.
End Account.

(** A nullable column: [None] for NULL. *)
Definition nullable {A} (f : A -> value) (x : option A) : value :=
  match x with
  | Some a => f a
  | None => VNone
  end.

(** [column == 'text'] on a nullable text column. *)
Definition column_eq (x : option string) (s : string) : bool :=
  match x with
  | Some t => String.eqb t s
  | None => false
  end.

Definition account_data (account : Account.row) : value :=
  VDict [ ("id", VInt (Account.id account));
          ("name", VStr (Account.name account));
          ("balance", nullable VFloat (Account.balance account));
          ("status", nullable VStr (Account.status account));
          ("description", nullable VStr (Account.description account)) ].

Module Accounts.
(** The dict [balance_sheet]: ['assets'] and ['liabilities'] with their
    ['current'] and ['non_current'] lists, and ['equity']. *)
Record t : Type := {
  assets_current : list value;
  assets_non_current : list value;
  liabilities_current : list value;
  liabilities_non_current : list value;
  equity : list value
}.
End Accounts.

Module Totals.
Record t : Type := {
  current_assets : value;
  non_current_assets : value;
  total_assets : value;
  current_liabilities : value;
  non_current_liabilities : value;
  total_liabilities : value;
  total_equity : value
}.
End Totals.

(** The JSON body of the response. *)
Record balance_sheet_response : Type := {
  accounts : Accounts.t;
  totals : Totals.t
}.

(** The body of [for account in accounts]. *)
Definition group_account (balance_sheet : Accounts.t) (account : Account.row)
  : Accounts.t :=
  let account_data := account_data account in
  if String.eqb (Account.account_type account) "asset" then
    if column_eq (Account.subcategory account) "current" then
      {| Accounts.assets_current :=
           Accounts.assets_current balance_sheet ++ [account_data];
         Accounts.assets_non_current := Accounts.assets_non_current balance_sheet;
         Accounts.liabilities_current := Accounts.liabilities_current balance_sheet;
         Accounts.liabilities_non_current :=
           Accounts.liabilities_non_current balance_sheet;
         Accounts.equity := Accounts.equity balance_sheet |}
    else
      {| Accounts.assets_current := Accounts.assets_current balance_sheet;
         Accounts.assets_non_current :=
           Accounts.assets_non_current balance_sheet ++ [account_data];
         Accounts.liabilities_current := Accounts.liabilities_current balance_sheet;
         Accounts.liabilities_non_current :=
           Accounts.liabilities_non_current balance_sheet;
         Accounts.equity := Accounts.equity balance_sheet |}
  else if String.eqb (Account.account_type account) "liability" then
    if column_eq (Account.subcategory account) "current" then
      {| Accounts.assets_current := Accounts.assets_current balance_sheet;
         Accounts.assets_non_current := Accounts.assets_non_current balance_sheet;
         Accounts.liabilities_current :=
           Accounts.liabilities_current balance_sheet ++ [account_data];
         Accounts.liabilities_non_current :=
           Accounts.liabilities_non_current balance_sheet;
         Accounts.equity := Accounts.equity balance_sheet |}
    else
      {| Accounts.assets_current := Accounts.assets_current balance_sheet;
         Accounts.assets_non_current := Accounts.assets_non_current balance_sheet;
         Accounts.liabilities_current := Accounts.liabilities_current balance_sheet;
         Accounts.liabilities_non_current :=
           Accounts.liabilities_non_current balance_sheet ++ [account_data];
         Accounts.equity := Accounts.equity balance_sheet |}
  else if String.eqb (Account.account_type account) "equity" then
    {| Accounts.assets_current := Accounts.assets_current balance_sheet;
       Accounts.assets_non_current := Accounts.assets_non_current balance_sheet;
       Accounts.liabilities_current := Accounts.liabilities_current balance_sheet;
       Accounts.liabilities_non_current :=
         Accounts.liabilities_non_current balance_sheet;
       Accounts.equity := Accounts.equity balance_sheet ++ [account_data] |}
  else balance_sheet.

(** [sum(a['balance'] for a in listed)]. *)
Definition sum_balances (listed : list value) : result value :=
  for_fold listed (VInt 0) (fun total a =>
    balance ← py_getitem a "balance";
    py_add total balance).

(** The view function on the rows that [Account.query.all()] gives. *)
Definition get_balance_sheet (accounts : list Account.row)
  : result balance_sheet_response :=
  let balance_sheet :=
    fold_left group_account accounts
      {| Accounts.assets_current := []; Accounts.assets_non_current := [];
         Accounts.liabilities_current := [];
         Accounts.liabilities_non_current := [];
         Accounts.equity := [] |} in
  total_current_assets ← sum_balances (Accounts.assets_current balance_sheet);
  total_non_current_assets ←
    sum_balances (Accounts.assets_non_current balance_sheet);
  total_assets ← py_add total_current_assets total_non_current_assets;
  total_current_liabilities ←
    sum_balances (Accounts.liabilities_current balance_sheet);
  total_non_current_liabilities ←
    sum_balances (Accounts.liabilities_non_current balance_sheet);
  total_liabilities ←
    py_add total_current_liabilities total_non_current_liabilities;
  total_equity ← sum_balances (Accounts.equity balance_sheet);
  Ok {| accounts := balance_sheet;
        totals :=
          {| Totals.current_assets := total_current_assets;
             Totals.non_current_assets := total_non_current_assets;
             Totals.total_assets := total_assets;
             Totals.current_liabilities := total_current_liabilities;
             Totals.non_current_liabilities := total_non_current_liabilities;
             Totals.total_liabilities := total_liabilities;
             Totals.total_equity := total_equity |} |}.

(** The group of an account: its type, and for assets and liabilities
    whether its subcategory is ['current']. *)
Definition in_group (kind : string) (current : bool) (account : Account.row)
  : bool :=
  String.eqb (Account.account_type account) kind
  && Bool.eqb (column_eq (Account.subcategory account) "current") current.

Definition is_equity (account : Account.row) : bool :=
  String.eqb (Account.account_type account) "equity".

(** The accounts the response lists. *)
Definition listed (account : Account.row) : bool :=
  existsb (String.eqb (Account.account_type account))
    ["asset"; "liability"; "equity"].

Definition has_balance (account : Account.row) : bool :=
  match Account.balance account with
  | Some _ => true
  | None => false
  end.

(** The accounts of a group, as the response lists them. *)
Definition group_of (member : Account.row -> bool) (rows : list Account.row)
  : list value :=
  map account_data (List.filter member rows).

(** ** Upper case of ASCII text

    [str.upper()] on text of the ASCII range, such as the labels of the
    example payloads: the letters a-z are mapped and every other character
    is left as it is. *)

Definition upper_char (c : ascii) : ascii :=
  let n := N_of_ascii c in
  if (97 <=? n)%N && (n <=? 122)%N then ascii_of_N (n - 32) else c.

Fixpoint ascii_upper (s : string) : string :=
  match s with
  | EmptyString => EmptyString
  | String c s' => String (upper_char c) (ascii_upper s')
  end.

(** ** Decimal literals

    A reader for the plain decimal literals of the example payloads
    (an optional sign, digits, an optional fraction), correctly rounded
    like [float()]: the quotient is computed with more than 60 bits and a
    sticky bit, then rounded once.  Other spellings ([1e5], [inf], blanks)
    are not recognised by it; the properties below hold for every reader,
    this one only instantiates them. *)

Definition digit_of (c : ascii) : option Z :=
  let n := Z.of_N (N_of_ascii c) in
  if (48 <=? n) && (n <=? 57) then Some (n - 48) else None.

Fixpoint read_digits (s : string) (acc count : Z) : Z * Z * string :=
  match s with
  | EmptyString => (acc, count, s)
  | String c s' =>
      match digit_of c with
      | Some d => read_digits s' (10 * acc + d) (count + 1)
      | None => (acc, count, s)
      end
  end.

(** The binary64 number nearest to [m / 10^k], for [m >= 0]. *)
Definition nearest_quotient (m k : Z) : float :=
  let d := 10 ^ k in
  let s := Z.max 0 (64 + Z.log2 d - Z.log2 m) in
  let q := (m * 2 ^ s) / d in
  let sticky := if (m * 2 ^ s) mod d =? 0 then 0 else 1 in
  SF2Prim (binary_normalize prec emax (2 * q + sticky) (- s - 1) false).

Definition decimal_float (s : string) : option float :=
  let '(negative, body) :=
    match s with
    | String "-" r => (true, r)
    | String "+" r => (false, r)
    | _ => (false, s)
    end in
  let '(whole, n_whole, rest) := read_digits body 0 0 in
  let '(m, n_frac, rest') :=
    match rest with
    | String "." r => read_digits r whole 0
    | _ => (whole, 0, rest)
    end in
  if (0 <? n_whole + n_frac) && String.eqb rest' ""
  then Some (if negative : bool
             then PrimFloat.opp (nearest_quotient m n_frac)
             else nearest_quotient m n_frac)
  else None.

(** A reconciler as [__init__] leaves it, and an empty database. *)
Definition fresh : world :=
  {| self := {| adjustments := []; reconciliation_checks := ∅ |};
     db := {| balance_sheet_snapshots := []; adjustments_table := [] |} |}.

(** ** Rows of [adjustments] that the table takes

    A row with a text in [account_name] and, in the three Float columns,
    numbers that convert to [float] is taken, and a row whose
    [account_name] is [None] is refused by the NOT NULL column.  The
    examples rely on nothing else; every other row is counted as
    refused. *)

Definition float_column (v : value) : bool :=
  match as_number v with
  | Some n => is_ok (number_to_float n)
  | None => false
  end.

Definition takes_row (adj : adjustment) : bool :=
  match account_name adj with
  | VStr _ =>
      float_column (original_amount adj)
      && float_column (adjusted_amount adj)
      && float_column (adjustment_amount adj)
  | _ => false
  end.

(** ** Example payloads *)

Definition column (value_ tag : string) : value :=
  VDict [("value", VStr value_); ("id", VStr tag)].

(** Debits of 100500.00 against credits of 100000.00. *)
Definition unbalanced_rows : list value :=
  [ VDict [("ColData", VList [column "Cash" "Account";
                              column "100500.00" "Debit"])];
    VDict [("ColData", VList [column "Revenue" "Account";
                              column "100000.00" "Credit"])] ].

Definition unbalanced_trial_balance : value :=
  VDict [("Rows", VList unbalanced_rows)].

(** A report that has a header and no ['Rows']. *)
Definition report_without_rows : value :=
  VDict [("Header", VDict [("ReportName", VStr "Report")])].

(** Scenario C: a petty cash account at -200.00 next to an account in
    order. *)
Definition petty_cash : value :=
  VDict [("Name", VStr "Petty Cash"); ("AccountType", VStr "Cash");
         ("CurrentBalance", VFloat (-200))].

Definition receivables_account : value :=
  VDict [("Name", VStr "Trade Debtors");
         ("AccountType", VStr "Accounts Receivable");
         ("CurrentBalance", VInt 1500)].

Definition chart_accounts : list value := [petty_cash; receivables_account].

Definition chart_response : list (string * value) :=
  [("Account", VList chart_accounts)].

Definition chart : value := VDict [("QueryResponse", VDict chart_response)].

(** A second-level row of a balance sheet: a label and a total in the
    last of two columns. *)
Definition group_row (label total : string) : value :=
  VDict [("group", VStr label);
         ("ColData", VList [VDict [("value", VStr "Total")];
                            VDict [("value", VStr total)]])].

(** Scenario D: assets of 500000 against liabilities of 200000 and
    equity of 300000; the fixed assets appear twice. *)
Definition balanced_sections : list value :=
  [ VDict [("Rows", VList [ group_row "Current Assets" "300000.00";
                            group_row "Fixed Assets" "150000.00";
                            group_row "Fixed Assets (net)" "200000.00" ])];
    VDict [("Rows", VList [ group_row "Current Liability" "200000.00";
                            group_row "Owner Equity" "100000.00";
                            group_row "Retained Equity" "200000.00" ])] ].

Definition balanced_sheet : value := VDict [("Rows", VList balanced_sections)].

(** Retained earnings of -5000.00, in one section. *)
Definition deficit_sections : list value :=
  [ VDict [("Rows", VList [ group_row "Common Stock" "1000.00";
                            group_row "Retained Earnings" "-5000.00" ])] ].

Definition deficit_sheet : value := VDict [("Rows", VList deficit_sections)].

(** A RETAINED row with a single column, holding -5000.00. *)
Definition narrow_deficit_sheet : value :=
  VDict [("Rows", VList
    [ VDict [("Rows", VList
        [ VDict [("group", VStr "Retained Earnings");
                 ("ColData", VList [VDict [("value", VStr "-5000.00")]])] ])] ])].

(** Two sections with a RETAINED row each: -5000.00, then 7000.00. *)
Definition two_retained_sections : list value :=
  [ VDict [("Rows", VList [group_row "Retained Earnings" "-5000.00"])];
    VDict [("Rows", VList [group_row "Retained Earnings" "7000.00"])] ].

Definition two_retained_sheet : value :=
  VDict [("Rows", VList two_retained_sections)].


(** A chart whose one account, overdrawn, has a [null] name. *)
Definition nameless_chart : value :=
  VDict [("QueryResponse", VDict [("Account", VList
    [ VDict [("Name", VNone); ("AccountType", VStr "Cash");
             ("CurrentBalance", VFloat (-50))] ])])].


(** The payloads of a run: no open items and no bank accounts. *)
Definition run_payloads (tb bs coa : value) : payloads :=
  {| trial_balance := tb; balance_sheet := bs; chart_of_accounts := coa;
     open_ar := VNone; open_ap := VNone; bank_accounts := VNone |}.

(** The day of the example runs. *)
Definition run_date : clock :=
  {| date_read := "2026-01-31"; period_read := "2026-01-31" |}.

(** Scenario B's trial balance, Scenario D's balance sheet and Scenario
    C's chart of accounts. *)
Definition sample_payloads : payloads :=
  run_payloads unbalanced_trial_balance balanced_sheet chart.

(** The correction for the petty cash account. *)
Definition petty_cash_correction : adjustment :=
  {| account_name := VStr "Petty Cash";
     original_amount := VFloat (-200);
     adjusted_amount := VFloat 200;
     adjustment_amount := VFloat 400;
     reason := "Negative balance in Cash account";
     adjustment_type := "correction" |}.

(** The three adjustments of a run on [sample_payloads]. *)
Definition sample_adjustments : list adjustment :=
  [ {| account_name := VStr "Trial Balance Adjustment";
       original_amount := VFloat 500;
       adjusted_amount := VInt 0;
       adjustment_amount := VFloat (-500);
       reason := "Trial balance out of balance by $500.00";
       adjustment_type := "correction" |};
    {| account_name := VStr "Balance Sheet Adjustment";
       original_amount := VFloat 200000;
       adjusted_amount := VInt 0;
       adjustment_amount := VFloat (-200000);
       reason := "Balance sheet out of balance by $200000.00";
       adjustment_type := "correction" |};
    petty_cash_correction ].

(** The adjustments a run returned; none when it raised. *)
Definition returned_adjustments (outcome : result run_result * world)
  : list adjustment :=
  match fst outcome with
  | Ok r => result_adjustments r
  | Raise _ => []
  end.

Definition is_none (v : value) : bool :=
  match v with
  | VNone => true
  | _ => false
  end.

(** Two RETAINED rows the other way round: 7000.00, then -5000.00. *)
Definition late_deficit_sections : list value :=
  [ VDict [("Rows", VList [group_row "Retained Earnings" "7000.00"])];
    VDict [("Rows", VList [group_row "Retained Earnings" "-5000.00"])] ].

Definition late_deficit_sheet : value :=
  VDict [("Rows", VList late_deficit_sections)].

(** Three bank accounts: 2500000.0, 12000 and an overdraft of 1500000. *)
Definition bank_response : value :=
  VDict [("QueryResponse", VDict [("Account", VList
    [ VDict [("Name", VStr "Operating"); ("CurrentBalance", VFloat 2500000)];
      VDict [("Name", VStr "Payroll"); ("CurrentBalance", VInt 12000)];
      VDict [("Name", VStr "Credit Line");
             ("CurrentBalance", VInt (-1500000))] ])])].

(** The two notes of check 4 on [bank_response]. *)
Definition bank_notes : list adjustment :=
  [ {| account_name := VStr "Operating";
       original_amount := VFloat 2500000;
       adjusted_amount := VFloat 2500000;
       adjustment_amount := VInt 0;
       reason := "Large bank balance requires manual review: $2,500,000.00";
       adjustment_type := "info" |};
    {| account_name := VStr "Credit Line";
       original_amount := VInt (-1500000);
       adjusted_amount := VInt (-1500000);
       adjustment_amount := VInt 0;
       reason := "Large bank balance requires manual review: $-1,500,000.00";
       adjustment_type := "info" |} ].

(** Open receivables of 300000 and 250000.75, open payables of 900000. *)
Definition open_receivables : value :=
  VDict [("QueryResponse", VDict [("Customer", VList
    [ VDict [("DisplayName", VStr "Acme"); ("Balance", VInt 300000)];
      VDict [("DisplayName", VStr "Globex"); ("Balance", VFloat 250000.75)] ])])].

Definition open_payables : value :=
  VDict [("QueryResponse", VDict [("Vendor", VList
    [ VDict [("DisplayName", VStr "Initech"); ("Balance", VInt 900000)] ])])].

Definition receivables_review : adjustment :=
  {| account_name := VStr "Accounts Receivable";
     original_amount := VFloat 550000.75;
     adjusted_amount := VFloat 550000.75;
     adjustment_amount := VInt 0;
     reason := "High A/R balance requires review: $550,000.75";
     adjustment_type := "info" |}.

(** Payloads with all six reports. *)
Definition full_payloads : payloads :=
  {| trial_balance := unbalanced_trial_balance;
     balance_sheet := deficit_sheet;
     chart_of_accounts := chart;
     open_ar := open_receivables;
     open_ap := open_payables;
     bank_accounts := bank_response |}.

(** A collaborator that has the first of the six methods only. *)
Definition partial_api : object :=
  [ ("get_trial_balance", Method (fun _ => Ok unbalanced_trial_balance)) ].

(** Five rows of [accounts]: the last but one has a type the route does
    not list, and no balance. *)
Definition sample_accounts : list Account.row :=
  [ {| Account.id := 1; Account.name := "Cash";
       Account.account_type := "asset"; Account.subcategory := Some "current";
       Account.balance := Some 1000.5%float;
       Account.status := Some "reconciled"; Account.description := None |};
    {| Account.id := 2; Account.name := "Building";
       Account.account_type := "asset"; Account.subcategory := Some "fixed";
       Account.balance := Some 5000%float;
       Account.status := Some "reconciled"; Account.description := None |};
    {| Account.id := 3; Account.name := "Loan";
       Account.account_type := "liability"; Account.subcategory := None;
       Account.balance := Some 2000%float;
       Account.status := Some "pending"; Account.description := None |};
    {| Account.id := 4; Account.name := "Sales";
       Account.account_type := "revenue"; Account.subcategory := None;
       Account.balance := None;
       Account.status := None; Account.description := None |};
    {| Account.id := 5; Account.name := "Capital";
       Account.account_type := "equity"; Account.subcategory := Some "current";
       Account.balance := Some 4000.5%float;
       Account.status := Some "reconciled";
       Account.description := Some "Paid-in capital" |} ].

(** ** [BalanceSheetReconciler] *)

Section Reconciler.

(** Python's [float()] on a [str]: the parsed number, or [None] where it
    raises [ValueError]. *)
Variable str_to_float : string -> option float.

(** Python's [str.upper()], on the encoding of the text. *)
Variable str_upper : string -> string.

(** [x.upper()]. *)
Definition py_upper (x : value) : result string :=
  match x with
  | VStr s => Ok (str_upper s)
  | _ => Raise (AttributeError "upper")
  end.

(** [float(v)]. *)
Definition py_float (v : value) : result float :=
  match v with
  | VFloat f => Ok f
  | VInt z => float_of_Z z
  | VBool b => Ok (if b then 1%float else 0%float)
  | VStr s =>
      match str_to_float s with
      | Some f => Ok f
      | None => Raise ValueError
      end
  | _ => Raise TypeError
  end.

(** The literal [0.01]: the binary64 number nearest to it. *)
Definition tolerance : value := VFloat 0x1.47ae147ae147bp-7%float.

(** ['ColData' in sub_row and len(sub_row['ColData']) > 1], the guard
    of the three walks over the balance sheet. *)
Definition has_total_column (sub_row : value) : result bool :=
  has_cols ← py_contains "ColData" sub_row;
  if has_cols : bool
  then n ← py_getitem sub_row "ColData" ≫= py_len; Ok (1 <? n)
  else Ok false.

(** *** Check 1: trial balance *)

(** The body of [for col in row['ColData']]. *)
Definition tally_column (totals : value * value) (col : value)
  : result (value * value) :=
  let '(total_debits, total_credits) := totals in
  has_value ← py_contains "value" col;
  if negb has_value then Ok (total_debits, total_credits)
  else
    v ← py_get col "value" VNone;
    if py_eq_zero v then Ok (total_debits, total_credits)
    else
      tag ← py_get col "id" VNone;
      if py_eq_str tag "Debit" then
        x ← py_getitem col "value" ≫= py_float;
        total_debits' ← py_add total_debits (VFloat x);
        Ok (total_debits', total_credits)
      else
        tag' ← py_get col "id" VNone;
        if py_eq_str tag' "Credit" then
          x ← py_getitem col "value" ≫= py_float;
          total_credits' ← py_add total_credits (VFloat x);
          Ok (total_debits, total_credits')
        else Ok (total_debits, total_credits).

(** The body of [for row in trial_balance['Rows']]. *)
Definition tally_row (totals : value * value) (row : value)
  : result (value * value) :=
  has_cols ← py_contains "ColData" row;
  if negb has_cols then Ok totals
  else
    cols ← py_getitem row "ColData" ≫= py_iter;
    for_fold cols totals tally_column.

Definition _validate_trial_balance (trial_balance : value) : M unit :=
  has_rows ← lift (py_contains "Rows" trial_balance);
  if negb has_rows then mret tt
  else
    '(total_debits, total_credits) ← lift (
      rows ← py_getitem trial_balance "Rows" ≫= py_iter;
      for_fold rows (VInt 0, VInt 0) tally_row);
    difference ← lift (py_sub total_debits total_credits ≫= py_abs);
    set_check "trial_balance_difference" difference;;
    out_of_balance ← lift (py_gt difference tolerance);
    if out_of_balance : bool then
      delta ← lift (py_neg difference);
      amount ← lift (py_format_2f false difference);
      append_adjustment
        {| account_name := VStr "Trial Balance Adjustment";
           original_amount := difference;
           adjusted_amount := VInt 0;
           adjustment_amount := delta;
           reason := String.append "Trial balance out of balance by $" amount;
           adjustment_type := "correction" |}
    else mret tt.

(** *** Check 2: balance sheet equation *)

Definition _verify_balance_sheet_totals (balance_sheet : value) : M unit :=
  has_rows ← lift (py_contains "Rows" balance_sheet);
  if negb has_rows then mret tt
  else
    '(total_assets, total_liabilities, total_equity) ← lift (
      rows ← py_getitem balance_sheet "Rows" ≫= py_iter;
      for_fold rows (VInt 0, VInt 0, VInt 0) (fun totals row =>
        has_sub ← py_contains "Rows" row;
        if negb has_sub then Ok totals
        else
          sub_rows ← py_getitem row "Rows" ≫= py_iter;
          for_fold sub_rows totals
            (fun totals sub_row =>
              let '(total_assets, total_liabilities, total_equity) := totals in
              wide ← has_total_column sub_row;
              if negb wide then Ok (total_assets, total_liabilities, total_equity)
              else
                section_name ← py_get sub_row "group" (VStr "");
                last_col ← py_getitem sub_row "ColData" ≫= py_last;
                total_value ← py_get last_col "value" (VInt 0) ≫= py_float;
                name ← py_upper section_name;
                if is_substr "ASSET" name then
                  Ok (VFloat total_value, total_liabilities, total_equity)
                else
                  name' ← py_upper section_name;
                  if is_substr "LIABILITY" name' then
                    Ok (total_assets, VFloat total_value, total_equity)
                  else
                    name'' ← py_upper section_name;
                    if is_substr "EQUITY" name'' then
                      Ok (total_assets, total_liabilities, VFloat total_value)
                    else Ok (total_assets, total_liabilities, total_equity))));
    difference ← lift (
      rhs ← py_add total_liabilities total_equity;
      py_sub total_assets rhs ≫= py_abs);
    set_check "balance_sheet_difference" difference;;
    out_of_balance ← lift (py_gt difference tolerance);
    if out_of_balance : bool then
      delta ← lift (py_neg difference);
      amount ← lift (py_format_2f false difference);
      append_adjustment
        {| account_name := VStr "Balance Sheet Adjustment";
           original_amount := difference;
           adjusted_amount := VInt 0;
           adjustment_amount := delta;
           reason := String.append "Balance sheet out of balance by $" amount;
           adjustment_type := "correction" |}
    else mret tt.

(** *** Check 4: bank accounts *)

Definition _reconcile_bank_accounts (bank_accounts trial_balance : value)
  : M unit :=
  skip ← lift (if negb (truthy bank_accounts) then Ok true
               else has ← py_contains "QueryResponse" bank_accounts;
                    Ok (negb has));
  if skip : bool then mret tt
  else
    accounts ← lift (
      response ← py_getitem bank_accounts "QueryResponse";
      py_get response "Account" (VList []) ≫= py_iter);
    for_each accounts (fun account =>
      account_name ← lift (py_get account "Name" (VStr ""));
      ledger_balance ← lift (py_get account "CurrentBalance" (VInt 0));
      large ← lift (magnitude ← py_abs ledger_balance;
                    py_gt magnitude (VInt 1000000));
      if large : bool then
        amount ← lift (py_format_2f true ledger_balance);
        append_adjustment
          {| account_name := account_name;
             original_amount := ledger_balance;
             adjusted_amount := ledger_balance;
             adjustment_amount := VInt 0;
             reason := String.append
               "Large bank balance requires manual review: $" amount;
             adjustment_type := "info" |}
      else mret tt).

(** *** Check 5: open items *)

Definition _verify_open_items (open_ar open_ap : value) : M unit :=
  total_ar ← lift (
    present ← (if truthy open_ar then py_contains "QueryResponse" open_ar
               else Ok false);
    if present : bool then
      customers ← (response ← py_getitem open_ar "QueryResponse";
                   py_get response "Customer" (VList []) ≫= py_iter);
      for_fold customers (VInt 0) (fun total_ar customer =>
        balance ← py_get customer "Balance" (VInt 0);
        py_add total_ar balance)
    else Ok (VInt 0));
  total_ap ← lift (
    present ← (if truthy open_ap then py_contains "QueryResponse" open_ap
               else Ok false);
    if present : bool then
      vendors ← (response ← py_getitem open_ap "QueryResponse";
                 py_get response "Vendor" (VList []) ≫= py_iter);
      for_fold vendors (VInt 0) (fun total_ap vendor =>
        balance ← py_get vendor "Balance" (VInt 0);
        py_add total_ap balance)
    else Ok (VInt 0));
  set_check "total_open_ar" total_ar;;
  set_check "total_open_ap" total_ap;;
  high ← lift (py_gt total_ar (VInt 500000));
  if high : bool then
    amount ← lift (py_format_2f true total_ar);
    append_adjustment
      {| account_name := VStr "Accounts Receivable";
         original_amount := total_ar;
         adjusted_amount := total_ar;
         adjustment_amount := VInt 0;
         reason := String.append "High A/R balance requires review: $" amount;
         adjustment_type := "info" |}
  else mret tt.

(** *** Check 6: retained earnings *)

(** The body of [for sub_row in row['Rows']]; the flag is the [break]. *)
Definition find_retained (retained_earnings sub_row : value)
  : result (value * bool) :=
  wide ← has_total_column sub_row;
  if negb wide then Ok (retained_earnings, false)
  else
    section_name ← py_get sub_row "group" (VStr "");
    name ← py_upper section_name;
    if is_substr "RETAINED" name then
      last_col ← py_getitem sub_row "ColData" ≫= py_last;
      x ← py_get last_col "value" (VInt 0) ≫= py_float;
      Ok (VFloat x, true)
    else Ok (retained_earnings, false).

(** The body of [for row in balance_sheet['Rows']]: the [break] above
    leaves the inner loop only. *)
Definition find_retained_in_section (retained_earnings row : value)
  : result value :=
  has_sub ← py_contains "Rows" row;
  if negb has_sub then Ok retained_earnings
  else
    sub_rows ← py_getitem row "Rows" ≫= py_iter;
    for_fold_break sub_rows retained_earnings find_retained.

Definition _validate_retained_earnings (balance_sheet trial_balance : value)
  : M unit :=
  has_rows ← lift (py_contains "Rows" balance_sheet);
  if negb has_rows then mret tt
  else
    retained_earnings ← lift (
      rows ← py_getitem balance_sheet "Rows" ≫= py_iter;
      for_fold rows (VInt 0) find_retained_in_section);
    negative ← lift (py_lt retained_earnings (VInt 0));
    if negative : bool then
      amount ← lift (py_format_2f true retained_earnings);
      append_adjustment
        {| account_name := VStr "Retained Earnings";
           original_amount := retained_earnings;
           adjusted_amount := retained_earnings;
           adjustment_amount := VInt 0;
           reason := String.append "Negative retained earnings: $" amount;
           adjustment_type := "info" |}
    else mret tt.

(** *** Check 3: account balances *)

(** The body of [for account in ...get('Account', [])]. *)
Definition check_account (account : value) : M unit :=
  account_name ← lift (py_get account "Name" (VStr ""));
  account_type ← lift (py_get account "AccountType" (VStr ""));
  current_balance ← lift (py_get account "CurrentBalance" (VInt 0));
  negative ← lift (
    if existsb (py_eq_str account_type)
         ["Accounts Receivable"; "Cash"; "Inventory"]
    then py_lt current_balance (VInt 0)
    else Ok false);
  if negative : bool then
    magnitude ← lift (py_abs current_balance);
    magnitude' ← lift (py_abs current_balance);
    doubled ← lift (py_mul magnitude' (VInt 2));
    append_adjustment
      {| account_name := account_name;
         original_amount := current_balance;
         adjusted_amount := magnitude;
         adjustment_amount := doubled;
         reason := String.append "Negative balance in "
                     (String.append (py_str account_type) " account");
         adjustment_type := "correction" |}
  else mret tt.

Definition _check_account_balances (chart_of_accounts trial_balance : value)
  : M unit :=
  has_response ← lift (py_contains "QueryResponse" chart_of_accounts);
  if negb has_response then mret tt
  else
    accounts ← lift (
      response ← py_getitem chart_of_accounts "QueryResponse";
      py_get response "Account" (VList []) ≫= py_iter);
    for_each accounts check_account.

(** *** The summary balance sheet *)

(** The body of [for sub_row in row['Rows']]. *)
Definition categorize (summary : categories) (sub_row : value)
  : result categories :=
  wide ← has_total_column sub_row;
  if negb wide then Ok summary
  else
    account_name ← py_get sub_row "group" (VStr "");
    last_col ← py_getitem sub_row "ColData" ≫= py_last;
    x ← py_get last_col "value" (VInt 0) ≫= py_float;
    let total_value := VFloat x in
    name ← py_upper account_name;
    if is_substr "ASSET" name then
      if is_substr "CURRENT" name then
        Ok (store AssetsCurrent total_value summary)
      else if is_substr "FIXED" name || is_substr "PROPERTY" name then
        Ok (store AssetsFixed total_value summary)
      else Ok (store AssetsOther total_value summary)
    else if is_substr "LIABILITY" name then
      if is_substr "CURRENT" name then
        Ok (store LiabilitiesCurrent total_value summary)
      else Ok (store LiabilitiesLongTerm total_value summary)
    else if is_substr "EQUITY" name then
      if is_substr "RETAINED" name then
        Ok (store EquityRetained total_value summary)
      else Ok (store EquityOwners total_value summary)
    else Ok summary.

(** The body of [for row in balance_sheet['Rows']]. *)
Definition categorize_section (summary : categories) (row : value)
  : result categories :=
  has_sub ← py_contains "Rows" row;
  if negb has_sub then Ok summary
  else
    sub_rows ← py_getitem row "Rows" ≫= py_iter;
    for_fold sub_rows summary categorize.

Definition _generate_summary_balance_sheet (balance_sheet : value)
  : result summary_dict :=
  has_rows ← py_contains "Rows" balance_sheet;
  if negb has_rows then Ok EmptyDict
  else
    rows ← py_getitem balance_sheet "Rows" ≫= py_iter;
    summary ← for_fold rows empty_categories categorize_section;
    total_assets ← (partial ← py_add (assets_current summary)
                                     (assets_fixed summary);
                    py_add partial (assets_other summary));
    total_liabilities ← py_add (liabilities_current summary)
                               (liabilities_long_term summary);
    total_equity ← py_add (equity_owners_equity summary)
                          (equity_retained_earnings summary);
    Ok (SummaryDict
          {| Summary.groups := summary;
             Summary.total_assets := total_assets;
             Summary.total_liabilities := total_liabilities;
             Summary.total_equity := total_equity |}).

(** *** The run *)

Definition data_unavailable : exn :=
  Exception_ "Failed to retrieve required data from QuickBooks".

(** Whether the adjustments table takes a row: [account_name],
    [reason] and [adjustment_type] are NOT NULL, and the driver has to
    bind every value. *)
Variable accepts : adjustment -> bool.

(** [for adj in self.adjustments: db.session.add(Adjustment(...))] with
    the [db.session.commit()] after the loop: the rows are inserted in one
    transaction, and when the database refuses one of them the commit
    raises and no row is written. *)
Definition db_add_adjustments (log_id : Z) (adjs : list adjustment) : M unit :=
  fun w =>
    if forallb accepts adjs then for_each adjs (db_add_adjustment log_id) w
    else (Raise SQLAlchemyError, w).

(** The end of [reconcile], from [# Log reconciliation results] on;
    [today] holds the readings of [datetime.now().date()]. *)
Definition log_results (today : clock) (as_of_date : option date)
  (summary_bs : summary_dict) : M run_result :=
  total_assets ← lift (summary_getitem summary_bs "total_assets");
  total_liabilities ← lift (summary_getitem summary_bs "total_liabilities");
  total_equity ← lift (summary_getitem summary_bs "total_equity");
  is_balanced ← lift (
    a ← summary_getitem summary_bs "total_assets";
    l ← summary_getitem summary_bs "total_liabilities";
    e ← summary_getitem summary_bs "total_equity";
    rhs ← py_add l e;
    gap ← py_sub a rhs ≫= py_abs;
    py_lt gap tolerance);
  pending ← get_adjustments;
  reconciliation_log ← db_add_snapshot
    (default (date_read today) as_of_date)
    (default (period_read today) as_of_date)
    total_assets total_liabilities total_equity is_balanced
    (Z.of_nat (List.length pending));
  saved ← get_adjustments;
  db_add_adjustments (Snapshot.id reconciliation_log) saved;;
  adjustments ← get_adjustments;
  checks ← get_checks;
  mret {| summary_balance_sheet := summary_bs;
          result_adjustments := adjustments;
          result_checks := checks;
          result_is_balanced := Snapshot.is_balanced reconciliation_log |}.

Definition reconcile (qbo_api : object) (today : clock)
  (as_of_date : option date) : M run_result :=
  trial_balance ← call qbo_api "get_trial_balance" as_of_date;
  balance_sheet ← call qbo_api "get_balance_sheet_report" as_of_date;
  chart_of_accounts ← call qbo_api "get_chart_of_accounts" None;
  open_ar ← call qbo_api "get_open_ar" None;
  open_ap ← call qbo_api "get_open_ap" None;
  bank_accounts ← call qbo_api "get_bank_accounts" None;
  if negb (forallb truthy [trial_balance; balance_sheet; chart_of_accounts])
  then raise data_unavailable
  else
    _validate_trial_balance trial_balance;;
    _verify_balance_sheet_totals balance_sheet;;
    _check_account_balances chart_of_accounts trial_balance;;
    _reconcile_bank_accounts bank_accounts trial_balance;;
    _verify_open_items open_ar open_ap;;
    _validate_retained_earnings balance_sheet trial_balance;;
    summary_bs ← lift (_generate_summary_balance_sheet balance_sheet);
    log_results today as_of_date summary_bs.

(** ** What the reports mean

    The reading of a well-formed report that the statements below compare
    the walks against. *)

(** [((0 + x1) + x2) + ...] in floating point. *)
Definition float_sum (xs : list float) : float :=
  fold_left PrimFloat.add xs 0%float.

(** A running total that started as the [int] 0: it is a [float] from
    the first addition on. *)
Definition total_of (xs : list float) : value :=
  match xs with
  | [] => VInt 0
  | _ => VFloat (float_sum xs)
  end.

Definition row_columns (row : value) : list value :=
  match row with
  | VDict d =>
      match dict_lookup "ColData" d with
      | Some (VList cols) => cols
      | _ => []
      end
  | _ => []
  end.

(** The amount of a column whose [id] is [tag] and whose [value] is
    present and different from 0. *)
Definition tagged_value (tag : string) (col : value) : option float :=
  match col with
  | VDict d =>
      match dict_lookup "value" d with
      | Some v =>
          if py_eq_zero v then None
          else if py_eq_str (default VNone (dict_lookup "id" d)) tag
               then match py_float v with Ok x => Some x | Raise _ => None end
               else None
      | None => None
      end
  | _ => None
  end.

Definition tagged_values (tag : string) (rows : list value) : list float :=
  omap (tagged_value tag) (flat_map row_columns rows).

(** A column is a dict, and an amount that counts converts to [float]. *)
Definition column_ok (col : value) : bool :=
  match col with
  | VDict d =>
      match dict_lookup "value" d with
      | Some v =>
          let tag := default VNone (dict_lookup "id" d) in
          py_eq_zero v
          || negb (py_eq_str tag "Debit" || py_eq_str tag "Credit")
          || is_ok (py_float v)
      | None => true
      end
  | _ => false
  end.

(** A row is a dict whose [ColData], when present, is a list of columns. *)
Definition row_ok (row : value) : bool :=
  match row with
  | VDict d =>
      match dict_lookup "ColData" d with
      | None => true
      | Some (VList cols) => forallb column_ok cols
      | Some _ => false
      end
  | _ => false
  end.

(** The balancing plug of checks 1 and 2. *)
Definition plug (name label : string) (difference : float) : adjustment :=
  {| account_name := VStr name;
     original_amount := VFloat difference;
     adjusted_amount := VInt 0;
     adjustment_amount := VFloat (- difference)%float;
     reason := String.append label (fixed2 false difference);
     adjustment_type := "correction" |}.

(** The reconciler after check 1 on debits [ds] and credits [cs]. *)
Definition after_trial_balance (ds cs : list float) (r : reconciler)
  : reconciler :=
  match ds, cs with
  | [], [] =>
      {| adjustments := adjustments r;
         reconciliation_checks :=
           <["trial_balance_difference" := VInt 0]> (reconciliation_checks r) |}
  | _, _ =>
      let difference := PrimFloat.abs (float_sum ds - float_sum cs)%float in
      {| adjustments :=
           adjustments r ++
           (if (0x1.47ae147ae147bp-7 <? difference)%float
            then [plug "Trial Balance Adjustment"
                    "Trial balance out of balance by $" difference]
            else []);
         reconciliation_checks :=
           <["trial_balance_difference" := VFloat difference]>
             (reconciliation_checks r) |}
  end.

(** *** The chart of accounts *)

(** [w] with [new] appended to [self.adjustments]. *)
Definition extend (w : world) (new : list adjustment) : world :=
  {| self := {| adjustments := adjustments (self w) ++ new;
                reconciliation_checks := reconciliation_checks (self w) |};
     db := db w |}.

Definition field (k : string) (dflt entry : value) : value :=
  match entry with
  | VDict d => default dflt (dict_lookup k d)
  | _ => dflt
  end.

Definition flagged_type (account : value) : bool :=
  existsb (py_eq_str (field "AccountType" (VStr "") account))
    ["Accounts Receivable"; "Cash"; "Inventory"].

(** [B < 0], [|B|] and [2 * |B|] on a number. *)
Definition negative (B : number) : bool :=
  match B with
  | NInt z => z <? 0
  | NFloat f => (f <? 0)%float
  end.

Definition magnitude (B : number) : value :=
  match B with
  | NInt z => VInt (Z.abs z)
  | NFloat f => VFloat (PrimFloat.abs f)
  end.

Definition twice_magnitude (B : number) : value :=
  match B with
  | NInt z => VInt (Z.abs z * 2)
  | NFloat f => VFloat (PrimFloat.abs f * 2)%float
  end.

(** The correction an account calls for: one for a negative balance on
    an account of a flagged type, none otherwise. *)
Definition correction_for (account : value) : option adjustment :=
  if flagged_type account then
    match as_number (field "CurrentBalance" (VInt 0) account) with
    | Some B =>
        if negative B then
          Some {| account_name := field "Name" (VStr "") account;
                  original_amount := field "CurrentBalance" (VInt 0) account;
                  adjusted_amount := magnitude B;
                  adjustment_amount := twice_magnitude B;
                  reason := String.append "Negative balance in "
                    (String.append
                       (py_str (field "AccountType" (VStr "") account))
                       " account");
                  adjustment_type := "correction" |}
        else None
    | None => None
    end
  else None.

(** An account is a dict, and its balance is a number when its type is
    one the check looks at. *)
Definition account_ok (account : value) : bool :=
  match account with
  | VDict _ =>
      if flagged_type account
      then bool_decide
             (is_Some (as_number (field "CurrentBalance" (VInt 0) account)))
      else true
  | _ => false
  end.

(** The accounts of a chart: [chart['QueryResponse'].get('Account', [])],
    none when there is no ['QueryResponse']. *)
Definition chart_entries (chart_of_accounts : value) : list value :=
  match chart_of_accounts with
  | VDict d =>
      match dict_lookup "QueryResponse" d with
      | Some (VDict response) =>
          match default (VList []) (dict_lookup "Account" response) with
          | VList accounts => accounts
          | _ => []
          end
      | _ => []
      end
  | _ => []
  end.

(** A chart is a dict whose ['QueryResponse'], when present, is a dict
    whose ['Account'], when present, is a list of accounts. *)
Definition chart_ok (chart_of_accounts : value) : bool :=
  match chart_of_accounts with
  | VDict d =>
      match dict_lookup "QueryResponse" d with
      | None => true
      | Some (VDict response) =>
          match default (VList []) (dict_lookup "Account" response) with
          | VList accounts => forallb account_ok accounts
          | _ => false
          end
      | Some _ => false
      end
  | _ => false
  end.

(** *** The balance sheet *)

Definition sub_rows_of (row : value) : list value :=
  match row with
  | VDict d =>
      match dict_lookup "Rows" d with
      | Some (VList sub_rows) => sub_rows
      | _ => []
      end
  | _ => []
  end.

(** The group a second-level row stands for: its upper-cased label and
    the amount in its last column, when it has at least two columns. *)
Definition group_total (sub_row : value) : option (string * float) :=
  match sub_row with
  | VDict d =>
      match dict_lookup "ColData" d with
      | Some (VList cols) =>
          if 1 <? Z.of_nat (List.length cols) then
            match last cols, default (VStr "") (dict_lookup "group" d) with
            | Some (VDict c), VStr label =>
                match py_float (default (VInt 0) (dict_lookup "value" c)) with
                | Ok x => Some (str_upper label, x)
                | Raise _ => None
                end
            | _, _ => None
            end
          else None
      | _ => None
      end
  | _ => None
  end.

(** The groups of a report, in the order the walks visit them. *)
Definition group_totals (rows : list value) : list (string * float) :=
  omap group_total (flat_map sub_rows_of rows).

(** A second-level row is a dict; its [ColData], when present, is a
    list, and when that has two columns or more the label is text and the
    last column is a dict with an amount that converts to [float]. *)
Definition sub_row_ok (sub_row : value) : bool :=
  match sub_row with
  | VDict d =>
      match dict_lookup "ColData" d with
      | None => true
      | Some (VList cols) =>
          if 1 <? Z.of_nat (List.length cols) then
            match last cols, default (VStr "") (dict_lookup "group" d) with
            | Some (VDict c), VStr _ =>
                is_ok (py_float (default (VInt 0) (dict_lookup "value" c)))
            | _, _ => false
            end
          else true
      | Some _ => false
      end
  | _ => false
  end.

(** A top-level row is a dict whose ['Rows'], when present, is a list of
    second-level rows. *)
Definition section_ok (row : value) : bool :=
  match row with
  | VDict d =>
      match dict_lookup "Rows" d with
      | None => true
      | Some (VList sub_rows) => forallb sub_row_ok sub_rows
      | Some _ => false
      end
  | _ => false
  end.

(** The bucket of an upper-cased label. *)
Definition classify (name : string) : option bucket :=
  if is_substr "ASSET" name then
    if is_substr "CURRENT" name then Some AssetsCurrent
    else if is_substr "FIXED" name || is_substr "PROPERTY" name
         then Some AssetsFixed
         else Some AssetsOther
  else if is_substr "LIABILITY" name then
    if is_substr "CURRENT" name then Some LiabilitiesCurrent
    else Some LiabilitiesLongTerm
  else if is_substr "EQUITY" name then
    if is_substr "RETAINED" name then Some EquityRetained
    else Some EquityOwners
  else None.

Definition bucket_eqb (a b : bucket) : bool :=
  match a, b with
  | AssetsCurrent, AssetsCurrent | AssetsFixed, AssetsFixed
  | AssetsOther, AssetsOther | LiabilitiesCurrent, LiabilitiesCurrent
  | LiabilitiesLongTerm, LiabilitiesLongTerm | EquityOwners, EquityOwners
  | EquityRetained, EquityRetained | EquityNetIncome, EquityNetIncome => true
  | _, _ => false
  end.

Definition in_bucket (b : bucket) (group : string * float) : bool :=
  match classify (fst group) with
  | Some b' => bucket_eqb b b'
  | None => false
  end.

(** The amount of the last group that falls in bucket [b]; the [int] 0
    when there is none. *)
Definition last_total (b : bucket) (groups : list (string * float)) : value :=
  match last (List.filter (in_bucket b) groups) with
  | Some g => VFloat (snd g)
  | None => VInt 0
  end.

(** What a group does to the summary: it overwrites its bucket. *)
Definition place (summary : categories) (group : string * float) : categories :=
  match classify (fst group) with
  | Some b => store b (VFloat (snd group)) summary
  | None => summary
  end.

(** The amount of a group whose label contains RETAINED. *)
Definition retained_total (sub_row : value) : option float :=
  match group_total sub_row with
  | Some (name, x) => if is_substr "RETAINED" name then Some x else None
  | None => None
  end.

(** The first such amount within one top-level section. *)
Definition retained_in_section (row : value) : option float :=
  head (omap retained_total (sub_rows_of row)).

(** The note of check 6 for retained earnings of [x]. *)
Definition negative_retained (x : float) : list adjustment :=
  if (x <? 0)%float then
    [ {| account_name := VStr "Retained Earnings";
         original_amount := VFloat x;
         adjusted_amount := VFloat x;
         adjustment_amount := VInt 0;
         reason := String.append "Negative retained earnings: $"
                     (fixed2 true x);
         adjustment_type := "info" |} ]
  else [].

(** *** Runs *)

(** The exceptions that the interpreter and the libraries raise, as
    opposed to the [Exception] that [reconcile] raises itself. *)
Definition builtin (e : exn) : bool :=
  match e with
  | Exception_ _ => false
  | _ => true
  end.

Definition raises_builtin {A} (r : result A) : Prop :=
  forall e, r = Raise e -> builtin e = true.

(** A method that raises built-in exceptions only. *)
Definition careful {A} (m : M A) : Prop :=
  forall w, raises_builtin (fst (m w)).

(** [w'] differs from [w] by adjustments appended and metrics set: the
    database is the same, the old adjustments are a prefix and every
    metric recorded before is still recorded. *)
Definition grows (w w' : world) : Prop :=
  db w' = db w
  /\ (exists new, adjustments (self w') = adjustments (self w) ++ new)
  /\ (forall name : string,
        is_Some (reconciliation_checks (self w) !! name) ->
        is_Some (reconciliation_checks (self w') !! name)).

(** A method that only appends adjustments and sets metrics, whether
    it returns or raises. *)
Definition appends_only {A} (m : M A) : Prop :=
  forall w, grows w (snd (m w)).

(** The six checks in the order [reconcile] calls them. *)
Definition six_checks (p : payloads) : list (M unit) :=
  [ _validate_trial_balance (trial_balance p);
    _verify_balance_sheet_totals (balance_sheet p);
    _check_account_balances (chart_of_accounts p) (trial_balance p);
    _reconcile_bank_accounts (bank_accounts p) (trial_balance p);
    _verify_open_items (open_ar p) (open_ap p);
    _validate_retained_earnings (balance_sheet p) (trial_balance p) ].

(** One method after the other, up to the first that raises. *)
Fixpoint run_all (ms : list (M unit)) : M unit :=
  match ms with
  | [] => mret tt
  | m :: ms' => m;; run_all ms'
  end.

(** The rows that [for adj in self.adjustments: db.session.add(...)]
    adds to the adjustments table. *)
Fixpoint saved_rows (log_id : Z) (table : list AdjustmentRow.row)
  (adjs : list adjustment) : list AdjustmentRow.row :=
  match adjs with
  | [] => []
  | adj :: adjs' =>
      let row :=
        {| AdjustmentRow.id := next_id (map AdjustmentRow.id table);
           AdjustmentRow.reconciliation_log_id := log_id;
           AdjustmentRow.fields := adj |} in
      row :: saved_rows log_id (table ++ [row]) adjs'
  end.

(** *** Check 2 read on a well-formed balance sheet *)

Inductive side : Type := Assets | Liabilities | Equity.

(** The side of the equation an upper-cased label counts for. *)
Definition side_of (name : string) : option side :=
  if is_substr "ASSET" name then Some Assets
  else if is_substr "LIABILITY" name then Some Liabilities
  else if is_substr "EQUITY" name then Some Equity
  else None.

Definition side_eqb (a b : side) : bool :=
  match a, b with
  | Assets, Assets | Liabilities, Liabilities | Equity, Equity => true
  | _, _ => false
  end.

Definition on_side (sd : side) (group : string * float) : bool :=
  match side_of (fst group) with
  | Some sd' => side_eqb sd sd'
  | None => false
  end.

(** The amount of the last group on side [sd]; the [int] 0 when there
    is none. *)
Definition side_total (sd : side) (groups : list (string * float)) : value :=
  match last (List.filter (on_side sd) groups) with
  | Some g => VFloat (snd g)
  | None => VInt 0
  end.

(** An amount as a [float]: the [int] 0 is converted in mixed
    arithmetic. *)
Definition amount (v : value) : float :=
  match v with
  | VFloat f => f
  | _ => 0%float
  end.

(** [abs(assets - (liabilities + equity))] on three totals that are
    each the [int] 0 or a [float]. *)
Definition sheet_difference (a l e : value) : value :=
  match a, l, e with
  | VInt _, VInt _, VInt _ => VInt 0
  | _, _, _ => VFloat (PrimFloat.abs (amount a - (amount l + amount e)))%float
  end.

(** The plug a difference calls for: one when it is a [float] above
    0.01. *)
Definition plug_for (name label : string) (difference : value)
  : list adjustment :=
  match difference with
  | VFloat f =>
      if (0x1.47ae147ae147bp-7 <? f)%float then [plug name label f] else []
  | _ => []
  end.

(** [w] with a metric set and adjustments appended. *)
Definition record (w : world) (metric : string) (v : value)
  (new : list adjustment) : world :=
  {| self := {| adjustments := adjustments (self w) ++ new;
                reconciliation_checks :=
                  <[metric := v]> (reconciliation_checks (self w)) |};
     db := db w |}.

(** What a group does to the three totals of check 2: it overwrites
    the total of its side. *)
Definition put_side (totals : value * value * value) (group : string * float)
  : value * value * value :=
  let '(a, l, e) := totals in
  match side_of (fst group) with
  | Some Assets => (VFloat (snd group), l, e)
  | Some Liabilities => (a, VFloat (snd group), e)
  | Some Equity => (a, l, VFloat (snd group))
  | None => totals
  end.

Definition pick (sd : side) (totals : value * value * value) : value :=
  let '(a, l, e) := totals in
  match sd with
  | Assets => a
  | Liabilities => l
  | Equity => e
  end.

(** *** Checks 4 and 5 read on well-formed query responses *)

(** [|B| > 1000000]. *)
Definition large (B : number) : bool :=
  match as_number (magnitude B) with
  | Some m => number_ltb (NInt 1000000) m
  | None => false
  end.

(** The note of check 4 for a bank account: one when the magnitude of
    its balance exceeds 1,000,000, none otherwise. *)
Definition bank_note (account : value) : option adjustment :=
  match as_number (field "CurrentBalance" (VInt 0) account) with
  | Some B =>
      if large B then
        match py_format_2f true (field "CurrentBalance" (VInt 0) account) with
        | Ok amount =>
            Some {| account_name := field "Name" (VStr "") account;
                    original_amount := field "CurrentBalance" (VInt 0) account;
                    adjusted_amount := field "CurrentBalance" (VInt 0) account;
                    adjustment_amount := VInt 0;
                    reason := String.append
                      "Large bank balance requires manual review: $" amount;
                    adjustment_type := "info" |}
        | Raise _ => None
        end
      else None
  | None => None
  end.

(** A bank account is a dict whose balance is a number, small enough
    for [float] when it is large enough for a note. *)
Definition bank_account_ok (account : value) : bool :=
  match account with
  | VDict _ =>
      match as_number (field "CurrentBalance" (VInt 0) account) with
      | Some B =>
          if large B
          then is_ok (py_format_2f true (field "CurrentBalance" (VInt 0) account))
          else true
      | None => false
      end
  | _ => false
  end.

(** The entries [report['QueryResponse'].get(key, [])] of a query
    response, none when the report is falsy or has no ['QueryResponse']. *)
Definition entries (key : string) (report : value) : list value :=
  match report with
  | VDict d =>
      match dict_lookup "QueryResponse" d with
      | Some (VDict response) =>
          match default (VList []) (dict_lookup key response) with
          | VList items => items
          | _ => []
          end
      | _ => []
      end
  | _ => []
  end.

(** A query response is falsy, or a dict whose ['QueryResponse'], when
    present, is a dict whose [key], when present, is a list of entries
    that pass [entry_ok]. *)
Definition response_ok (key : string) (entry_ok : value -> bool)
  (report : value) : bool :=
  match report with
  | VDict d =>
      match dict_lookup "QueryResponse" d with
      | None => true
      | Some (VDict response) =>
          match default (VList []) (dict_lookup key response) with
          | VList items => forallb entry_ok items
          | _ => false
          end
      | Some _ => false
      end
  | _ => negb (truthy report)
  end.

Definition is_dict (v : value) : bool :=
  match v with
  | VDict _ => true
  | _ => false
  end.

(** The ['Balance'] fields of the entries of an open-items report. *)
Definition open_balances (key : string) (report : value) : list value :=
  map (field "Balance" (VInt 0)) (entries key report).

(** The note of check 5 for open receivables of [total]. *)
Definition receivables_note (total : value) : list adjustment :=
  match py_gt total (VInt 500000), py_format_2f true total with
  | Ok true, Ok amount =>
      [ {| account_name := VStr "Accounts Receivable";
           original_amount := total;
           adjusted_amount := total;
           adjustment_amount := VInt 0;
           reason := String.append "High A/R balance requires review: $" amount;
           adjustment_type := "info" |} ]
  | _, _ => []
  end.

(** *** What a run may leave on the instance *)

(** The four metrics the checks record. *)
Definition run_metrics : list string :=
  [ "trial_balance_difference"; "balance_sheet_difference";
    "total_open_ar"; "total_open_ap" ].

(** The two kinds of adjustment the checks build: a "correction", or an
    "info" note that changes nothing. *)
Definition finding (adj : adjustment) : Prop :=
  adjustment_type adj = "correction"
  \/ (adjustment_type adj = "info"
      /\ adjustment_amount adj = VInt 0
      /\ adjusted_amount adj = original_amount adj).

(** [w'] differs from [w] on the instance by findings appended and by
    the values of the four metrics at most. *)
Definition within (w w' : world) : Prop :=
  (exists new, adjustments (self w') = adjustments (self w) ++ new
               /\ Forall finding new)
  /\ (forall name : string,
        ~ In name run_metrics ->
        reconciliation_checks (self w') !! name
        = reconciliation_checks (self w) !! name).

Definition confined {A} (m : M A) : Prop :=
  forall w, within w (snd (m w)).

(** The six fetches in the order [reconcile] makes them. *)
Definition fetches (qbo_api : object) (as_of_date : option date)
  : list (result value) :=
  [ invoke qbo_api "get_trial_balance" as_of_date;
    invoke qbo_api "get_balance_sheet_report" as_of_date;
    invoke qbo_api "get_chart_of_accounts" None;
    invoke qbo_api "get_open_ar" None;
    invoke qbo_api "get_open_ap" None;
    invoke qbo_api "get_bank_accounts" None ].

(** *** A run on well-formed payloads *)

(** The ['Rows'] list of a report. *)
Definition rows_of (report : value) : option (list value) :=
  match report with
  | VDict d =>
      match dict_lookup "Rows" d with
      | Some (VList rows) => Some rows
      | _ => None
      end
  | _ => None
  end.

(** The difference check 1 records for the rows of a trial balance. *)
Definition trial_difference (rows : list value) : value :=
  match tagged_values "Debit" rows, tagged_values "Credit" rows with
  | [], [] => VInt 0
  | ds, cs => VFloat (PrimFloat.abs (float_sum ds - float_sum cs))%float
  end.

(** A trial balance is a non-empty dict whose ['Rows'], when present,
    is a list of well-formed rows. *)
Definition trial_balance_ok (trial_balance : value) : bool :=
  match trial_balance with
  | VDict d =>
      match dict_lookup "Rows" d with
      | None => truthy trial_balance
      | Some (VList rows) => forallb row_ok rows
      | Some _ => false
      end
  | _ => false
  end.

(** A balance sheet is a dict with a ['Rows'] list of well-formed
    sections. *)
Definition balance_sheet_ok (balance_sheet : value) : bool :=
  match rows_of balance_sheet with
  | Some rows => forallb section_ok rows
  | None => false
  end.

(** Well-formed payloads: the three mandatory reports are there and
    every report has the shape the checks read, with open balances that
    add up. *)
Definition payloads_ok (p : payloads) : bool :=
  trial_balance_ok (trial_balance p)
  && balance_sheet_ok (balance_sheet p)
  && (truthy (chart_of_accounts p) && chart_ok (chart_of_accounts p))
  && response_ok "Account" bank_account_ok (bank_accounts p)
  && (response_ok "Customer" is_dict (open_ar p)
      && is_ok (py_sum (open_balances "Customer" (open_ar p))
                ≫= py_format_2f true))
  && (response_ok "Vendor" is_dict (open_ap p)
      && is_ok (py_sum (open_balances "Vendor" (open_ap p)))).

(** What each check finds, in the order of the checks. *)
Definition findings (p : payloads) : list (list adjustment) :=
  [ match rows_of (trial_balance p) with
    | Some rows =>
        plug_for "Trial Balance Adjustment" "Trial balance out of balance by $"
          (trial_difference rows)
    | None => []
    end;
    match rows_of (balance_sheet p) with
    | Some rows =>
        plug_for "Balance Sheet Adjustment" "Balance sheet out of balance by $"
          (sheet_difference (side_total Assets (group_totals rows))
             (side_total Liabilities (group_totals rows))
             (side_total Equity (group_totals rows)))
    | None => []
    end;
    omap correction_for (chart_entries (chart_of_accounts p));
    omap bank_note (entries "Account" (bank_accounts p));
    match py_sum (open_balances "Customer" (open_ar p)) with
    | Ok total_ar => receivables_note total_ar
    | Raise _ => []
    end;
    match rows_of (balance_sheet p) with
    | Some rows =>
        match last (omap retained_in_section rows) with
        | Some x => negative_retained x
        | None => []
        end
    | None => []
    end ].

(** A method that returns from every state, having appended [new]. *)
Definition finds (c : M unit) (new : list adjustment) : Prop :=
  forall w, exists w1,
    c w = (Ok tt, w1) /\ adjustments (self w1) = adjustments (self w) ++ new.

(** *** Methods that do not read the instance *)

(** [w] with [new] appended to the adjustments and the metrics of
    [recorded] set. *)
Definition effect (new : list adjustment) (recorded : gmap string value)
  (w : world) : world :=
  {| self := {| adjustments := adjustments (self w) ++ new;
                reconciliation_checks :=
                  recorded ∪ reconciliation_checks (self w) |};
     db := db w |}.

(** A method whose outcome and whose effect on the instance are the
    same from every state. *)
Definition framed {A} (m : M A) : Prop :=
  exists (outcome : result A) (new : list adjustment)
         (recorded : gmap string value),
    forall w, m w = (outcome, effect new recorded w).

(** ** Properties *)

(** The exact comparison of a [float] with the [int] 0 is the
    floating-point one. *)
Lemma float_lt_zero (f : float) :
  number_ltb (NFloat f) (NInt 0) = (f <? 0)%float.
Proof.
  unfold number_ltb, float_cmp_Z. rewrite ltb_spec.
  change (Prim2SF 0) with (S754_zero false).
  unfold SFltb, SFcompare.
  destruct (Prim2SF f) as [s|s| |s m e]; try reflexivity.
  destruct (0 <=? e) eqn:He.
  - apply Z.leb_le in He.
    pose proof (Z.pow_pos_nonneg 2 e ltac:(lia) He) as Hpow.
    destruct s.
    + assert (Z.neg m * 2 ^ e < 0) as Hlt by nia.
      apply Z.compare_lt_iff in Hlt. rewrite Hlt. reflexivity.
    + assert (0 < Z.pos m * 2 ^ e) as Hgt by nia.
      apply Z.compare_gt_iff in Hgt. rewrite Hgt. reflexivity.
  - destruct s; reflexivity.
Qed.

Lemma number_lt_zero (B : number) : number_ltb B (NInt 0) = negative B.
Proof. destruct B; [reflexivity | apply float_lt_zero]. Qed.

Lemma py_add_total (xs : list float) (x : float) :
  py_add (total_of xs) (VFloat x) = Ok (total_of (xs ++ [x])).
Proof.
  destruct xs as [|a l]; [reflexivity|].
  assert (float_sum ((a :: l) ++ [x]) = (float_sum (a :: l) + x)%float) as H
    by (unfold float_sum; rewrite fold_left_app; reflexivity).
  cbn [total_of app py_add as_number arith number_to_float mbind result_bind].
  cbn [app] in H. rewrite H. reflexivity.
Qed.

Lemma tally_column_spec (col : value) (ds cs : list float) :
  column_ok col = true ->
  tally_column (total_of ds, total_of cs) col =
    Ok (total_of (ds ++ option_list (tagged_value "Debit" col)),
        total_of (cs ++ option_list (tagged_value "Credit" col))).
Proof.
  destruct col as [| | | | |l|d]; try discriminate.
  unfold column_ok, tally_column, tagged_value, py_contains, py_get.
  cbn [mbind result_bind negb default].
  destruct (dict_lookup "value" d) as [v|] eqn:Hv; cbn;
    [|rewrite !app_nil_r; reflexivity].
  destruct (py_eq_zero v); cbn; [rewrite !app_nil_r; reflexivity|].
  rewrite Hv.
  destruct (py_eq_str (default VNone (dict_lookup "id" d)) "Debit") eqn:Hd; cbn.
  - intros Hf. destruct (py_float v) as [x|e]; [|discriminate]. cbn.
    rewrite py_add_total. cbn.
    assert (py_eq_str (default VNone (dict_lookup "id" d)) "Credit" = false) as ->.
    { destruct (default VNone (dict_lookup "id" d)); try reflexivity.
      cbn in Hd |- *. apply String.eqb_eq in Hd. subst. reflexivity. }
    rewrite app_nil_r. reflexivity.
  - destruct (py_eq_str (default VNone (dict_lookup "id" d)) "Credit"); cbn.
    + intros Hf. destruct (py_float v) as [x|e]; [|discriminate]. cbn.
      rewrite py_add_total. cbn. rewrite app_nil_r. reflexivity.
    + intros _. rewrite !app_nil_r. reflexivity.
Qed.

Lemma tally_columns_spec (cols : list value) :
  forallb column_ok cols = true ->
  forall ds cs : list float,
  for_fold cols (total_of ds, total_of cs) tally_column =
    Ok (total_of (ds ++ omap (tagged_value "Debit") cols),
        total_of (cs ++ omap (tagged_value "Credit") cols)).
Proof.
  induction cols as [|col cols IH]; intros Hok ds cs.
  - cbn. rewrite !app_nil_r. reflexivity.
  - cbn in Hok. apply andb_true_iff in Hok as [Hc Hcs].
    cbn [for_fold]. rewrite (tally_column_spec _ _ _ Hc).
    cbn [mbind result_bind]. rewrite (IH Hcs).
    cbn [omap list_omap].
    destruct (tagged_value "Debit" col), (tagged_value "Credit" col); cbn;
      rewrite <- ?app_assoc; reflexivity.
Qed.

Lemma tally_rows_spec (rows : list value) :
  forallb row_ok rows = true ->
  forall ds cs : list float,
  for_fold rows (total_of ds, total_of cs) tally_row =
    Ok (total_of (ds ++ tagged_values "Debit" rows),
        total_of (cs ++ tagged_values "Credit" rows)).
Proof.
  unfold tagged_values.
  induction rows as [|row rows IH]; intros Hok ds cs.
  - cbn. rewrite !app_nil_r. reflexivity.
  - cbn in Hok. apply andb_true_iff in Hok as [Hr Hrs].
    cbn [for_fold flat_map].
    assert (tally_row (total_of ds, total_of cs) row =
            Ok (total_of (ds ++ omap (tagged_value "Debit") (row_columns row)),
                total_of (cs ++ omap (tagged_value "Credit") (row_columns row))))
      as ->.
    { destruct row as [| | | | |l|d]; try discriminate.
      unfold row_ok in Hr. unfold tally_row, row_columns, py_contains, py_getitem.
      cbn [mbind result_bind negb].
      destruct (dict_lookup "ColData" d) as [cd|]; cbn;
        [|rewrite !app_nil_r; reflexivity].
      destruct cd; try discriminate. cbn.
      apply tally_columns_spec, Hr. }
    cbn [mbind result_bind]. rewrite (IH Hrs).
    rewrite !omap_app, !app_assoc. reflexivity.
Qed.

(** C1 (as amended): on a trial balance that has a ['Rows'] list of
    well-formed rows, check 1 adds up the Debit-tagged and the Credit-tagged
    amounts of all rows, records the absolute difference under
    ["trial_balance_difference"], and appends the one "Trial Balance
    Adjustment" correction, with delta minus the difference and the
    difference to two decimals in its reason, exactly when the difference
    exceeds 0.01; nothing else changes.  On a trial balance without
    ['Rows'] the check returns at once and records nothing. *)
Theorem validate_trial_balance_spec (d : list (string * value)) (w : world) :
  (dict_lookup "Rows" d = None ->
   _validate_trial_balance (VDict d) w = (Ok tt, w))
  /\ (forall rows : list value,
        dict_lookup "Rows" d = Some (VList rows) ->
        forallb row_ok rows = true ->
        _validate_trial_balance (VDict d) w =
          (Ok tt,
           {| self := after_trial_balance (tagged_values "Debit" rows)
                        (tagged_values "Credit" rows) (self w);
              db := db w |})).
Proof.
  unfold _validate_trial_balance.
  cbv [mbind M_bind lift mret M_ret]. cbn [py_contains py_getitem].
  split; [intros ->; reflexivity|].
  intros rows Hrows Hok. rewrite !Hrows.
  cbn [negb result_bind py_iter].
  pose proof (tally_rows_spec rows Hok [] []) as Hloop.
  cbn [total_of app] in Hloop. rewrite Hloop.
  destruct (tagged_values "Debit" rows) as [|x ds],
           (tagged_values "Credit" rows) as [|y cs];
    [reflexivity| | |];
    unfold after_trial_balance, py_gt, py_lt, tolerance;
    cbn [total_of py_sub py_abs py_neg py_format_2f as_number arith
         number_to_float number_ltb mbind result_bind set_check];
    change (float_of_Z 0) with (Ok 0%float);
    try change (float_sum []) with 0%float;
    cbn [py_abs py_neg py_format_2f as_number number_to_float number_ltb
         mbind result_bind];
    match goal with
    | |- context [PrimFloat.ltb ?a ?b] => destruct (PrimFloat.ltb a b)
    end; rewrite ?app_nil_r; reflexivity.
Qed.

Lemma extend_nil (w : world) : extend w [] = w.
Proof.
  destruct w as [[adjs checks] d]. unfold extend. cbn. rewrite app_nil_r.
  reflexivity.
Qed.

Lemma extend_extend (w : world) (xs ys : list adjustment) :
  extend (extend w xs) ys = extend w (xs ++ ys).
Proof. unfold extend. cbn. rewrite app_assoc. reflexivity. Qed.

Lemma append_adjustment_extend (adj : adjustment) (w : world) :
  append_adjustment adj w = (Ok tt, extend w [adj]).
Proof. reflexivity. Qed.

Lemma check_account_spec (account : value) (w : world) :
  account_ok account = true ->
  check_account account w = (Ok tt, extend w (option_list (correction_for account))).
Proof.
  destruct account as [| | | | |l|d]; try discriminate.
  unfold account_ok, correction_for, flagged_type, check_account.
  cbv [mbind M_bind lift mret M_ret]. cbn [py_get field].
  destruct (existsb _ _) eqn:Hty.
  - intros Hnum. apply bool_decide_eq_true in Hnum as [B HB].
    unfold py_lt, py_abs, py_mul. rewrite HB. cbn [as_number].
    rewrite number_lt_zero. destruct (negative B); cbn [option_list].
    + destruct B as [z|f]; cbn [as_number magnitude twice_magnitude arith
        number_to_float mbind result_bind].
      * reflexivity.
      * change (float_of_Z 2) with (Ok 2%float). reflexivity.
    + rewrite extend_nil. reflexivity.
  - intros _. cbn [option_list]. rewrite extend_nil. reflexivity.
Qed.

Lemma check_accounts_spec (accounts : list value) :
  forallb account_ok accounts = true ->
  forall w : world,
  for_each accounts check_account w =
    (Ok tt, extend w (omap correction_for accounts)).
Proof.
  induction accounts as [|account accounts IH]; intros Hok w.
  - cbn. rewrite extend_nil. reflexivity.
  - cbn in Hok. apply andb_true_iff in Hok as [Ha Hrest].
    cbn [for_each]. cbv [mbind M_bind].
    rewrite (check_account_spec _ _ Ha), (IH Hrest), extend_extend.
    cbn [omap list_omap]. destruct (correction_for account); reflexivity.
Qed.


Lemma has_total_column_spec (d : list (string * value)) :
  has_total_column (VDict d) =
    match dict_lookup "ColData" d with
    | None => Ok false
    | Some cd => n ← py_len cd; Ok (1 <? n)
    end.
Proof.
  unfold has_total_column, py_contains, py_getitem. cbn [mbind result_bind].
  destruct (dict_lookup "ColData" d); reflexivity.
Qed.

Lemma last_map_Some {A} (l : list A) :
  List.last (map Some l) None = last l.
Proof.
  induction l as [|a [|b l] IH]; try reflexivity.
  change (List.last (map Some (a :: b :: l)) None)
    with (List.last (map Some (b :: l)) None).
  rewrite IH. reflexivity.
Qed.

Lemma categorize_spec (sub_row : value) (summary : categories) :
  sub_row_ok sub_row = true ->
  categorize summary sub_row =
    Ok (fold_left place (option_list (group_total sub_row)) summary).
Proof.
  destruct sub_row as [| | | | |l|d]; try discriminate.
  unfold sub_row_ok, categorize, group_total. rewrite has_total_column_spec.
  unfold py_getitem.
  destruct (dict_lookup "ColData" d) as [cd|]; [|reflexivity].
  destruct cd as [| | | | |cols|]; try discriminate.
  cbn [py_len mbind result_bind py_get py_last].
  destruct (1 <? Z.of_nat (List.length cols)); [|reflexivity].
  cbn [negb]. rewrite last_map_Some.
  destruct (last cols) as [[| | | | | |c]|]; try discriminate.
  destruct (default (VStr "") (dict_lookup "group" d)) as [| | | |label| |];
    try discriminate.
  cbn [py_get mbind result_bind py_upper].
  destruct (py_float _) as [x|e]; [|discriminate]. intros _.
  cbv [option_list option_rect]. cbn [mbind result_bind fold_left].
  unfold place, classify. cbn [fst snd].
  repeat match goal with
         | |- context [if ?b then _ else _] => destruct b
         end; reflexivity.
Qed.

Lemma categorize_rows_spec (sub_rows : list value) :
  forallb sub_row_ok sub_rows = true ->
  forall summary : categories,
  for_fold sub_rows summary categorize =
    Ok (fold_left place (omap group_total sub_rows) summary).
Proof.
  induction sub_rows as [|sub_row sub_rows IH]; intros Hok summary;
    [reflexivity|].
  cbn in Hok. apply andb_true_iff in Hok as [Hs Hrest].
  cbn [for_fold]. rewrite (categorize_spec _ _ Hs).
  cbn [mbind result_bind]. rewrite (IH Hrest).
  cbn [omap list_omap]. destruct (group_total sub_row); reflexivity.
Qed.

Lemma categorize_sections_spec (rows : list value) :
  forallb section_ok rows = true ->
  forall summary : categories,
  for_fold rows summary categorize_section =
    Ok (fold_left place (group_totals rows) summary).
Proof.
  unfold group_totals.
  induction rows as [|row rows IH]; intros Hok summary; [reflexivity|].
  cbn in Hok. apply andb_true_iff in Hok as [Hr Hrest].
  cbn [for_fold flat_map].
  assert (categorize_section summary row =
          Ok (fold_left place (omap group_total (sub_rows_of row)) summary))
    as ->.
  { destruct row as [| | | | |l|d]; try discriminate.
    unfold section_ok in Hr.
    unfold categorize_section, sub_rows_of, py_contains, py_getitem.
    cbn [mbind result_bind negb].
    destruct (dict_lookup "Rows" d) as [sub|]; [|reflexivity].
    destruct sub; try discriminate. cbn.
    apply categorize_rows_spec, Hr. }
  cbn [mbind result_bind]. rewrite (IH Hrest), omap_app, fold_left_app.
  reflexivity.
Qed.

Lemma fetch_store (b b' : bucket) (v : value) (c : categories) :
  fetch b (store b' v c) = if bucket_eqb b b' then v else fetch b c.
Proof. destruct c, b, b'; reflexivity. Qed.

Lemma fetch_place (b : bucket) (g : string * float) (c : categories) :
  fetch b (place c g) = if in_bucket b g then VFloat (snd g) else fetch b c.
Proof.
  unfold place, in_bucket. destruct (classify (fst g)); [|reflexivity].
  apply fetch_store.
Qed.

Lemma fetch_fold_place (b : bucket) (groups : list (string * float)) :
  forall c : categories,
  fetch b (fold_left place groups c) =
    match last (List.filter (in_bucket b) groups) with
    | Some g => VFloat (snd g)
    | None => fetch b c
    end.
Proof.
  induction groups as [|g groups IH]; intros c; [reflexivity|].
  cbn [fold_left List.filter]. rewrite IH, fetch_place.
  destruct (in_bucket b g); [|reflexivity].
  rewrite last_cons. destruct (last (List.filter (in_bucket b) groups));
    reflexivity.
Qed.

Lemma classify_not_net_income (name : string) :
  classify name <> Some EquityNetIncome.
Proof.
  unfold classify.
  repeat match goal with
         | |- context [if ?b then _ else _] => destruct b
         end; discriminate.
Qed.

Lemma last_total_net_income (groups : list (string * float)) :
  last_total EquityNetIncome groups = VInt 0.
Proof.
  unfold last_total.
  assert (List.filter (in_bucket EquityNetIncome) groups = []) as ->;
    [|reflexivity].
  induction groups as [|g groups IH]; [reflexivity|].
  cbn [List.filter]. unfold in_bucket at 1.
  pose proof (classify_not_net_income (fst g)) as Hne.
  destruct (classify (fst g)) as [[]|]; try exact IH. congruence.
Qed.

Lemma last_total_amount (b : bucket) (groups : list (string * float)) :
  last_total b groups = VInt 0 \/ exists x, last_total b groups = VFloat x.
Proof.
  unfold last_total. destruct (last _) as [g|]; [right; eexists|left];
    reflexivity.
Qed.

Lemma py_add_amounts (a b : value) :
  (a = VInt 0 \/ exists x, a = VFloat x) ->
  (b = VInt 0 \/ exists y, b = VFloat y) ->
  exists v, py_add a b = Ok v /\ (v = VInt 0 \/ exists z, v = VFloat z).
Proof.
  intros [->|[x ->]] [->|[y ->]]; eexists; (split; [reflexivity|]);
    first [left; reflexivity | right; eexists; reflexivity].
Qed.


(** C3 (as amended): on a balance sheet that has a ['Rows'] list of
    well-formed sections, the builder returns a summary in which every
    bucket holds the amount of the last group classified into it (ASSET,
    then CURRENT, FIXED or PROPERTY, other; LIABILITY, then CURRENT,
    other; EQUITY, then RETAINED, other; on the upper-cased label of a
    second-level row with at least two columns) or the initial 0, the net
    income bucket stays 0, and the three totals are the sums of their
    buckets.  On a balance sheet without ['Rows'] it returns the empty
    dict. *)
Theorem generate_summary_spec (d : list (string * value)) :
  (dict_lookup "Rows" d = None ->
   _generate_summary_balance_sheet (VDict d) = Ok EmptyDict)
  /\ (forall rows : list value,
        dict_lookup "Rows" d = Some (VList rows) ->
        forallb section_ok rows = true ->
        exists s : Summary.t,
          _generate_summary_balance_sheet (VDict d) = Ok (SummaryDict s)
          /\ (forall b : bucket,
                fetch b (Summary.groups s) = last_total b (group_totals rows))
          /\ equity_net_income (Summary.groups s) = VInt 0
          /\ (partial ← py_add (assets_current (Summary.groups s))
                               (assets_fixed (Summary.groups s));
              py_add partial (assets_other (Summary.groups s)))
             = Ok (Summary.total_assets s)
          /\ py_add (liabilities_current (Summary.groups s))
                    (liabilities_long_term (Summary.groups s))
             = Ok (Summary.total_liabilities s)
          /\ py_add (equity_owners_equity (Summary.groups s))
                    (equity_retained_earnings (Summary.groups s))
             = Ok (Summary.total_equity s)).
Proof.
  unfold _generate_summary_balance_sheet, py_contains, py_getitem.
  split; [intros ->; reflexivity|].
  intros rows Hrows Hok.
  rewrite Hrows. cbn [mbind result_bind negb py_iter].
  rewrite (categorize_sections_spec rows Hok).
  set (summary := fold_left place (group_totals rows) empty_categories).
  assert (forall b, fetch b summary = last_total b (group_totals rows)) as Hb.
  { intros b. unfold summary. rewrite fetch_fold_place. unfold last_total.
    destruct (last _); [reflexivity|]. destruct b; reflexivity. }
  assert (forall b, fetch b summary = VInt 0 \/ exists x, fetch b summary = VFloat x)
    as Hamount by (intros b; rewrite Hb; apply last_total_amount).
  destruct (py_add_amounts _ _ (Hamount AssetsCurrent) (Hamount AssetsFixed))
    as (partial & Hpartial & Hp).
  destruct (py_add_amounts _ _ Hp (Hamount AssetsOther)) as (ta & Hta & _).
  destruct (py_add_amounts _ _ (Hamount LiabilitiesCurrent)
              (Hamount LiabilitiesLongTerm)) as (tl & Htl & _).
  destruct (py_add_amounts _ _ (Hamount EquityOwners) (Hamount EquityRetained))
    as (te & Hte & _).
  cbn [fetch] in Hpartial, Hta, Htl, Hte.
  cbn [mbind result_bind]. rewrite Hpartial. cbn [mbind result_bind].
  rewrite Hta. cbn [mbind result_bind]. rewrite Htl. cbn [mbind result_bind].
  rewrite Hte. cbn [mbind result_bind].
  eexists. split; [reflexivity|].
  cbn [Summary.groups Summary.total_assets Summary.total_liabilities
       Summary.total_equity].
  split; [exact Hb|]. split.
  { change (fetch EquityNetIncome summary = VInt 0).
    rewrite Hb. apply last_total_net_income. }
  rewrite Hpartial. cbn [mbind result_bind]. auto.
Qed.

Lemma find_retained_spec (sub_row retained_earnings : value) :
  sub_row_ok sub_row = true ->
  find_retained retained_earnings sub_row =
    Ok match retained_total sub_row with
       | Some x => (VFloat x, true)
       | None => (retained_earnings, false)
       end.
Proof.
  destruct sub_row as [| | | | |l|d]; try discriminate.
  unfold sub_row_ok, find_retained, retained_total, group_total.
  rewrite has_total_column_spec. unfold py_getitem.
  destruct (dict_lookup "ColData" d) as [cd|]; [|reflexivity].
  destruct cd as [| | | | |cols|]; try discriminate.
  cbn [py_len mbind result_bind py_get py_last].
  destruct (1 <? Z.of_nat (List.length cols)); [|reflexivity].
  cbn [negb]. rewrite last_map_Some.
  destruct (last cols) as [[| | | | | |c]|]; try discriminate.
  destruct (default (VStr "") (dict_lookup "group" d)) as [| | | |label| |];
    try discriminate.
  cbn [py_get mbind result_bind py_upper].
  destruct (py_float _) as [x|e]; [|discriminate]. intros _.
  destruct (is_substr "RETAINED" (str_upper label)); reflexivity.
Qed.

Lemma find_retained_loop (sub_rows : list value) (retained_earnings : value) :
  forallb sub_row_ok sub_rows = true ->
  for_fold_break sub_rows retained_earnings find_retained =
    Ok match head (omap retained_total sub_rows) with
       | Some x => VFloat x
       | None => retained_earnings
       end.
Proof.
  induction sub_rows as [|sub_row sub_rows IH]; intros Hok; [reflexivity|].
  cbn in Hok. apply andb_true_iff in Hok as [Hs Hrest].
  cbn [for_fold_break]. rewrite (find_retained_spec _ _ Hs).
  cbn [omap list_omap]. destruct (retained_total sub_row); cbn;
    [reflexivity|exact (IH Hrest)].
Qed.

Lemma find_retained_in_section_spec (row retained_earnings : value) :
  section_ok row = true ->
  find_retained_in_section retained_earnings row =
    Ok match retained_in_section row with
       | Some x => VFloat x
       | None => retained_earnings
       end.
Proof.
  destruct row as [| | | | |l|d]; try discriminate.
  unfold section_ok, find_retained_in_section, retained_in_section,
    sub_rows_of, py_contains, py_getitem.
  cbn [mbind result_bind negb].
  destruct (dict_lookup "Rows" d) as [sub|]; [|reflexivity].
  destruct sub; try discriminate. cbn [negb mbind result_bind py_iter].
  apply find_retained_loop.
Qed.

Lemma find_retained_sections (rows : list value) :
  forallb section_ok rows = true ->
  forall retained_earnings : value,
  for_fold rows retained_earnings find_retained_in_section =
    Ok match last (omap retained_in_section rows) with
       | Some x => VFloat x
       | None => retained_earnings
       end.
Proof.
  induction rows as [|row rows IH]; intros Hok r; [reflexivity|].
  cbn in Hok. apply andb_true_iff in Hok as [Hr Hrest].
  cbn [for_fold]. rewrite (find_retained_in_section_spec _ _ Hr).
  cbn [mbind result_bind]. rewrite (IH Hrest).
  cbn [omap list_omap]. destruct (retained_in_section row) as [x|];
    [|reflexivity].
  rewrite last_cons. destruct (last (omap retained_in_section rows));
    reflexivity.
Qed.

(** What check 6 does on every well-formed balance sheet: the section
    that is read is the last one that has a RETAINED group. *)
Lemma validate_retained_earnings_last_section
  (d : list (string * value)) (rows : list value)
  (trial_balance : value) (w : world) :
  dict_lookup "Rows" d = Some (VList rows) ->
  forallb section_ok rows = true ->
  _validate_retained_earnings (VDict d) trial_balance w =
    (Ok tt,
     extend w match last (omap retained_in_section rows) with
              | Some x => negative_retained x
              | None => []
              end).
Proof.
  intros Hrows Hok. unfold _validate_retained_earnings.
  cbv [mbind M_bind lift mret M_ret].
  cbn [py_contains py_getitem]. rewrite !Hrows.
  cbn [negb result_bind py_iter]. rewrite (find_retained_sections rows Hok).
  destruct (last (omap retained_in_section rows)) as [x|].
  - unfold negative_retained, py_lt.
    cbn [as_number py_format_2f number_to_float mbind result_bind].
    rewrite float_lt_zero.
    destruct (x <? 0)%float;
      [reflexivity | rewrite extend_nil; reflexivity].
  - rewrite extend_nil. reflexivity.
Qed.

Lemma head_omap_sections (rows : list value) :
  head (omap retained_total (flat_map sub_rows_of rows)) =
  head (omap retained_in_section rows).
Proof.
  induction rows as [|row rows IH]; [reflexivity|].
  cbn [flat_map omap list_omap]. rewrite omap_app.
  unfold retained_in_section at 1.
  destruct (omap retained_total (sub_rows_of row)) as [|x l];
    [exact IH|reflexivity].
Qed.

Lemma validate_retained_earnings_without_rows
  (d : list (string * value)) (trial_balance : value) (w : world) :
  dict_lookup "Rows" d = None ->
  _validate_retained_earnings (VDict d) trial_balance w = (Ok tt, w).
Proof.
  intros Hrows. unfold _validate_retained_earnings.
  cbv [mbind M_bind lift mret M_ret]. cbn [py_contains].
  rewrite Hrows. reflexivity.
Qed.

(** On a balance sheet that has a ['Rows'] list of well-formed
    sections of which at most one holds a RETAINED group,
    check 6 reads the amount in the last column of the first second-level
    row, in traversal order, that has at least two columns and a label
    containing RETAINED, and appends the one "info" note with delta 0
    that cites it exactly when that amount is negative.  On a balance
    sheet without ['Rows'] it does nothing. *)
Theorem validate_retained_earnings_spec
  (d : list (string * value)) (trial_balance : value) (w : world) :
  (dict_lookup "Rows" d = None ->
   _validate_retained_earnings (VDict d) trial_balance w = (Ok tt, w))
  /\ (forall rows : list value,
        dict_lookup "Rows" d = Some (VList rows) ->
        forallb section_ok rows = true ->
        (List.length (omap retained_in_section rows) <= 1)%nat ->
        _validate_retained_earnings (VDict d) trial_balance w =
          (Ok tt,
           extend w
             match head (omap retained_total (flat_map sub_rows_of rows)) with
             | Some x => negative_retained x
             | None => []
             end)).
Proof.
  split; [apply validate_retained_earnings_without_rows|].
  intros rows Hrows Hok Hone.
  rewrite (validate_retained_earnings_last_section d rows trial_balance w
             Hrows Hok), head_omap_sections.
  destruct (omap retained_in_section rows) as [|x [|y l]]; try reflexivity.
  cbn in Hone. lia.
Qed.

(** *** Which exceptions can be raised *)

Lemma raises_builtin_ok {A} (a : A) : raises_builtin (Ok a).
Proof. intros e He. discriminate. Qed.

Lemma raises_builtin_bind {A B} (m : result A) (f : A -> result B) :
  raises_builtin m -> (forall a, raises_builtin (f a)) ->
  raises_builtin (m ≫= f).
Proof.
  intros Hm Hf e. destruct m as [a|e']; cbn.
  - apply Hf.
  - intros [= <-]. apply Hm. reflexivity.
Qed.

Lemma raises_builtin_for_fold {S A} (xs : list A) (body : S -> A -> result S) :
  (forall acc x, raises_builtin (body acc x)) ->
  forall acc, raises_builtin (for_fold xs acc body).
Proof.
  intros Hbody. induction xs as [|x xs IH]; intros acc; cbn [for_fold].
  - apply raises_builtin_ok.
  - apply raises_builtin_bind; [apply Hbody | intros acc'; apply IH].
Qed.

Lemma raises_builtin_for_fold_break {S A} (xs : list A)
  (body : S -> A -> result (S * bool)) :
  (forall acc x, raises_builtin (body acc x)) ->
  forall acc, raises_builtin (for_fold_break xs acc body).
Proof.
  intros Hbody. induction xs as [|x xs IH]; intros acc; cbn [for_fold_break].
  - apply raises_builtin_ok.
  - apply raises_builtin_bind; [apply Hbody|].
    intros [acc' [|]]; [apply raises_builtin_ok | apply IH].
Qed.

(** Closes [raises_builtin] for a primitive by cases on its arguments. *)
Ltac by_cases :=
  let e := fresh "e" in
  let He := fresh "He" in
  intros e He;
  repeat match type of He with
         | context [match ?x with _ => _ end] => destruct x; try discriminate He
         end;
  try discriminate He;
  try (injection He as <-); reflexivity.

Lemma float_of_Z_builtin (z : Z) : raises_builtin (float_of_Z z).
Proof. unfold float_of_Z. by_cases. Qed.

Lemma number_to_float_builtin (n : number) : raises_builtin (number_to_float n).
Proof.
  destruct n; [apply float_of_Z_builtin | apply raises_builtin_ok].
Qed.

Lemma arith_builtin fz ff (a b : number) : raises_builtin (arith fz ff a b).
Proof.
  destruct a, b; cbn [arith]; try apply raises_builtin_ok;
    (apply raises_builtin_bind; [apply number_to_float_builtin|]; intros x;
     apply raises_builtin_bind; [apply number_to_float_builtin|]; intros y;
     apply raises_builtin_ok).
Qed.

Lemma py_add_builtin (a b : value) : raises_builtin (py_add a b).
Proof.
  unfold py_add. destruct (as_number a), (as_number b);
    try apply arith_builtin; by_cases.
Qed.

Lemma py_sub_builtin (a b : value) : raises_builtin (py_sub a b).
Proof.
  unfold py_sub. destruct (as_number a), (as_number b);
    try apply arith_builtin; by_cases.
Qed.

Lemma py_mul_builtin (a b : value) : raises_builtin (py_mul a b).
Proof.
  unfold py_mul. destruct (as_number a), (as_number b);
    try apply arith_builtin; by_cases.
Qed.

Lemma py_abs_builtin (a : value) : raises_builtin (py_abs a).
Proof. unfold py_abs. by_cases. Qed.

Lemma py_neg_builtin (a : value) : raises_builtin (py_neg a).
Proof. unfold py_neg. by_cases. Qed.

Lemma py_lt_builtin (a b : value) : raises_builtin (py_lt a b).
Proof. unfold py_lt. by_cases. Qed.

Lemma py_gt_builtin (a b : value) : raises_builtin (py_gt a b).
Proof. apply py_lt_builtin. Qed.

Lemma py_contains_builtin (k : string) (x : value) :
  raises_builtin (py_contains k x).
Proof. unfold py_contains. by_cases. Qed.

Lemma py_getitem_builtin (x : value) (k : string) :
  raises_builtin (py_getitem x k).
Proof. unfold py_getitem. by_cases. Qed.

Lemma py_last_builtin (x : value) : raises_builtin (py_last x).
Proof. unfold py_last. by_cases. Qed.

Lemma py_iter_builtin (x : value) : raises_builtin (py_iter x).
Proof. unfold py_iter. by_cases. Qed.

Lemma py_len_builtin (x : value) : raises_builtin (py_len x).
Proof. unfold py_len. by_cases. Qed.

Lemma py_get_builtin (x : value) (k : string) (dflt : value) :
  raises_builtin (py_get x k dflt).
Proof. unfold py_get. by_cases. Qed.

Lemma py_upper_builtin (x : value) : raises_builtin (py_upper x).
Proof. unfold py_upper. by_cases. Qed.

Lemma py_float_builtin (v : value) : raises_builtin (py_float v).
Proof.
  destruct v; cbn [py_float]; try apply float_of_Z_builtin; by_cases.
Qed.

Lemma py_format_2f_builtin (grouping : bool) (x : value) :
  raises_builtin (py_format_2f grouping x).
Proof.
  unfold py_format_2f. destruct (as_number x).
  - apply raises_builtin_bind; [apply number_to_float_builtin|].
    intros f. apply raises_builtin_ok.
  - by_cases.
Qed.

Lemma summary_getitem_builtin (s : summary_dict) (k : string) :
  raises_builtin (summary_getitem s k).
Proof. unfold summary_getitem. by_cases. Qed.

Create HintDb builtin.

#[local] Hint Resolve raises_builtin_ok float_of_Z_builtin py_add_builtin
  py_sub_builtin py_mul_builtin py_abs_builtin py_neg_builtin py_lt_builtin
  py_gt_builtin py_contains_builtin py_getitem_builtin py_last_builtin
  py_iter_builtin py_len_builtin py_get_builtin py_upper_builtin
  py_float_builtin py_format_2f_builtin summary_getitem_builtin : builtin.

(** Walks a computation in [result] along its binds, branches and
    loops. *)
Ltac walk :=
  repeat first
    [ solve [auto with builtin]
    | apply raises_builtin_bind; [|intros ?]
    | apply raises_builtin_for_fold; intros ? ?
    | apply raises_builtin_for_fold_break; intros ? ?
    | progress cbv beta
    | match goal with
      | |- raises_builtin (if ?b then _ else _) => destruct b
      | |- raises_builtin (let '(_, _) := ?p in _) => destruct p
      | |- raises_builtin (match ?p with _ => _ end) => destruct p
      end ].

Lemma has_total_column_builtin (sub_row : value) :
  raises_builtin (has_total_column sub_row).
Proof. unfold has_total_column. walk. Qed.

#[local] Hint Resolve has_total_column_builtin : builtin.

Lemma tally_row_builtin (totals : value * value) (row : value) :
  raises_builtin (tally_row totals row).
Proof. unfold tally_row, tally_column. walk. Qed.

Lemma find_retained_in_section_builtin (r row : value) :
  raises_builtin (find_retained_in_section r row).
Proof. unfold find_retained_in_section, find_retained. walk. Qed.

Lemma generate_summary_builtin (balance_sheet : value) :
  raises_builtin (_generate_summary_balance_sheet balance_sheet).
Proof.
  unfold _generate_summary_balance_sheet, categorize_section, categorize.
  walk.
Qed.

#[local] Hint Resolve tally_row_builtin find_retained_in_section_builtin
  generate_summary_builtin : builtin.

(** *** Methods: exceptions and frame *)

Lemma careful_ret {A} (a : A) : careful (mret a).
Proof. intros w. apply raises_builtin_ok. Qed.

Lemma careful_lift {A} (r : result A) : raises_builtin r -> careful (lift r).
Proof. intros Hr w. exact Hr. Qed.

Lemma careful_bind {A B} (m : M A) (f : A -> M B) :
  careful m -> (forall a, careful (f a)) -> careful (m ≫= f).
Proof.
  intros Hm Hf w. specialize (Hm w). unfold mbind, M_bind.
  destruct (m w) as [[a|e] w1]; cbn.
  - apply Hf.
  - intros e' [= <-]. apply Hm. reflexivity.
Qed.

Lemma careful_for_each {A} (xs : list A) (body : A -> M unit) :
  (forall x, careful (body x)) -> careful (for_each xs body).
Proof.
  intros Hbody. induction xs as [|x xs IH]; cbn [for_each].
  - apply careful_ret.
  - apply careful_bind; [apply Hbody | intros _; exact IH].
Qed.

Lemma careful_total {A} (m : M A) :
  (forall w, exists a, fst (m w) = Ok a) -> careful m.
Proof. intros Hm w e He. destruct (Hm w) as [a Ha]. congruence. Qed.

Lemma grows_refl (w : world) : grows w w.
Proof.
  split; [reflexivity|]. split; [|auto]. exists []. rewrite app_nil_r.
  reflexivity.
Qed.

Lemma grows_trans (w1 w2 w3 : world) : grows w1 w2 -> grows w2 w3 -> grows w1 w3.
Proof.
  intros (Hdb1 & [n1 H1] & Hm1) (Hdb2 & [n2 H2] & Hm2).
  split; [congruence|]. split; [|auto].
  exists (n1 ++ n2). rewrite H2, H1, app_assoc. reflexivity.
Qed.

Lemma appends_only_ret {A} (a : A) : appends_only (mret a).
Proof. intros w. apply grows_refl. Qed.

Lemma appends_only_lift {A} (r : result A) : appends_only (lift r).
Proof. intros w. apply grows_refl. Qed.

Lemma appends_only_bind {A B} (m : M A) (f : A -> M B) :
  appends_only m -> (forall a, appends_only (f a)) -> appends_only (m ≫= f).
Proof.
  intros Hm Hf w. specialize (Hm w). unfold mbind, M_bind.
  destruct (m w) as [[a|e] w1]; cbn in *; [|exact Hm].
  eapply grows_trans; [exact Hm | apply Hf].
Qed.

Lemma appends_only_for_each {A} (xs : list A) (body : A -> M unit) :
  (forall x, appends_only (body x)) -> appends_only (for_each xs body).
Proof.
  intros Hbody. induction xs as [|x xs IH]; cbn [for_each].
  - apply appends_only_ret.
  - apply appends_only_bind; [apply Hbody | intros _; exact IH].
Qed.

Lemma appends_only_append (adj : adjustment) :
  appends_only (append_adjustment adj).
Proof.
  intros w. split; [reflexivity|]. split; [|auto]. exists [adj]. reflexivity.
Qed.

Lemma appends_only_set_check (name : string) (v : value) :
  appends_only (set_check name v).
Proof.
  intros w. split; [reflexivity|]. split.
  - exists []. cbn. rewrite app_nil_r. reflexivity.
  - intros k Hk. cbn. apply lookup_insert_is_Some'. auto.
Qed.

Lemma careful_append (adj : adjustment) : careful (append_adjustment adj).
Proof. apply careful_total. intros w. eexists. reflexivity. Qed.

Lemma careful_set_check (name : string) (v : value) :
  careful (set_check name v).
Proof. apply careful_total. intros w. eexists. reflexivity. Qed.

Create HintDb method.

#[local] Hint Resolve careful_ret careful_append careful_set_check
  appends_only_ret appends_only_lift appends_only_append
  appends_only_set_check : method.

(** Walks a method along its binds, branches and loops, for both
    properties. *)
Ltac walk_method :=
  repeat first
    [ solve [auto with method]
    | apply careful_lift; solve [walk]
    | apply careful_bind; [|intros ?]
    | apply appends_only_bind; [|intros ?]
    | apply careful_for_each; intros ?
    | apply appends_only_for_each; intros ?
    | match goal with
      | |- careful (if ?b then _ else _) => destruct b
      | |- appends_only (if ?b then _ else _) => destruct b
      | |- careful (let '(_, _) := ?p in _) => destruct p
      | |- appends_only (let '(_, _) := ?p in _) => destruct p
      | |- careful (match ?p with _ => _ end) => destruct p
      | |- appends_only (match ?p with _ => _ end) => destruct p
      end ].

Lemma validate_trial_balance_check (trial_balance : value) :
  careful (_validate_trial_balance trial_balance)
  /\ appends_only (_validate_trial_balance trial_balance).
Proof. unfold _validate_trial_balance. split; walk_method. Qed.

Lemma verify_balance_sheet_totals_check (balance_sheet : value) :
  careful (_verify_balance_sheet_totals balance_sheet)
  /\ appends_only (_verify_balance_sheet_totals balance_sheet).
Proof. unfold _verify_balance_sheet_totals. split; walk_method. Qed.

Lemma check_account_balances_check (chart_of_accounts trial_balance : value) :
  careful (_check_account_balances chart_of_accounts trial_balance)
  /\ appends_only (_check_account_balances chart_of_accounts trial_balance).
Proof.
  unfold _check_account_balances, check_account. split; walk_method.
Qed.

Lemma reconcile_bank_accounts_check (bank_accounts trial_balance : value) :
  careful (_reconcile_bank_accounts bank_accounts trial_balance)
  /\ appends_only (_reconcile_bank_accounts bank_accounts trial_balance).
Proof. unfold _reconcile_bank_accounts. split; walk_method. Qed.

Lemma verify_open_items_check (open_ar open_ap : value) :
  careful (_verify_open_items open_ar open_ap)
  /\ appends_only (_verify_open_items open_ar open_ap).
Proof. unfold _verify_open_items. split; walk_method. Qed.

Lemma validate_retained_earnings_check (balance_sheet trial_balance : value) :
  careful (_validate_retained_earnings balance_sheet trial_balance)
  /\ appends_only (_validate_retained_earnings balance_sheet trial_balance).
Proof. unfold _validate_retained_earnings. split; walk_method. Qed.

Lemma run_all_check (ms : list (M unit)) :
  Forall (fun m => careful m /\ appends_only m) ms ->
  careful (run_all ms) /\ appends_only (run_all ms).
Proof.
  induction 1 as [|m ms [Hc Ha] _ [IHc IHa]]; cbn [run_all].
  - split; auto with method.
  - split; [apply careful_bind | apply appends_only_bind]; auto.
Qed.

Lemma six_checks_check (p : payloads) :
  careful (run_all (six_checks p)) /\ appends_only (run_all (six_checks p)).
Proof.
  apply run_all_check. unfold six_checks.
  repeat constructor;
    first [ apply validate_trial_balance_check
          | apply verify_balance_sheet_totals_check
          | apply check_account_balances_check
          | apply reconcile_bank_accounts_check
          | apply verify_open_items_check
          | apply validate_retained_earnings_check ].
Qed.

(** *** The run as a whole *)

Lemma saved_rows_fields (log_id : Z) (adjs : list adjustment) :
  forall table, map AdjustmentRow.fields (saved_rows log_id table adjs) = adjs.
Proof.
  induction adjs as [|adj adjs IH]; intros table; cbn; [|rewrite IH];
    reflexivity.
Qed.

Lemma saved_rows_log_id (log_id : Z) (adjs : list adjustment) :
  forall table,
  Forall (fun row => AdjustmentRow.reconciliation_log_id row = log_id)
    (saved_rows log_id table adjs).
Proof.
  induction adjs as [|adj adjs IH]; intros table; cbn; constructor;
    [reflexivity | apply IH].
Qed.

Lemma save_adjustments_spec (log_id : Z) (adjs : list adjustment) :
  forall w : world,
  for_each adjs (db_add_adjustment log_id) w =
    (Ok tt,
     {| self := self w;
        db := {| balance_sheet_snapshots := balance_sheet_snapshots (db w);
                 adjustments_table :=
                   adjustments_table (db w) ++
                   saved_rows log_id (adjustments_table (db w)) adjs |} |}).
Proof.
  induction adjs as [|adj adjs IH]; intros w.
  - destruct w as [s [snaps table]]. cbn. rewrite app_nil_r. reflexivity.
  - cbn [for_each saved_rows]. unfold mbind, M_bind.
    unfold db_add_adjustment at 1. rewrite IH. cbn.
    rewrite <- app_assoc. reflexivity.
Qed.

Lemma db_add_adjustments_spec (log_id : Z) (adjs : list adjustment) (w : world) :
  db_add_adjustments log_id adjs w =
    if forallb accepts adjs
    then (Ok tt,
          {| self := self w;
             db := {| balance_sheet_snapshots := balance_sheet_snapshots (db w);
                      adjustments_table :=
                        adjustments_table (db w) ++
                        saved_rows log_id (adjustments_table (db w)) adjs |} |})
    else (Raise SQLAlchemyError, w).
Proof.
  unfold db_add_adjustments. destruct (forallb accepts adjs); [|reflexivity].
  apply save_adjustments_spec.
Qed.

Lemma log_results_spec (today : clock) (as_of_date : option date)
  (summary_bs : summary_dict) (w w' : world) (r : run_result) :
  log_results today as_of_date summary_bs w = (Ok r, w') ->
  exists snap : Snapshot.row,
    self w' = self w
    /\ db w' =
       {| balance_sheet_snapshots := balance_sheet_snapshots (db w) ++ [snap];
          adjustments_table :=
            adjustments_table (db w) ++
            saved_rows (Snapshot.id snap) (adjustments_table (db w))
              (adjustments (self w)) |}
    /\ r = {| summary_balance_sheet := summary_bs;
              result_adjustments := adjustments (self w);
              result_checks := reconciliation_checks (self w);
              result_is_balanced := Snapshot.is_balanced snap |}
    /\ Snapshot.id snap =
       next_id (map Snapshot.id (balance_sheet_snapshots (db w)))
    /\ Snapshot.date_ snap = default (date_read today) as_of_date
    /\ Snapshot.adjustments_count snap =
       Z.of_nat (List.length (adjustments (self w)))
    /\ Snapshot.status snap = "completed"
    /\ summary_getitem summary_bs "total_assets"
       = Ok (Snapshot.total_assets snap)
    /\ summary_getitem summary_bs "total_liabilities"
       = Ok (Snapshot.total_liabilities snap)
    /\ summary_getitem summary_bs "total_equity"
       = Ok (Snapshot.total_equity snap)
    /\ Snapshot.period snap = default (period_read today) as_of_date
    /\ forallb accepts (adjustments (self w)) = true.
Proof.
  unfold log_results. cbv [mbind M_bind lift mret M_ret get_adjustments
    get_checks].
  destruct (summary_getitem summary_bs "total_assets") as [ta|]; [|discriminate].
  destruct (summary_getitem summary_bs "total_liabilities") as [tl|];
    [|discriminate].
  destruct (summary_getitem summary_bs "total_equity") as [te|]; [|discriminate].
  destruct (result_bind _ _ _ _) as [balanced|]; [|discriminate].
  unfold db_add_snapshot. cbn [self db].
  rewrite db_add_adjustments_spec. cbn [self db balance_sheet_snapshots
    adjustments_table Snapshot.id].
  destruct (forallb accepts (adjustments (self w))); [|discriminate].
  intros [= <- <-].
  match goal with
  | |- context [balance_sheet_snapshots (db w) ++ [?snap]] => exists snap
  end.
  cbn [self db]. repeat (split; [reflexivity|]). reflexivity.
Qed.

Lemma reconcile_fetched (qbo_api : object) (today : clock)
  (as_of_date : option date) (p : payloads) (w : world) :
  serves qbo_api as_of_date p ->
  reconcile qbo_api today as_of_date w =
    if forallb truthy (mandatory p)
    then (run_all (six_checks p);;
          summary_bs ← lift (_generate_summary_balance_sheet (balance_sheet p));
          log_results today as_of_date summary_bs) w
    else (Raise data_unavailable, w).
Proof.
  intros (H1 & H2 & H3 & H4 & H5 & H6).
  unfold reconcile, call. rewrite H1, H2, H3, H4, H5, H6.
  unfold mandatory, six_checks. cbn [run_all].
  cbv [mbind M_bind lift raise mret M_ret].
  destruct (forallb truthy _); [|reflexivity]. cbn [negb].
  destruct (_validate_trial_balance _ w) as [[[]|e] w1]; [|reflexivity].
  destruct (_verify_balance_sheet_totals _ w1) as [[[]|e] w2]; [|reflexivity].
  destruct (_check_account_balances _ _ w2) as [[[]|e] w3]; [|reflexivity].
  destruct (_reconcile_bank_accounts _ _ w3) as [[[]|e] w4]; [|reflexivity].
  destruct (_verify_open_items _ _ w4) as [[[]|e] w5]; [|reflexivity].
  destruct (_validate_retained_earnings _ _ w5) as [[[]|e] w6]; reflexivity.
Qed.


Lemma careful_db_add_adjustments (log_id : Z) (adjs : list adjustment) :
  careful (db_add_adjustments log_id adjs).
Proof.
  intros w e. rewrite db_add_adjustments_spec.
  destruct (forallb accepts adjs); cbn; [discriminate|].
  intros [= <-]. reflexivity.
Qed.

Lemma careful_log_results (today : clock) (as_of_date : option date)
  (summary_bs : summary_dict) : careful (log_results today as_of_date summary_bs).
Proof.
  unfold log_results.
  repeat first
    [ apply careful_lift; solve [walk]
    | apply careful_bind; [|intros ?]
    | apply careful_db_add_adjustments
    | apply careful_total; intros ?; eexists; reflexivity ].
Qed.

Lemma reconcile_returns_served (qbo_api : object) (today : clock)
  (as_of_date : option date) (w w' : world) (r : run_result) :
  reconcile qbo_api today as_of_date w = (Ok r, w') ->
  exists p : payloads, serves qbo_api as_of_date p.
Proof.
  unfold reconcile, call, serves. cbv [mbind M_bind lift].
  destruct (invoke qbo_api "get_trial_balance" as_of_date) as [tb|];
    [|discriminate].
  destruct (invoke qbo_api "get_balance_sheet_report" as_of_date) as [bs|];
    [|discriminate].
  destruct (invoke qbo_api "get_chart_of_accounts" None) as [coa|];
    [|discriminate].
  destruct (invoke qbo_api "get_open_ar" None) as [ar|]; [|discriminate].
  destruct (invoke qbo_api "get_open_ap" None) as [ap|]; [|discriminate].
  destruct (invoke qbo_api "get_bank_accounts" None) as [bank|];
    [|discriminate].
  intros _. exists (Build_payloads tb bs coa ar ap bank).
  repeat split; reflexivity.
Qed.

(** A run that returns went through the six checks, built the summary
    and logged the result. *)
Lemma reconcile_returns (qbo_api : object) (today : clock)
  (as_of_date : option date) (w w' : world) (r : run_result) :
  reconcile qbo_api today as_of_date w = (Ok r, w') ->
  exists (p : payloads) (w1 : world) (summary_bs : summary_dict),
    serves qbo_api as_of_date p
    /\ run_all (six_checks p) w = (Ok tt, w1)
    /\ _generate_summary_balance_sheet (balance_sheet p) = Ok summary_bs
    /\ log_results today as_of_date summary_bs w1 = (Ok r, w').
Proof.
  intros Hrun. destruct (reconcile_returns_served _ _ _ _ _ _ Hrun) as [p Hp].
  rewrite (reconcile_fetched _ today _ p w Hp) in Hrun.
  destruct (forallb truthy (mandatory p)); [|discriminate].
  unfold mbind, M_bind, lift in Hrun.
  destruct (run_all (six_checks p) w) as [[[]|e] w1] eqn:Hchecks;
    [|discriminate].
  destruct (_generate_summary_balance_sheet (balance_sheet p)) as [s|] eqn:Hs;
    [|discriminate].
  exists p, w1, s. split; [exact Hp|]. split; [exact Hchecks|].
  split; [exact Hs|exact Hrun].
Qed.

Lemma careful_after_fetch (today : clock) (as_of_date : option date)
  (p : payloads) :
  careful (run_all (six_checks p);;
           summary_bs ← lift (_generate_summary_balance_sheet (balance_sheet p));
           log_results today as_of_date summary_bs).
Proof.
  apply careful_bind; [apply six_checks_check|]. intros _.
  apply careful_bind; [apply careful_lift; auto with builtin|].
  intros s. apply careful_log_results.
Qed.

Lemma null_receivables_raise_no_finding (open_ap : value) (w : world) :
  adjustments (self (snd (_verify_open_items VNone open_ap w)))
  = adjustments (self w).
Proof.
  unfold _verify_open_items. cbv [mbind M_bind lift mret M_ret].
  cbn [truthy result_bind].
  match goal with
  | |- context [match ?r with Ok _ => _ | Raise _ => _ end] =>
      destruct r as [total_ap|e]
  end; reflexivity.
Qed.

(** C5 (as amended): a run that returns has written to the database:
    one snapshot row with the next primary key, the date of the run
    ([as_of_date], or else today's date), the period (the text of
    [as_of_date], or else of today's date, read once more), the summary's
    totals, the balanced flag, the number of adjustments and the status
    "completed", and then one adjustment row per adjustment of the result,
    each linked to that snapshot.  The adjustments and the metrics of the
    result are those that stay on the instance. *)
Theorem reconcile_persists (qbo_api : object) (today : clock)
  (as_of_date : option date) (w w' : world) (r : run_result) :
  reconcile qbo_api today as_of_date w = (Ok r, w') ->
  exists (snap : Snapshot.row) (rows : list AdjustmentRow.row),
    balance_sheet_snapshots (db w') = balance_sheet_snapshots (db w) ++ [snap]
    /\ adjustments_table (db w') = adjustments_table (db w) ++ rows
    /\ map AdjustmentRow.fields rows = result_adjustments r
    /\ Forall (fun row =>
                 AdjustmentRow.reconciliation_log_id row = Snapshot.id snap)
         rows
    /\ Snapshot.id snap =
       next_id (map Snapshot.id (balance_sheet_snapshots (db w)))
    /\ Snapshot.date_ snap = default (date_read today) as_of_date
    /\ Snapshot.is_balanced snap = result_is_balanced r
    /\ Snapshot.adjustments_count snap =
       Z.of_nat (List.length (result_adjustments r))
    /\ Snapshot.status snap = "completed"
    /\ summary_getitem (summary_balance_sheet r) "total_assets"
       = Ok (Snapshot.total_assets snap)
    /\ summary_getitem (summary_balance_sheet r) "total_liabilities"
       = Ok (Snapshot.total_liabilities snap)
    /\ summary_getitem (summary_balance_sheet r) "total_equity"
       = Ok (Snapshot.total_equity snap)
    /\ Snapshot.period snap = default (period_read today) as_of_date
    /\ result_adjustments r = adjustments (self w')
    /\ result_checks r = reconciliation_checks (self w').
Proof.
  intros Hrun.
  destruct (reconcile_returns _ _ _ _ _ _ Hrun)
    as (p & w1 & s & _ & Hchecks & _ & Hlog).
  destruct (proj2 (six_checks_check p) w) as (Hdb & _ & _).
  rewrite Hchecks in Hdb. cbn [snd] in Hdb.
  destruct (log_results_spec _ _ _ _ _ _ Hlog)
    as (snap & Hself & Hdb' & -> & Hid & Hdate & Hcount & Hstatus & Hta & Htl
        & Hte & Hperiod & _).
  rewrite Hdb in Hdb', Hid.
  exists snap,
    (saved_rows (Snapshot.id snap) (adjustments_table (db w))
       (adjustments (self w1))).
  rewrite Hdb', Hself. cbn [balance_sheet_snapshots adjustments_table
    result_adjustments result_checks result_is_balanced summary_balance_sheet].
  repeat (split; [first [reflexivity | assumption
                        | apply saved_rows_fields
                        | apply saved_rows_log_id]|]).
  reflexivity.
Qed.

(** C9 (as amended): the adjustment list and the metrics map belong to
    the reconciler instance and [reconcile] never resets them: the result
    of a run holds the adjustments the instance had before the run,
    followed by the ones this run appended, all of them are saved again
    under the new snapshot, and every metric recorded before the run is
    still in the result. *)
Theorem reconcile_accumulates (qbo_api : object) (today : clock)
  (as_of_date : option date) (w w' : world) (r : run_result) :
  reconcile qbo_api today as_of_date w = (Ok r, w') ->
  exists (new : list adjustment) (rows : list AdjustmentRow.row),
    result_adjustments r = adjustments (self w) ++ new
    /\ adjustments (self w') = adjustments (self w) ++ new
    /\ adjustments_table (db w') = adjustments_table (db w) ++ rows
    /\ map AdjustmentRow.fields rows = adjustments (self w) ++ new
    /\ result_checks r = reconciliation_checks (self w')
    /\ (forall name : string,
          is_Some (reconciliation_checks (self w) !! name) ->
          is_Some (result_checks r !! name))
    /\ exists snap : Snapshot.row,
         balance_sheet_snapshots (db w')
         = balance_sheet_snapshots (db w) ++ [snap]
         /\ Forall (fun row =>
                      AdjustmentRow.reconciliation_log_id row = Snapshot.id snap)
              rows.
Proof.
  intros Hrun.
  destruct (reconcile_returns _ _ _ _ _ _ Hrun)
    as (p & w1 & s & _ & Hchecks & _ & Hlog).
  destruct (proj2 (six_checks_check p) w) as (Hdb & [new Hnew] & Hmetrics).
  rewrite Hchecks in Hdb, Hnew, Hmetrics. cbn [snd] in Hdb, Hnew, Hmetrics.
  destruct (log_results_spec _ _ _ _ _ _ Hlog) as (snap & Hself & Hdb' & -> & _).
  rewrite Hdb in Hdb'.
  exists new,
    (saved_rows (Snapshot.id snap) (adjustments_table (db w))
       (adjustments (self w1))).
  rewrite Hdb', Hself. cbn [adjustments_table balance_sheet_snapshots
    result_adjustments result_checks].
  rewrite saved_rows_fields.
  repeat (split; [first [reflexivity | assumption]|]).
  exists snap. split; [reflexivity | apply saved_rows_log_id].
Qed.


Lemma QuickBooksAPI_fetches (realm_id access_token : string) (get : http)
  (as_of_date : option date) :
  let api := QuickBooksAPI realm_id access_token get in
  is_ok (invoke api "get_trial_balance" as_of_date) = true
  /\ is_ok (invoke api "get_balance_sheet_report" as_of_date) = true
  /\ is_ok (invoke api "get_chart_of_accounts" None) = true
  /\ is_ok (invoke api "get_open_ar" None) = true
  /\ is_ok (invoke api "get_open_ap" None) = true.
Proof. repeat split; reflexivity. Qed.

Lemma QuickBooksAPI_has_no_bank_accounts (realm_id access_token : string)
  (get : http) :
  getattr (QuickBooksAPI realm_id access_token get) "get_bank_accounts" = None.
Proof. reflexivity. Qed.

(** C10: with the [QuickBooksAPI] of this module, [reconcile] raises
    [AttributeError] at the bank-accounts fetch, whatever the date and
    whatever the service answers, before the mandatory-data test and
    before any check: the instance and the database are as before, and no
    result is returned. *)
Theorem reconcile_with_QuickBooksAPI (realm_id access_token : string)
  (get : http) (today : clock) (as_of_date : option date) (w : world) :
  reconcile (QuickBooksAPI realm_id access_token get) today as_of_date w =
    (Raise (AttributeError "get_bank_accounts"), w).
Proof.
  destruct (QuickBooksAPI_fetches realm_id access_token get as_of_date)
    as (H1 & H2 & H3 & H4 & H5).
  unfold reconcile, call. cbv [mbind M_bind lift].
  destruct (invoke _ "get_trial_balance" _); [|discriminate].
  destruct (invoke _ "get_balance_sheet_report" _); [|discriminate].
  destruct (invoke _ "get_chart_of_accounts" _); [|discriminate].
  destruct (invoke _ "get_open_ar" _); [|discriminate].
  destruct (invoke _ "get_open_ap" _); [|discriminate].
  unfold invoke at 1. rewrite QuickBooksAPI_has_no_bank_accounts.
  reflexivity.
Qed.

(** *** Loops that agree with a pure step *)

Lemma for_fold_pure {S A} (ok : A -> bool) (step : S -> A -> S)
  (body : S -> A -> result S) (xs : list A) :
  (forall acc x, ok x = true -> body acc x = Ok (step acc x)) ->
  forallb ok xs = true ->
  forall acc, for_fold xs acc body = Ok (fold_left step xs acc).
Proof.
  intros Hbody. induction xs as [|x xs IH]; intros Hok acc; [reflexivity|].
  cbn in Hok. apply andb_true_iff in Hok as [Hx Hxs].
  cbn [for_fold fold_left]. rewrite (Hbody _ _ Hx). cbn [mbind result_bind].
  apply IH, Hxs.
Qed.

Lemma fold_left_omap {S A B} (f : S -> B -> S) (g : A -> option B)
  (xs : list A) :
  forall acc,
  fold_left (fun acc x => fold_left f (option_list (g x)) acc) xs acc
  = fold_left f (omap g xs) acc.
Proof.
  induction xs as [|x xs IH]; intros acc; [reflexivity|].
  cbn [fold_left omap list_omap]. rewrite IH.
  destruct (g x); reflexivity.
Qed.

(** *** Check 2 *)

Lemma fold_left_groups {S} (f : S -> string * float -> S) (rows : list value) :
  forall acc,
  fold_left (fun acc row => fold_left f (omap group_total (sub_rows_of row)) acc)
    rows acc
  = fold_left f (group_totals rows) acc.
Proof.
  unfold group_totals.
  induction rows as [|row rows IH]; intros acc; [reflexivity|].
  cbn [fold_left flat_map]. rewrite IH, omap_app, fold_left_app. reflexivity.
Qed.

Lemma pick_put_side (sd : side) (totals : value * value * value)
  (g : string * float) :
  pick sd (put_side totals g) = if on_side sd g then VFloat (snd g)
                                else pick sd totals.
Proof.
  destruct totals as [[a l] e]. unfold put_side, on_side.
  destruct (side_of (fst g)) as [[]|], sd; reflexivity.
Qed.

Lemma pick_fold_put_side (sd : side) (groups : list (string * float)) :
  forall totals,
  pick sd (fold_left put_side groups totals) =
    match last (List.filter (on_side sd) groups) with
    | Some g => VFloat (snd g)
    | None => pick sd totals
    end.
Proof.
  induction groups as [|g groups IH]; intros totals; [reflexivity|].
  cbn [fold_left List.filter]. rewrite IH, pick_put_side.
  destruct (on_side sd g); [|reflexivity].
  rewrite last_cons. destruct (last (List.filter (on_side sd) groups));
    reflexivity.
Qed.

Lemma side_totals_spec (groups : list (string * float)) :
  fold_left put_side groups (VInt 0, VInt 0, VInt 0) =
    (side_total Assets groups, side_total Liabilities groups,
     side_total Equity groups).
Proof.
  pose proof (fun sd => pick_fold_put_side sd groups (VInt 0, VInt 0, VInt 0))
    as Hpick.
  destruct (fold_left put_side groups (VInt 0, VInt 0, VInt 0)) as [[a l] e].
  pose proof (Hpick Assets) as Ha. pose proof (Hpick Liabilities) as Hl.
  pose proof (Hpick Equity) as He. cbn [pick] in Ha, Hl, He.
  unfold side_total. rewrite Ha, Hl, He. reflexivity.
Qed.

Lemma side_total_amount (sd : side) (groups : list (string * float)) :
  side_total sd groups = VInt 0 \/ exists x, side_total sd groups = VFloat x.
Proof.
  unfold side_total. destruct (last _) as [g|]; [right; eexists|left];
    reflexivity.
Qed.

(** The walk of check 2 over one second-level row. *)
Lemma side_row_spec (sub_row : value) (totals : value * value * value) :
  sub_row_ok sub_row = true ->
  (let '(total_assets, total_liabilities, total_equity) := totals in
   wide ← has_total_column sub_row;
   if negb wide then Ok (total_assets, total_liabilities, total_equity)
   else
     section_name ← py_get sub_row "group" (VStr "");
     last_col ← py_getitem sub_row "ColData" ≫= py_last;
     total_value ← py_get last_col "value" (VInt 0) ≫= py_float;
     name ← py_upper section_name;
     if is_substr "ASSET" name then
       Ok (VFloat total_value, total_liabilities, total_equity)
     else
       name' ← py_upper section_name;
       if is_substr "LIABILITY" name' then
         Ok (total_assets, VFloat total_value, total_equity)
       else
         name'' ← py_upper section_name;
         if is_substr "EQUITY" name'' then
           Ok (total_assets, total_liabilities, VFloat total_value)
         else Ok (total_assets, total_liabilities, total_equity))
  = Ok (fold_left put_side (option_list (group_total sub_row)) totals).
Proof.
  destruct totals as [[a l] e].
  destruct sub_row as [| | | | |ll|d]; try discriminate.
  unfold sub_row_ok, group_total. rewrite has_total_column_spec.
  unfold py_getitem.
  destruct (dict_lookup "ColData" d) as [cd|]; [|reflexivity].
  destruct cd as [| | | | |cols|]; try discriminate.
  cbn [py_len mbind result_bind py_get py_last].
  destruct (1 <? Z.of_nat (List.length cols)); [|reflexivity].
  cbn [negb]. rewrite last_map_Some.
  destruct (last cols) as [[| | | | | |c]|]; try discriminate.
  destruct (default (VStr "") (dict_lookup "group" d)) as [| | | |label| |];
    try discriminate.
  cbn [py_get mbind result_bind py_upper].
  destruct (py_float _) as [x|err]; [|discriminate]. intros _.
  cbv [option_list option_rect]. cbn [mbind result_bind fold_left].
  unfold put_side, side_of. cbn [fst snd].
  repeat match goal with
         | |- context [if ?b then _ else _] => destruct b
         end; reflexivity.
Qed.

(** Check 2 on a balance sheet with a ['Rows'] list of well-formed
    sections. *)
Lemma verify_balance_sheet_totals_rows (d : list (string * value))
  (rows : list value) (w : world) :
  dict_lookup "Rows" d = Some (VList rows) ->
  forallb section_ok rows = true ->
  _verify_balance_sheet_totals (VDict d) w =
    (Ok tt,
     record w "balance_sheet_difference"
       (sheet_difference (side_total Assets (group_totals rows))
          (side_total Liabilities (group_totals rows))
          (side_total Equity (group_totals rows)))
       (plug_for "Balance Sheet Adjustment" "Balance sheet out of balance by $"
          (sheet_difference (side_total Assets (group_totals rows))
             (side_total Liabilities (group_totals rows))
             (side_total Equity (group_totals rows))))).
Proof.
  unfold _verify_balance_sheet_totals.
  cbv [mbind M_bind lift mret M_ret]. cbn [py_contains py_getitem].
  intros Hrows Hok. rewrite !Hrows.
  cbn [negb result_bind py_iter].
  rewrite (for_fold_pure section_ok
             (fun acc row =>
                fold_left put_side (omap group_total (sub_rows_of row)) acc));
    [|clear; intros acc row Hrow|exact Hok].
  - rewrite fold_left_groups, side_totals_spec.
    destruct (side_total_amount Assets (group_totals rows)) as [->|[a ->]],
      (side_total_amount Liabilities (group_totals rows)) as [->|[l ->]],
      (side_total_amount Equity (group_totals rows)) as [->|[e ->]];
      unfold record, plug_for, sheet_difference, amount, py_gt, py_lt,
        tolerance;
      cbn [py_add py_sub py_abs py_neg py_format_2f as_number arith
           number_to_float number_ltb mbind result_bind set_check];
      change (0 + 0)%Z with 0%Z; change (0 - 0)%Z with 0%Z;
      change (float_of_Z 0) with (Ok 0%float);
      cbn [py_abs py_neg py_format_2f as_number number_to_float number_ltb
           mbind result_bind];
      rewrite ?app_nil_r; try reflexivity;
      try change (0 + 0)%float with 0%float;
      match goal with
      | |- context [PrimFloat.ltb ?x ?y] => destruct (PrimFloat.ltb x y)
      end; rewrite ?app_nil_r; reflexivity.
  - destruct row as [| | | | |ll|dr]; try discriminate.
    unfold section_ok in Hrow. unfold sub_rows_of, py_contains, py_getitem.
    cbn [mbind result_bind negb].
    destruct (dict_lookup "Rows" dr) as [sub|]; [|reflexivity].
    destruct sub; try discriminate. cbn [negb mbind result_bind py_iter].
    rewrite <- fold_left_omap.
    apply (for_fold_pure sub_row_ok); [|exact Hrow].
    intros totals sub_row Hsub. apply side_row_spec, Hsub.
Qed.

(** X1: on a balance sheet that has a ['Rows'] list of well-formed
    sections, check 2 takes as total of each side the amount of the last
    group whose label contains ASSET, else LIABILITY, else EQUITY (the
    [int] 0 when there is none), records |assets - (liabilities + equity)|
    under ["balance_sheet_difference"] and appends the one "Balance Sheet
    Adjustment" plug exactly when that difference exceeds 0.01.  On a
    balance sheet without ['Rows'] it returns at once and records
    nothing. *)
Theorem verify_balance_sheet_totals_spec (d : list (string * value))
  (w : world) :
  (dict_lookup "Rows" d = None ->
   _verify_balance_sheet_totals (VDict d) w = (Ok tt, w))
  /\ (forall rows : list value,
        dict_lookup "Rows" d = Some (VList rows) ->
        forallb section_ok rows = true ->
        let difference :=
          sheet_difference (side_total Assets (group_totals rows))
            (side_total Liabilities (group_totals rows))
            (side_total Equity (group_totals rows)) in
        _verify_balance_sheet_totals (VDict d) w =
          (Ok tt,
           record w "balance_sheet_difference" difference
             (plug_for "Balance Sheet Adjustment"
                "Balance sheet out of balance by $" difference))).
Proof.
  split.
  - unfold _verify_balance_sheet_totals.
    cbv [mbind M_bind lift mret M_ret]. cbn [py_contains py_getitem].
    intros ->. reflexivity.
  - intros rows Hrows Hok. apply verify_balance_sheet_totals_rows; assumption.
Qed.

Lemma for_each_extend {A} (ok : A -> bool) (note : A -> option adjustment)
  (body : A -> M unit) (xs : list A) :
  (forall x w, ok x = true -> body x w = (Ok tt, extend w (option_list (note x)))) ->
  forallb ok xs = true ->
  forall w, for_each xs body w = (Ok tt, extend w (omap note xs)).
Proof.
  intros Hbody. induction xs as [|x xs IH]; intros Hok w.
  - cbn. rewrite extend_nil. reflexivity.
  - cbn in Hok. apply andb_true_iff in Hok as [Hx Hrest].
    cbn [for_each]. cbv [mbind M_bind].
    rewrite (Hbody _ _ Hx), (IH Hrest), extend_extend.
    cbn [omap list_omap]. destruct (note x); reflexivity.
Qed.

(** Check 4 on a well-formed bank-accounts response. *)
Lemma reconcile_bank_accounts_extend (bank_accounts trial_balance : value)
  (w : world) :
  response_ok "Account" bank_account_ok bank_accounts = true ->
  _reconcile_bank_accounts bank_accounts trial_balance w =
    (Ok tt, extend w (omap bank_note (entries "Account" bank_accounts))).
Proof.
  unfold _reconcile_bank_accounts, response_ok, entries.
  cbv [mbind M_bind lift mret M_ret].
  destruct bank_accounts as [|b|z|f|s|l|d]; cbn [truthy negb];
    try (intros H; rewrite (negb_true_iff _) in H; cbn [negb] in H;
         rewrite ?H; cbn [negb]; rewrite extend_nil; reflexivity);
    try (intros _; rewrite extend_nil; reflexivity).
  - intros Hok. destruct d as [|kv d']; [rewrite extend_nil; reflexivity|].
    cbn [negb py_contains py_getitem result_bind].
    destruct (dict_lookup "QueryResponse" (kv :: d')) as [response|];
      [|rewrite extend_nil; reflexivity].
    destruct response as [| | | | | |response]; try discriminate.
    cbn [negb result_bind py_get].
    destruct (default (VList []) (dict_lookup "Account" response));
      try discriminate.
    cbn [py_iter]. apply (for_each_extend bank_account_ok); [|exact Hok].
    clear. intros account w0.
    destruct account as [| | | | |l|acc]; try discriminate.
    unfold bank_account_ok, bank_note, large. cbn [py_get field].
    cbv [mbind M_bind lift mret M_ret]. unfold py_gt, py_lt, py_abs.
    destruct (as_number (default (VInt 0) (dict_lookup "CurrentBalance" acc)))
      as [[z|f]|]; try discriminate;
      cbn [magnitude as_number result_bind];
      match goal with
      | |- context [number_ltb ?a ?b] => destruct (number_ltb a b)
      end;
      try (intros _; cbn [option_list]; rewrite extend_nil; reflexivity);
      destruct (py_format_2f true _); try discriminate;
      intros _; cbn [option_list]; apply append_adjustment_extend.
Qed.

(** X2: on a well-formed bank-accounts response, check 4 returns and
    appends, in order, one "info" note with delta 0 per account whose
    balance exceeds 1,000,000 in magnitude, the original and the adjusted
    amount both being that balance; the other accounts get none, and the
    metrics and the database are as before. *)
Theorem reconcile_bank_accounts_spec (bank_accounts trial_balance : value)
  (w : world) :
  response_ok "Account" bank_account_ok bank_accounts = true ->
  _reconcile_bank_accounts bank_accounts trial_balance w =
    (Ok tt, extend w (omap bank_note (entries "Account" bank_accounts))).
Proof. apply reconcile_bank_accounts_extend. Qed.

Lemma for_fold_field (k : string) (dflt : value) (xs : list value) :
  forallb is_dict xs = true ->
  forall acc : value,
  for_fold xs acc (fun total x => balance ← py_get x k dflt; py_add total balance)
  = for_fold (map (field k dflt) xs) acc py_add.
Proof.
  induction xs as [|x xs IH]; intros Hok acc; [reflexivity|].
  cbn in Hok. apply andb_true_iff in Hok as [Hx Hrest].
  destruct x; try discriminate. cbn [for_fold map py_get field mbind result_bind].
  destruct (py_add acc _); [apply IH, Hrest | reflexivity].
Qed.

(** The total of one open-items report. *)
Lemma open_total_spec (key : string) (report : value) :
  response_ok key is_dict report = true ->
  (present ← (if truthy report then py_contains "QueryResponse" report
              else Ok false);
   if present : bool then
     items ← (response ← py_getitem report "QueryResponse";
              py_get response key (VList []) ≫= py_iter);
     for_fold items (VInt 0) (fun total item =>
       balance ← py_get item "Balance" (VInt 0);
       py_add total balance)
   else Ok (VInt 0))
  = py_sum (open_balances key report).
Proof.
  unfold response_ok, open_balances, entries, py_sum.
  destruct report as [|b|z|f|s|l|d]; cbn [truthy negb];
    try (intros H; rewrite (negb_true_iff _) in H; cbn [negb] in H;
         rewrite ?H; reflexivity);
    try (intros _; reflexivity).
  intros Hok. destruct d as [|kv d']; [reflexivity|].
  cbn [py_contains py_getitem mbind result_bind].
  destruct (dict_lookup "QueryResponse" (kv :: d')) as [response|];
    [|reflexivity].
  destruct response as [| | | | | |response]; try discriminate.
  cbn [mbind result_bind py_get].
  destruct (default (VList []) (dict_lookup key response)); try discriminate.
  cbn [py_iter mbind result_bind]. apply for_fold_field, Hok.
Qed.

(** Check 5 on well-formed open-items reports. *)
Lemma verify_open_items_record (open_ar open_ap total_ar total_ap : value)
  (w : world) :
  response_ok "Customer" is_dict open_ar = true ->
  response_ok "Vendor" is_dict open_ap = true ->
  py_sum (open_balances "Customer" open_ar) = Ok total_ar ->
  py_sum (open_balances "Vendor" open_ap) = Ok total_ap ->
  is_ok (py_format_2f true total_ar) = true ->
  _verify_open_items open_ar open_ap w =
    (Ok tt,
     record (record w "total_open_ar" total_ar [])
       "total_open_ap" total_ap (receivables_note total_ar)).
Proof.
  intros Har Hap Hsum_ar Hsum_ap Hfmt.
  unfold _verify_open_items. cbv [mbind M_bind lift mret M_ret].
  pose proof (open_total_spec "Customer" open_ar Har) as Ear.
  pose proof (open_total_spec "Vendor" open_ap Hap) as Eap.
  cbv [mbind] in Ear, Eap. rewrite Ear, Eap, Hsum_ar, Hsum_ap.
  assert (exists n, as_number total_ar = Some n) as [n Hn].
  { unfold py_format_2f in Hfmt. destruct (as_number total_ar); [eauto|].
    destruct total_ar; discriminate. }
  unfold receivables_note, record, set_check, py_gt, py_lt.
  rewrite Hn. cbn [self db adjustments reconciliation_checks as_number].
  destruct (py_format_2f true total_ar) as [amount|]; [|discriminate].
  destruct (number_ltb (NInt 500000) n).
  - unfold append_adjustment. cbn [self db adjustments reconciliation_checks].
    rewrite app_nil_r. reflexivity.
  - rewrite !app_nil_r. reflexivity.
Qed.

(** C4 (as amended): when the six fetches return, [reconcile] raises
    its "Failed to retrieve required data" exception exactly when one of
    the trial balance, the balance sheet and the chart of accounts is
    falsy ([None], or an empty or zero value), and then the instance and
    the database are as before: no check has run, nothing is saved and
    no result is returned.  A [None] for an optional report does not make
    its check raise.  With [None] for the bank accounts check 4 returns
    and changes nothing.  With [None] for the open receivables check 5
    appends nothing whatever the payables are, and on well-formed payables
    it returns, having recorded 0 for the receivables and the sum of the
    payables.  With [None] for the open payables and well-formed
    receivables check 5 returns, having recorded the sum of the
    receivables and 0 for the payables, with its note for receivables
    above 500,000.  With [None] for both it records two totals of 0. *)
Theorem data_unavailable_iff (qbo_api : object) (today : clock)
  (as_of_date : option date) (p : payloads) (w : world) :
  serves qbo_api as_of_date p ->
  (forall w' : world,
     reconcile qbo_api today as_of_date w = (Raise data_unavailable, w')
     <-> forallb truthy (mandatory p) = false /\ w' = w)
  /\ (forall (trial_balance : value) (w0 : world),
        _reconcile_bank_accounts VNone trial_balance w0 = (Ok tt, w0))
  /\ (forall (open_ap : value) (w0 : world),
        adjustments (self (snd (_verify_open_items VNone open_ap w0)))
        = adjustments (self w0))
  /\ (forall w0 : world,
        _verify_open_items VNone VNone w0 =
          (Ok tt,
           {| self :=
                {| adjustments := adjustments (self w0);
                   reconciliation_checks :=
                     <["total_open_ap" := VInt 0]>
                       (<["total_open_ar" := VInt 0]>
                          (reconciliation_checks (self w0))) |};
              db := db w0 |}))
  /\ (forall (open_ap total_ap : value) (w0 : world),
        response_ok "Vendor" is_dict open_ap = true ->
        py_sum (open_balances "Vendor" open_ap) = Ok total_ap ->
        _verify_open_items VNone open_ap w0 =
          (Ok tt,
           record (record w0 "total_open_ar" (VInt 0) [])
             "total_open_ap" total_ap []))
  /\ (forall (open_ar total_ar : value) (w0 : world),
        response_ok "Customer" is_dict open_ar = true ->
        py_sum (open_balances "Customer" open_ar) = Ok total_ar ->
        is_ok (py_format_2f true total_ar) = true ->
        _verify_open_items open_ar VNone w0 =
          (Ok tt,
           record (record w0 "total_open_ar" total_ar [])
             "total_open_ap" (VInt 0) (receivables_note total_ar))).
Proof.
  intros Hp.
  split; [|split; [reflexivity|split; [|split; [reflexivity|split]]]].
  - intros w'. rewrite (reconcile_fetched _ today _ p w Hp).
    destruct (forallb truthy (mandatory p)).
    + split; [|intros [? _]; discriminate].
      intros Hraise.
      pose proof (careful_after_fetch today as_of_date p w) as Hc.
      rewrite Hraise in Hc. specialize (Hc _ eq_refl). discriminate.
    + split; [intros [= <-]; auto | intros [_ ->]; reflexivity].
  - apply null_receivables_raise_no_finding.
  - intros open_ap total_ap w0 Hok Hsum.
    exact (verify_open_items_record VNone open_ap (VInt 0) total_ap w0
             eq_refl Hok eq_refl Hsum eq_refl).
  - intros open_ar total_ar w0 Hok Hsum Hfmt.
    exact (verify_open_items_record open_ar VNone total_ar (VInt 0) w0
             Hok eq_refl Hsum eq_refl Hfmt).
Qed.

(** X3: on well-formed open-items reports whose balances add up, check
    5 records the sum of the customers' balances under ["total_open_ar"]
    and the sum of the vendors' balances under ["total_open_ap"] (the
    [int] 0 for a report that is falsy or has no ['QueryResponse']), and
    appends one "info" note with delta 0 exactly when the receivables
    exceed 500,000; the payables never produce a note. *)
Theorem verify_open_items_spec (open_ar open_ap total_ar total_ap : value)
  (w : world) :
  response_ok "Customer" is_dict open_ar = true ->
  response_ok "Vendor" is_dict open_ap = true ->
  py_sum (open_balances "Customer" open_ar) = Ok total_ar ->
  py_sum (open_balances "Vendor" open_ap) = Ok total_ap ->
  is_ok (py_format_2f true total_ar) = true ->
  _verify_open_items open_ar open_ap w =
    (Ok tt,
     record (record w "total_open_ar" total_ar [])
       "total_open_ap" total_ap (receivables_note total_ar)).
Proof. apply verify_open_items_record. Qed.

(** X4: when several sections of a well-formed balance sheet hold a
    RETAINED group, check 6 reads the last of these sections, because its
    [break] leaves the inner loop only: the amount is that of the first
    RETAINED group of the last section that has one, whatever the
    sections before it hold. *)
Theorem retained_earnings_read_from_last_section
  (d : list (string * value)) (pre post : list value) (row : value)
  (x : float) (trial_balance : value) (w : world) :
  dict_lookup "Rows" d = Some (VList (pre ++ row :: post)) ->
  forallb section_ok (pre ++ row :: post) = true ->
  retained_in_section row = Some x ->
  omap retained_in_section post = [] ->
  _validate_retained_earnings (VDict d) trial_balance w =
    (Ok tt, extend w (negative_retained x)).
Proof.
  intros Hrows Hok Hrow Hpost.
  rewrite (validate_retained_earnings_last_section d _ trial_balance w Hrows Hok).
  assert (omap retained_in_section (pre ++ row :: post)
          = omap retained_in_section pre ++ [x]) as ->.
  { rewrite omap_app. f_equal. cbn. rewrite Hrow. f_equal. exact Hpost. }
  rewrite last_snoc. reflexivity.
Qed.

(** *** Methods: what they leave on the instance *)

Lemma within_refl (w : world) : within w w.
Proof.
  split; [|auto]. exists []. rewrite app_nil_r. split; [reflexivity|constructor].
Qed.

Lemma within_trans (w1 w2 w3 : world) :
  within w1 w2 -> within w2 w3 -> within w1 w3.
Proof.
  intros [(n1 & H1 & F1) Hm1] [(n2 & H2 & F2) Hm2]. split.
  - exists (n1 ++ n2). rewrite H2, H1, app_assoc. split; [reflexivity|].
    apply Forall_app. auto.
  - intros k Hk. rewrite Hm2, Hm1; auto.
Qed.

Lemma confined_self {A} (m : M A) :
  (forall w, self (snd (m w)) = self w) -> confined m.
Proof.
  intros Hm w. specialize (Hm w). unfold within. rewrite Hm.
  apply within_refl.
Qed.

Lemma confined_ret {A} (a : A) : confined (mret a).
Proof. intros w. apply within_refl. Qed.

Lemma confined_lift {A} (r : result A) : confined (lift r).
Proof. intros w. apply within_refl. Qed.

Lemma confined_raise {A} (e : exn) : confined (raise (A := A) e).
Proof. intros w. apply within_refl. Qed.

Lemma confined_bind {A B} (m : M A) (f : A -> M B) :
  confined m -> (forall a, confined (f a)) -> confined (m ≫= f).
Proof.
  intros Hm Hf w. specialize (Hm w). unfold mbind, M_bind.
  destruct (m w) as [[a|e] w1]; cbn in *; [|exact Hm].
  eapply within_trans; [exact Hm | apply Hf].
Qed.

Lemma confined_for_each {A} (xs : list A) (body : A -> M unit) :
  (forall x, confined (body x)) -> confined (for_each xs body).
Proof.
  intros Hbody. induction xs as [|x xs IH]; cbn [for_each].
  - apply confined_ret.
  - apply confined_bind; [apply Hbody | intros _; exact IH].
Qed.

Lemma confined_append (adj : adjustment) :
  finding adj -> confined (append_adjustment adj).
Proof.
  intros Hadj w. split; [|auto]. exists [adj]. split; [reflexivity|].
  constructor; [exact Hadj | constructor].
Qed.

Lemma confined_set_check (name : string) (v : value) :
  In name run_metrics -> confined (set_check name v).
Proof.
  intros Hname w. split.
  - exists []. cbn. rewrite app_nil_r. split; [reflexivity|constructor].
  - intros k Hk. cbn. apply lookup_insert_ne. intros ->. auto.
Qed.

Lemma confined_run_all (ms : list (M unit)) :
  Forall confined ms -> confined (run_all ms).
Proof.
  induction 1 as [|m ms Hm _ IH]; cbn [run_all].
  - apply confined_ret.
  - apply confined_bind; [exact Hm | intros _; exact IH].
Qed.

Ltac walk_confined :=
  repeat first
    [ apply confined_ret
    | apply confined_lift
    | apply confined_raise
    | apply confined_bind; [|intros ?]
    | apply confined_for_each; intros ?
    | apply confined_set_check; cbn; tauto
    | apply confined_append; first [left; reflexivity
                                   | right; repeat split; reflexivity]
    | match goal with
      | |- confined (if ?b then _ else _) => destruct b
      | |- confined (match ?p with _ => _ end) => destruct p
      end ].

Lemma six_checks_confined (p : payloads) : Forall confined (six_checks p).
Proof.
  unfold six_checks, _validate_trial_balance, _verify_balance_sheet_totals,
    _check_account_balances, check_account, _reconcile_bank_accounts,
    _verify_open_items, _validate_retained_earnings.
  repeat constructor; walk_confined.
Qed.

Lemma log_results_self (today : clock) (as_of_date : option date)
  (summary_bs : summary_dict) (w : world) :
  self (snd (log_results today as_of_date summary_bs w)) = self w.
Proof.
  unfold log_results. cbv [mbind M_bind lift mret M_ret get_adjustments
    get_checks].
  destruct (summary_getitem summary_bs "total_assets") as [ta|]; [|reflexivity].
  destruct (summary_getitem summary_bs "total_liabilities") as [tl|];
    [|reflexivity].
  destruct (summary_getitem summary_bs "total_equity") as [te|]; [|reflexivity].
  destruct (result_bind _ _ _ _) as [balanced|]; [|reflexivity].
  unfold db_add_snapshot. cbn [self db].
  rewrite db_add_adjustments_spec. cbn [self db].
  destruct (forallb accepts (adjustments (self w))); reflexivity.
Qed.

(** A run that raises in its last part has either not reached the
    database, or has committed its snapshot and been refused the
    adjustments. *)
Lemma log_results_raises (today : clock) (as_of_date : option date)
  (summary_bs : summary_dict) (w w' : world) (e : exn) :
  log_results today as_of_date summary_bs w = (Raise e, w') ->
  w' = w
  \/ (e = SQLAlchemyError
      /\ forallb accepts (adjustments (self w)) = false
      /\ self w' = self w
      /\ adjustments_table (db w') = adjustments_table (db w)
      /\ exists snap : Snapshot.row,
           balance_sheet_snapshots (db w')
           = balance_sheet_snapshots (db w) ++ [snap]
           /\ Snapshot.id snap =
              next_id (map Snapshot.id (balance_sheet_snapshots (db w)))
           /\ Snapshot.status snap = "completed").
Proof.
  unfold log_results. cbv [mbind M_bind lift mret M_ret get_adjustments
    get_checks].
  destruct (summary_getitem summary_bs "total_assets") as [ta|];
    [|intros [= _ <-]; left; reflexivity].
  destruct (summary_getitem summary_bs "total_liabilities") as [tl|];
    [|intros [= _ <-]; left; reflexivity].
  destruct (summary_getitem summary_bs "total_equity") as [te|];
    [|intros [= _ <-]; left; reflexivity].
  destruct (result_bind _ _ _ _) as [balanced|];
    [|intros [= _ <-]; left; reflexivity].
  unfold db_add_snapshot. cbn [self db].
  rewrite db_add_adjustments_spec. cbn [self db].
  destruct (forallb accepts (adjustments (self w))); [discriminate|].
  intros [= <- <-]. right. cbn [self db balance_sheet_snapshots
    adjustments_table].
  repeat (split; [reflexivity|]). eexists. repeat split; reflexivity.
Qed.

(** The six fetches of a run, whatever they give. *)
Lemma reconcile_after_fetches (qbo_api : object) (today : clock)
  (as_of_date : option date) :
  (exists p : payloads,
     serves qbo_api as_of_date p
     /\ forall w : world,
        reconcile qbo_api today as_of_date w =
        if forallb truthy (mandatory p)
        then (run_all (six_checks p);;
              summary_bs ← lift (_generate_summary_balance_sheet
                                   (balance_sheet p));
              log_results today as_of_date summary_bs) w
        else (Raise data_unavailable, w))
  \/ (exists e : exn,
        forall w : world, reconcile qbo_api today as_of_date w = (Raise e, w)).
Proof.
  destruct (invoke qbo_api "get_trial_balance" as_of_date) as [tb|e] eqn:H1;
  [destruct (invoke qbo_api "get_balance_sheet_report" as_of_date)
     as [bs|e] eqn:H2;
   [destruct (invoke qbo_api "get_chart_of_accounts" None) as [coa|e] eqn:H3;
    [destruct (invoke qbo_api "get_open_ar" None) as [ar|e] eqn:H4;
     [destruct (invoke qbo_api "get_open_ap" None) as [ap|e] eqn:H5;
      [destruct (invoke qbo_api "get_bank_accounts" None) as [bank|e] eqn:H6
      |]|]|]|]|];
    try (right; exists e; intros w; unfold reconcile, call;
         cbv [mbind M_bind lift];
         rewrite ?H1, ?H2, ?H3, ?H4, ?H5, ?H6; reflexivity).
  left. exists (Build_payloads tb bs coa ar ap bank).
  assert (serves qbo_api as_of_date (Build_payloads tb bs coa ar ap bank))
    as Hs by (repeat split; assumption).
  split; [exact Hs | intros w; apply reconcile_fetched, Hs].
Qed.

(** X5: whatever the collaborator answers and whether the run returns
    or raises, [reconcile] leaves the adjustments it found in place and
    appends nothing but "correction" adjustments and "info" notes with
    delta 0 and equal original and adjusted amounts, and it sets no metric
    other than the trial-balance and balance-sheet differences and the
    two open-item totals: a value kept under any other name is as
    before. *)
Theorem reconcile_confined (qbo_api : object) (today : clock)
  (as_of_date : option date) (w : world) :
  let w' := snd (reconcile qbo_api today as_of_date w) in
  (exists new : list adjustment,
     adjustments (self w') = adjustments (self w) ++ new
     /\ Forall finding new)
  /\ (forall name : string,
        ~ In name run_metrics ->
        reconciliation_checks (self w') !! name
        = reconciliation_checks (self w) !! name).
Proof.
  cbv zeta. change (within w (snd (reconcile qbo_api today as_of_date w))).
  destruct (reconcile_after_fetches qbo_api today as_of_date)
    as [(p & _ & Hrun)|[e Hrun]]; rewrite Hrun; [|apply within_refl].
  destruct (forallb truthy (mandatory p)); [|apply within_refl].
  revert w. change (confined (run_all (six_checks p);;
    summary_bs ← lift (_generate_summary_balance_sheet (balance_sheet p));
    log_results today as_of_date summary_bs)).
  apply confined_bind; [apply confined_run_all, six_checks_confined|].
  intros _. apply confined_bind; [apply confined_lift|].
  intros summary_bs. apply confined_self, log_results_self.
Qed.

(** X6: a run that raises has written no adjustment row, and it has
    written no snapshot either unless the exception is the refusal of the
    adjustments by the database: the snapshot is committed before the
    adjustments are added, so a run that fails at the second commit leaves
    its snapshot in the table without any of its adjustments. *)
Theorem reconcile_raises_without_adjustment_rows (qbo_api : object)
  (today : clock) (as_of_date : option date) (w w' : world) (e : exn) :
  reconcile qbo_api today as_of_date w = (Raise e, w') ->
  adjustments_table (db w') = adjustments_table (db w)
  /\ (balance_sheet_snapshots (db w') = balance_sheet_snapshots (db w)
      \/ (e = SQLAlchemyError
          /\ forallb accepts (adjustments (self w')) = false
          /\ exists snap : Snapshot.row,
               balance_sheet_snapshots (db w')
               = balance_sheet_snapshots (db w) ++ [snap]
               /\ Snapshot.id snap =
                  next_id (map Snapshot.id (balance_sheet_snapshots (db w)))
               /\ Snapshot.status snap = "completed")).
Proof.
  destruct (reconcile_after_fetches qbo_api today as_of_date)
    as [(p & _ & Hrun)|[e' Hrun]]; rewrite Hrun;
    [|intros [= _ <-]; auto].
  destruct (forallb truthy (mandatory p)); [|intros [= _ <-]; auto].
  cbv [mbind M_bind lift].
  pose proof (proj2 (six_checks_check p) w) as (Hdb & _).
  destruct (run_all (six_checks p) w) as [[[]|e1] w1]; cbn [snd] in Hdb;
    [|intros [= _ <-]; rewrite Hdb; auto].
  destruct (_generate_summary_balance_sheet (balance_sheet p))
    as [summary_bs|e2]; [|intros [= _ <-]; rewrite Hdb; auto].
  intros Hlog. apply log_results_raises in Hlog
    as [->|(-> & Hrefused & Hself & Htable & snap & Hsnap & Hid & Hstatus)].
  - rewrite Hdb. auto.
  - rewrite Hdb in Htable, Hsnap, Hid. rewrite Htable, Hsnap, Hself.
    split; [reflexivity|]. right.
    split; [reflexivity|]. split; [exact Hrefused|].
    exists snap. auto.
Qed.

(** X7: the six reports are fetched in a fixed order (trial balance,
    balance sheet, chart of accounts, open receivables, open payables,
    bank accounts) and before anything else: when the fetches before one
    return and that one raises, [reconcile] raises the same exception
    with the instance and the database as before, whatever the fetches
    after it would have given. *)
Theorem failing_fetch_aborts_run (qbo_api : object) (today : clock)
  (as_of_date : option date) (pre post : list (result value)) (e : exn)
  (w : world) :
  fetches qbo_api as_of_date = pre ++ Raise e :: post ->
  forallb is_ok pre = true ->
  reconcile qbo_api today as_of_date w = (Raise e, w).
Proof.
  unfold fetches, reconcile, call. cbv [mbind M_bind lift].
  intros Hsplit Hpre.
  repeat match type of Hsplit with
         | _ :: _ = _ =>
             destruct pre as [|r pre]; cbn [app] in Hsplit;
             [ injection Hsplit as H _; rewrite H; reflexivity
             | injection Hsplit as H Hsplit; rewrite H;
               cbn [forallb] in Hpre; apply andb_true_iff in Hpre as [Hr Hpre];
               destruct r as [?|?]; [clear H Hr|discriminate Hr] ]
         end.
  destruct pre; discriminate Hsplit.
Qed.

(** *** What a result always holds *)

Lemma verify_balance_sheet_totals_records (balance_sheet : value)
  (w w' : world) :
  _verify_balance_sheet_totals balance_sheet w = (Ok tt, w') ->
  py_contains "Rows" balance_sheet = Ok true ->
  is_Some (reconciliation_checks (self w') !! "balance_sheet_difference").
Proof.
  unfold _verify_balance_sheet_totals. cbv [mbind M_bind lift mret M_ret].
  intros Hrun Hrows. rewrite Hrows in Hrun. cbn [negb] in Hrun.
  match type of Hrun with
  | context [match ?r with Ok _ => _ | Raise _ => _ end] =>
      destruct r as [[[a l] e]|]; [|discriminate Hrun]
  end.
  destruct (result_bind _ _ _ _) as [difference|]; [|discriminate Hrun].
  unfold set_check, append_adjustment in Hrun.
  destruct (py_gt difference tolerance) as [[]|]; [| |discriminate Hrun].
  - destruct (py_neg difference); [|discriminate Hrun].
    destruct (py_format_2f false difference); [|discriminate Hrun].
    injection Hrun as <-. cbn. rewrite lookup_insert_eq. eauto.
  - injection Hrun as <-. cbn. rewrite lookup_insert_eq. eauto.
Qed.

Lemma verify_open_items_records (open_ar open_ap : value) (w w' : world) :
  _verify_open_items open_ar open_ap w = (Ok tt, w') ->
  is_Some (reconciliation_checks (self w') !! "total_open_ar")
  /\ is_Some (reconciliation_checks (self w') !! "total_open_ap").
Proof.
  unfold _verify_open_items. cbv [mbind M_bind lift mret M_ret].
  intros Hrun.
  match type of Hrun with
  | context [match ?r with Ok _ => _ | Raise _ => _ end] =>
      destruct r as [total_ar|]; [|discriminate Hrun]
  end.
  match type of Hrun with
  | context [match ?r with Ok _ => _ | Raise _ => _ end] =>
      destruct r as [total_ap|]; [|discriminate Hrun]
  end.
  unfold set_check, append_adjustment in Hrun. cbn [self db] in Hrun.
  destruct (py_gt total_ar (VInt 500000)) as [[]|]; [| |discriminate Hrun].
  - destruct (py_format_2f true total_ar); [|discriminate Hrun].
    injection Hrun as <-. cbn.
    rewrite lookup_insert_eq, lookup_insert_ne, lookup_insert_eq by discriminate.
    eauto.
  - injection Hrun as <-. cbn.
    rewrite lookup_insert_eq, lookup_insert_ne, lookup_insert_eq by discriminate.
    eauto.
Qed.

Lemma generate_summary_has_rows (balance_sheet : value) (s : Summary.t) :
  _generate_summary_balance_sheet balance_sheet = Ok (SummaryDict s) ->
  py_contains "Rows" balance_sheet = Ok true.
Proof.
  unfold _generate_summary_balance_sheet.
  destruct (py_contains "Rows" balance_sheet) as [[]|]; cbn; try discriminate.
  reflexivity.
Qed.

Lemma log_results_returns (today : clock) (as_of_date : option date)
  (summary_bs : summary_dict) (w w' : world) (r : run_result) :
  log_results today as_of_date summary_bs w = (Ok r, w') ->
  exists s : Summary.t,
    summary_bs = SummaryDict s
    /\ summary_balance_sheet r = SummaryDict s
    /\ result_adjustments r = adjustments (self w)
    /\ result_checks r = reconciliation_checks (self w)
    /\ (rhs ← py_add (Summary.total_liabilities s) (Summary.total_equity s);
        gap ← py_sub (Summary.total_assets s) rhs ≫= py_abs;
        py_lt gap tolerance) = Ok (result_is_balanced r).
Proof.
  destruct summary_bs as [|s]; [discriminate|].
  unfold log_results. cbv [mbind M_bind lift mret M_ret get_adjustments
    get_checks]. cbn [summary_getitem String.eqb Ascii.eqb Bool.eqb].
  cbn [result_bind].
  destruct (result_bind _ _ _ _) as [balanced|] eqn:Hb; [|discriminate].
  unfold db_add_snapshot. cbn [self db].
  rewrite db_add_adjustments_spec. cbn [self db Snapshot.is_balanced].
  destruct (forallb accepts (adjustments (self w))); [|discriminate].
  intros [= <- _]. exists s. cbn. repeat split; try reflexivity. exact Hb.
Qed.

(** X8: a result that [reconcile] returns always holds a summary with
    the nine groups and the three totals (never the empty dict of a
    balance sheet without ['Rows']), and the metrics
    ["balance_sheet_difference"], ["total_open_ar"] and
    ["total_open_ap"]; its balanced flag is the comparison of the
    summary's own totals, |assets - (liabilities + equity)| < 0.01. *)
Theorem reconcile_result_shape (qbo_api : object) (today : clock)
  (as_of_date : option date) (w w' : world) (r : run_result) :
  reconcile qbo_api today as_of_date w = (Ok r, w') ->
  exists s : Summary.t,
    summary_balance_sheet r = SummaryDict s
    /\ (rhs ← py_add (Summary.total_liabilities s) (Summary.total_equity s);
        gap ← py_sub (Summary.total_assets s) rhs ≫= py_abs;
        py_lt gap tolerance) = Ok (result_is_balanced r)
    /\ is_Some (result_checks r !! "balance_sheet_difference")
    /\ is_Some (result_checks r !! "total_open_ar")
    /\ is_Some (result_checks r !! "total_open_ap").
Proof.
  intros Hrun.
  destruct (reconcile_returns _ _ _ _ _ _ Hrun)
    as (p & w1 & summary_bs & _ & Hchecks & Hsummary & Hlog).
  destruct (log_results_returns _ _ _ _ _ _ Hlog)
    as (s & -> & Hs & _ & Hmetrics & Hbalanced).
  exists s. split; [exact Hs|]. split; [exact Hbalanced|].
  rewrite Hmetrics. apply generate_summary_has_rows in Hsummary.
  revert Hchecks. unfold six_checks. cbn [run_all]. cbv [mbind M_bind mret M_ret].
  destruct (_validate_trial_balance _ w) as [[[]|?] w2]; [|discriminate].
  destruct (_verify_balance_sheet_totals _ w2) as [[[]|?] w3] eqn:H2;
    [|discriminate].
  destruct (_check_account_balances _ _ w3) as [[[]|?] w4] eqn:H3;
    [|discriminate].
  destruct (_reconcile_bank_accounts _ _ w4) as [[[]|?] w5] eqn:H4;
    [|discriminate].
  destruct (_verify_open_items _ _ w5) as [[[]|?] w6] eqn:H5; [|discriminate].
  destruct (_validate_retained_earnings _ _ w6) as [[[]|?] w7] eqn:H6;
    [|discriminate].
  intros [= <-].
  pose proof (verify_balance_sheet_totals_records _ _ _ H2 Hsummary) as Hbs.
  pose proof (verify_open_items_records _ _ _ _ H5) as [Har Hap].
  pose proof (proj2 (check_account_balances_check
                       (chart_of_accounts p) (trial_balance p)) w3) as G3.
  pose proof (proj2 (reconcile_bank_accounts_check
                       (bank_accounts p) (trial_balance p)) w4) as G4.
  pose proof (proj2 (verify_open_items_check (open_ar p) (open_ap p)) w5) as G5.
  pose proof (proj2 (validate_retained_earnings_check
                       (balance_sheet p) (trial_balance p)) w6) as G6.
  rewrite H3 in G3. rewrite H4 in G4. rewrite H5 in G5. rewrite H6 in G6.
  cbn [snd] in G3, G4, G5, G6.
  destruct G3 as (_ & _ & G3), G4 as (_ & _ & G4), G5 as (_ & _ & G5),
    G6 as (_ & _ & G6).
  auto 10.
Qed.

(** *** A run on well-formed payloads *)

Lemma finds_run_all (cs : list (M unit)) (news : list (list adjustment)) :
  Forall2 finds cs news -> finds (run_all cs) (concat news).
Proof.
  induction 1 as [|c new cs news Hc _ IH]; intros w; cbn [run_all concat].
  - exists w. rewrite app_nil_r. split; reflexivity.
  - destruct (Hc w) as (w1 & Hrun & Hadj).
    destruct (IH w1) as (w2 & Hrest & Hadj2).
    exists w2. cbv [mbind M_bind]. rewrite Hrun. split; [exact Hrest|].
    rewrite Hadj2, Hadj, app_assoc. reflexivity.
Qed.

Lemma validate_trial_balance_finds (trial_balance : value) :
  trial_balance_ok trial_balance = true ->
  finds (_validate_trial_balance trial_balance)
    match rows_of trial_balance with
    | Some rows =>
        plug_for "Trial Balance Adjustment" "Trial balance out of balance by $"
          (trial_difference rows)
    | None => []
    end.
Proof.
  destruct trial_balance as [| | | | | |d]; try discriminate.
  unfold trial_balance_ok, rows_of, _validate_trial_balance.
  cbv [mbind M_bind lift mret M_ret]. cbn [py_contains py_getitem].
  destruct (dict_lookup "Rows" d) as [rows|];
    [|intros _ w; exists w; rewrite app_nil_r; split; reflexivity].
  destruct rows as [| | | | |rows|]; try discriminate.
  intros Hok w. cbn [negb result_bind py_iter].
  pose proof (tally_rows_spec rows Hok [] []) as Hloop.
  cbn [total_of app] in Hloop. rewrite Hloop.
  unfold trial_difference, plug_for.
  destruct (tagged_values "Debit" rows) as [|x ds],
           (tagged_values "Credit" rows) as [|y cs];
    [eexists; split; [reflexivity|]; cbn; rewrite app_nil_r; reflexivity| | |];
    unfold py_gt, py_lt, tolerance;
    cbn [total_of py_sub py_abs py_neg py_format_2f as_number arith
         number_to_float number_ltb mbind result_bind set_check];
    change (float_of_Z 0) with (Ok 0%float);
    try change (float_sum []) with 0%float;
    cbn [py_abs py_neg py_format_2f as_number number_to_float number_ltb
         mbind result_bind];
    match goal with
    | |- context [PrimFloat.ltb ?a ?b] => destruct (PrimFloat.ltb a b)
    end; eexists; (split; [reflexivity|]); cbn; rewrite ?app_nil_r;
    reflexivity.
Qed.

Lemma verify_balance_sheet_totals_finds (balance_sheet : value) :
  balance_sheet_ok balance_sheet = true ->
  finds (_verify_balance_sheet_totals balance_sheet)
    match rows_of balance_sheet with
    | Some rows =>
        plug_for "Balance Sheet Adjustment" "Balance sheet out of balance by $"
          (sheet_difference (side_total Assets (group_totals rows))
             (side_total Liabilities (group_totals rows))
             (side_total Equity (group_totals rows)))
    | None => []
    end.
Proof.
  unfold balance_sheet_ok, rows_of.
  destruct balance_sheet as [| | | | | |d]; try discriminate.
  destruct (dict_lookup "Rows" d) as [[| | | | |rows|]|] eqn:Hrows;
    try discriminate.
  intros Hok w. eexists.
  rewrite (verify_balance_sheet_totals_rows d rows w Hrows Hok).
  split; reflexivity.
Qed.

Lemma check_account_balances_finds (chart_of_accounts trial_balance : value) :
  chart_ok chart_of_accounts = true ->
  finds (_check_account_balances chart_of_accounts trial_balance)
    (omap correction_for (chart_entries chart_of_accounts)).
Proof.
  destruct chart_of_accounts as [| | | | |l|d]; try discriminate.
  unfold chart_ok, chart_entries, _check_account_balances.
  cbv [mbind M_bind lift mret M_ret]. cbn [py_contains py_getitem].
  destruct (dict_lookup "QueryResponse" d) as [response|];
    [|intros _ w; exists w; rewrite app_nil_r; split; reflexivity].
  destruct response as [| | | | | |response]; try discriminate.
  cbn [negb result_bind py_get].
  destruct (default (VList []) (dict_lookup "Account" response));
    try discriminate.
  cbn [py_iter]. intros Hok w. eexists.
  rewrite (check_accounts_spec _ Hok). split; reflexivity.
Qed.

Lemma reconcile_bank_accounts_finds (bank_accounts trial_balance : value) :
  response_ok "Account" bank_account_ok bank_accounts = true ->
  finds (_reconcile_bank_accounts bank_accounts trial_balance)
    (omap bank_note (entries "Account" bank_accounts)).
Proof.
  intros Hok w. eexists.
  rewrite (reconcile_bank_accounts_extend _ trial_balance w Hok).
  split; reflexivity.
Qed.

Lemma verify_open_items_finds (open_ar open_ap : value) :
  response_ok "Customer" is_dict open_ar = true ->
  is_ok (py_sum (open_balances "Customer" open_ar) ≫= py_format_2f true)
    = true ->
  response_ok "Vendor" is_dict open_ap = true ->
  is_ok (py_sum (open_balances "Vendor" open_ap)) = true ->
  finds (_verify_open_items open_ar open_ap)
    match py_sum (open_balances "Customer" open_ar) with
    | Ok total_ar => receivables_note total_ar
    | Raise _ => []
    end.
Proof.
  intros Har Hfmt Hap Hsum w.
  destruct (py_sum (open_balances "Customer" open_ar)) as [total_ar|] eqn:Ear;
    [|discriminate].
  destruct (py_sum (open_balances "Vendor" open_ap)) as [total_ap|] eqn:Eap;
    [|discriminate].
  eexists.
  rewrite (verify_open_items_record _ _ _ _ w Har Hap Ear Eap Hfmt).
  split; [reflexivity|]. cbn. rewrite app_nil_r. reflexivity.
Qed.

Lemma validate_retained_earnings_finds (balance_sheet trial_balance : value) :
  balance_sheet_ok balance_sheet = true ->
  finds (_validate_retained_earnings balance_sheet trial_balance)
    match rows_of balance_sheet with
    | Some rows =>
        match last (omap retained_in_section rows) with
        | Some x => negative_retained x
        | None => []
        end
    | None => []
    end.
Proof.
  unfold balance_sheet_ok, rows_of.
  destruct balance_sheet as [| | | | | |d]; try discriminate.
  destruct (dict_lookup "Rows" d) as [[| | | | |rows|]|] eqn:Hrows;
    try discriminate.
  intros Hok w. eexists.
  rewrite (validate_retained_earnings_last_section d rows trial_balance w
             Hrows Hok).
  split; reflexivity.
Qed.

(** The summary of a well-formed balance sheet: its totals are amounts. *)
Lemma generate_summary_returns (balance_sheet : value) :
  balance_sheet_ok balance_sheet = true ->
  exists s : Summary.t,
    _generate_summary_balance_sheet balance_sheet = Ok (SummaryDict s)
    /\ (Summary.total_assets s = VInt 0
        \/ exists x, Summary.total_assets s = VFloat x)
    /\ (Summary.total_liabilities s = VInt 0
        \/ exists x, Summary.total_liabilities s = VFloat x)
    /\ (Summary.total_equity s = VInt 0
        \/ exists x, Summary.total_equity s = VFloat x).
Proof.
  unfold balance_sheet_ok, rows_of.
  destruct balance_sheet as [| | | | | |d]; try discriminate.
  destruct (dict_lookup "Rows" d) as [[| | | | |rows|]|] eqn:Hrows;
    try discriminate.
  intros Hok.
  unfold _generate_summary_balance_sheet, py_contains, py_getitem.
  rewrite Hrows. cbn [mbind result_bind negb py_iter].
  rewrite (categorize_sections_spec rows Hok).
  set (summary := fold_left place (group_totals rows) empty_categories).
  assert (forall b, fetch b summary = VInt 0 \/ exists x, fetch b summary = VFloat x)
    as Hamount.
  { intros b. unfold summary. rewrite fetch_fold_place.
    destruct (last _) as [g|]; [right; eexists; reflexivity|].
    left. destruct b; reflexivity. }
  destruct (py_add_amounts _ _ (Hamount AssetsCurrent) (Hamount AssetsFixed))
    as (partial & Hpartial & Hp).
  destruct (py_add_amounts _ _ Hp (Hamount AssetsOther)) as (ta & Hta & Ha).
  destruct (py_add_amounts _ _ (Hamount LiabilitiesCurrent)
              (Hamount LiabilitiesLongTerm)) as (tl & Htl & Hl).
  destruct (py_add_amounts _ _ (Hamount EquityOwners) (Hamount EquityRetained))
    as (te & Hte & He).
  cbn [fetch] in Hpartial, Hta, Htl, Hte.
  cbn [mbind result_bind]. rewrite Hpartial. cbn [mbind result_bind].
  rewrite Hta. cbn [mbind result_bind]. rewrite Htl. cbn [mbind result_bind].
  rewrite Hte. cbn [mbind result_bind].
  eexists. split; [reflexivity|]. cbn. auto.
Qed.

(** The last part of a run on totals that are amounts. *)
Lemma log_results_amounts (today : clock) (as_of_date : option date)
  (s : Summary.t) (w : world) :
  (Summary.total_assets s = VInt 0
   \/ exists x, Summary.total_assets s = VFloat x) ->
  (Summary.total_liabilities s = VInt 0
   \/ exists x, Summary.total_liabilities s = VFloat x) ->
  (Summary.total_equity s = VInt 0
   \/ exists x, Summary.total_equity s = VFloat x) ->
  forallb accepts (adjustments (self w)) = true ->
  exists (r : run_result) (w' : world),
    log_results today as_of_date (SummaryDict s) w = (Ok r, w')
    /\ result_adjustments r = adjustments (self w).
Proof.
  intros Ha Hl He Haccepts.
  unfold log_results. cbv [mbind M_bind lift mret M_ret get_adjustments
    get_checks]. cbn [summary_getitem String.eqb Ascii.eqb Bool.eqb].
  cbn [result_bind].
  assert (exists b, result_bind value bool
    (λ rhs : value,
       result_bind value bool (λ gap : value, py_lt gap tolerance)
         (result_bind value value py_abs
            (py_sub (Summary.total_assets s) rhs)))
    (py_add (Summary.total_liabilities s) (Summary.total_equity s)) = Ok b)
    as [b Hb].
  { destruct Ha as [->|[a ->]], Hl as [->|[l ->]], He as [->|[e ->]];
      eexists; reflexivity. }
  rewrite Hb. unfold db_add_snapshot. cbn [self db].
  rewrite db_add_adjustments_spec. cbn [self db]. rewrite Haccepts.
  eexists _, _. split; reflexivity.
Qed.

(** X9: on well-formed payloads, and with a database that accepts the
    adjustments, a run returns, and its result holds
    the adjustments the instance had, followed by what the six checks
    find, check by check in the order of the checks: the trial-balance
    plug, the balance-sheet plug, the corrections of the chart of
    accounts, the bank notes, the receivables note and the
    retained-earnings note. *)
Theorem reconcile_well_formed (qbo_api : object) (today : clock)
  (as_of_date : option date) (p : payloads) (w : world) :
  serves qbo_api as_of_date p ->
  payloads_ok p = true ->
  forallb accepts (adjustments (self w) ++ concat (findings p)) = true ->
  exists (r : run_result) (w' : world),
    reconcile qbo_api today as_of_date w = (Ok r, w')
    /\ result_adjustments r = adjustments (self w) ++ concat (findings p).
Proof.
  intros Hserves Hok Haccepts. unfold payloads_ok in Hok.
  repeat match type of Hok with
         | _ && _ = true => apply andb_true_iff in Hok as [Hok ?]
         end.
  repeat match goal with
         | H : _ && _ = true |- _ => apply andb_true_iff in H as [? ?]
         end.
  rewrite (reconcile_fetched _ today _ _ w Hserves).
  assert (forallb truthy (mandatory p) = true) as ->.
  { unfold mandatory. cbn [forallb].
    assert (truthy (trial_balance p) = true) as ->.
    { destruct (trial_balance p) as [| | | | | |d]; try discriminate.
      unfold trial_balance_ok in Hok.
      destruct d; [discriminate Hok|reflexivity]. }
    assert (truthy (balance_sheet p) = true) as ->.
    { unfold balance_sheet_ok, rows_of in *.
      destruct (balance_sheet p) as [| | | | | |d]; try discriminate.
      destruct d; [discriminate|reflexivity]. }
    rewrite andb_true_r. cbn. assumption. }
  assert (finds (run_all (six_checks p)) (concat (findings p))) as Hrun.
  { apply finds_run_all. unfold six_checks, findings.
    repeat constructor;
      first [ apply validate_trial_balance_finds
            | apply verify_balance_sheet_totals_finds
            | apply check_account_balances_finds
            | apply reconcile_bank_accounts_finds
            | apply verify_open_items_finds
            | apply validate_retained_earnings_finds ]; assumption. }
  destruct (Hrun w) as (w1 & Hchecks & Hadj).
  destruct (generate_summary_returns (balance_sheet p)) as (s & Hs & Ha & Hl & He);
    [assumption|].
  rewrite <- Hadj in Haccepts.
  destruct (log_results_amounts today as_of_date s w1 Ha Hl He Haccepts)
    as (r & w' & Hlog & Hr).
  exists r, w'. cbv [mbind M_bind lift]. rewrite Hchecks, Hs.
  split; [exact Hlog|]. rewrite Hr. exact Hadj.
Qed.

(** *** Methods: independence of the instance *)

Lemma effect_nothing (w : world) : effect [] ∅ w = w.
Proof.
  destruct w as [[adjs checks] d]. unfold effect. cbn.
  rewrite app_nil_r, (left_id_L ∅ (∪)). reflexivity.
Qed.

Lemma effect_effect (new1 new2 : list adjustment)
  (set1 set2 : gmap string value) (w : world) :
  effect new2 set2 (effect new1 set1 w) = effect (new1 ++ new2) (set2 ∪ set1) w.
Proof.
  unfold effect. cbn. rewrite app_assoc, (assoc_L (∪)). reflexivity.
Qed.

Lemma framed_ret {A} (a : A) : framed (mret a).
Proof. exists (Ok a), [], ∅. intros w. rewrite effect_nothing. reflexivity. Qed.

Lemma framed_lift {A} (r : result A) : framed (lift r).
Proof. exists r, [], ∅. intros w. rewrite effect_nothing. reflexivity. Qed.

Lemma framed_bind {A B} (m : M A) (f : A -> M B) :
  framed m -> (forall a, framed (f a)) -> framed (m ≫= f).
Proof.
  intros (o1 & new1 & set1 & Hm) Hf. destruct o1 as [a|e].
  - destruct (Hf a) as (o2 & new2 & set2 & Hfa).
    exists o2, (new1 ++ new2), (set2 ∪ set1). intros w.
    unfold mbind, M_bind. rewrite Hm, Hfa, effect_effect. reflexivity.
  - exists (Raise e), new1, set1. intros w.
    unfold mbind, M_bind. rewrite Hm. reflexivity.
Qed.

Lemma framed_for_each {A} (xs : list A) (body : A -> M unit) :
  (forall x, framed (body x)) -> framed (for_each xs body).
Proof.
  intros Hbody. induction xs as [|x xs IH]; cbn [for_each].
  - apply framed_ret.
  - apply framed_bind; [apply Hbody | intros _; exact IH].
Qed.

Lemma framed_append (adj : adjustment) : framed (append_adjustment adj).
Proof.
  exists (Ok tt), [adj], ∅. intros w. unfold append_adjustment, effect.
  rewrite (left_id_L ∅ (∪)). reflexivity.
Qed.

Lemma framed_set_check (name : string) (v : value) : framed (set_check name v).
Proof.
  exists (Ok tt), [], {[name := v]}. intros w. unfold set_check, effect.
  rewrite app_nil_r, insert_union_singleton_l. reflexivity.
Qed.

Lemma framed_run_all (ms : list (M unit)) :
  Forall framed ms -> framed (run_all ms).
Proof.
  induction 1 as [|m ms Hm _ IH]; cbn [run_all].
  - apply framed_ret.
  - apply framed_bind; [exact Hm | intros _; exact IH].
Qed.

Ltac walk_framed :=
  repeat first
    [ apply framed_ret
    | apply framed_lift
    | apply framed_append
    | apply framed_set_check
    | apply framed_bind; [|intros ?]
    | apply framed_for_each; intros ?
    | match goal with
      | |- framed (if ?b then _ else _) => destruct b
      | |- framed (match ?p with _ => _ end) => destruct p
      end ].

Lemma six_checks_framed (p : payloads) : Forall framed (six_checks p).
Proof.
  unfold six_checks, _validate_trial_balance, _verify_balance_sheet_totals,
    _check_account_balances, check_account, _reconcile_bank_accounts,
    _verify_open_items, _validate_retained_earnings.
  repeat constructor; walk_framed.
Qed.

(** X12: what a run appends to the adjustments and records in the
    metrics is settled by what the collaborator answers: the checks never
    read the adjustments or the metrics of the instance, nor the database.
    From every state the run appends the same adjustments and sets the
    same metrics, over whatever the instance held, also when it raises. *)
Theorem reconcile_ignores_history (qbo_api : object) (today : clock)
  (as_of_date : option date) :
  exists (new : list adjustment) (recorded : gmap string value),
    forall w : world,
      adjustments (self (snd (reconcile qbo_api today as_of_date w)))
      = adjustments (self w) ++ new
      /\ reconciliation_checks
           (self (snd (reconcile qbo_api today as_of_date w)))
         = recorded ∪ reconciliation_checks (self w).
Proof.
  destruct (reconcile_after_fetches qbo_api today as_of_date)
    as [(p & _ & Hrun)|[e Hrun]].
  - destruct (forallb truthy (mandatory p)).
    + destruct (framed_run_all _ (six_checks_framed p))
        as (o & new & recorded & Hchecks).
      exists new, recorded. intros w. rewrite Hrun.
      cbv [mbind M_bind lift]. rewrite Hchecks.
      destruct o as [[]|e]; [|auto].
      destruct (_generate_summary_balance_sheet (balance_sheet p))
        as [summary_bs|e]; [|auto].
      pose proof (log_results_self today as_of_date summary_bs
                    (effect new recorded w)) as Hself.
      destruct (log_results _ _ _ _) as [r w']. cbn [fst snd] in *.
      rewrite Hself. auto.
    + exists [], ∅. intros w. rewrite Hrun. cbn.
      rewrite app_nil_r, (left_id_L ∅ (∪)). auto.
  - exists [], ∅. intros w. rewrite Hrun. cbn.
    rewrite app_nil_r, (left_id_L ∅ (∪)). auto.
Qed.

End Reconciler.

(** ** The properties on the example payloads *)

(** C1, Scenario B: debits of 100500.00 against credits of 100000.00 give
    the metric 500.0 and the one plug of -500.0. *)
Lemma validate_trial_balance_scenario_B :
  _validate_trial_balance decimal_float unbalanced_trial_balance fresh =
    (Ok tt,
     {| self :=
          {| adjustments :=
               [ {| account_name := VStr "Trial Balance Adjustment";
                    original_amount := VFloat 500;
                    adjusted_amount := VInt 0;
                    adjustment_amount := VFloat (-500);
                    reason := "Trial balance out of balance by $500.00";
                    adjustment_type := "correction" |} ];
             reconciliation_checks :=
               {["trial_balance_difference" := VFloat 500]} |};
        db := db fresh |}).
Proof.
  unfold unbalanced_trial_balance.
  rewrite (proj2 (validate_trial_balance_spec decimal_float
                    [("Rows", VList unbalanced_rows)] fresh)
             unbalanced_rows eq_refl eq_refl).
  vm_compute. reflexivity.
Defined.

(** C1 as stated fails on a trial balance without ['Rows']: the check
    returns at once and records no ["trial_balance_difference"]. *)
Lemma trial_balance_without_rows_records_nothing :
  _validate_trial_balance decimal_float report_without_rows fresh
    = (Ok tt, fresh)
  /\ reconciliation_checks (self fresh) !! "trial_balance_difference" = None.
Proof. split; reflexivity. Qed.



(** C3 on Scenario D's balance sheet. *)
Lemma generate_summary_scenario_D :
  exists s : Summary.t,
    _generate_summary_balance_sheet decimal_float ascii_upper balanced_sheet
      = Ok (SummaryDict s)
    /\ (forall b : bucket,
          fetch b (Summary.groups s) =
            last_total b (group_totals decimal_float ascii_upper balanced_sections))
    /\ equity_net_income (Summary.groups s) = VInt 0
    /\ (partial ← py_add (assets_current (Summary.groups s))
                         (assets_fixed (Summary.groups s));
        py_add partial (assets_other (Summary.groups s)))
       = Ok (Summary.total_assets s)
    /\ py_add (liabilities_current (Summary.groups s))
              (liabilities_long_term (Summary.groups s))
       = Ok (Summary.total_liabilities s)
    /\ py_add (equity_owners_equity (Summary.groups s))
              (equity_retained_earnings (Summary.groups s))
       = Ok (Summary.total_equity s).
Proof.
  exact (proj2 (generate_summary_spec decimal_float ascii_upper
                  [("Rows", VList balanced_sections)])
           balanced_sections eq_refl eq_refl).
Defined.

(** The summary of Scenario D: the second fixed-assets row overwrote
    the first. *)
Example summary_of_balanced_sheet :
  _generate_summary_balance_sheet decimal_float ascii_upper balanced_sheet =
    Ok (SummaryDict
          {| Summary.groups :=
               {| assets_current := VFloat 300000;
                  assets_fixed := VFloat 200000;
                  assets_other := VInt 0;
                  liabilities_current := VFloat 200000;
                  liabilities_long_term := VInt 0;
                  equity_owners_equity := VFloat 100000;
                  equity_retained_earnings := VFloat 200000;
                  equity_net_income := VInt 0 |};
             Summary.total_assets := VFloat 500000;
             Summary.total_liabilities := VFloat 200000;
             Summary.total_equity := VFloat 300000 |}).
Proof. vm_compute. reflexivity. Qed.

(** C3 as stated fails on a balance sheet without ['Rows']: the builder
    returns the empty dict, which has no bucket and no total. *)
Lemma summary_without_rows_is_empty :
  _generate_summary_balance_sheet decimal_float ascii_upper report_without_rows
    = Ok EmptyDict
  /\ summary_getitem EmptyDict "total_assets" = Raise (KeyError "total_assets").
Proof. split; reflexivity. Qed.

Lemma stub_api_serves (p : payloads) (as_of_date : option date) :
  serves (stub_api p) as_of_date p.
Proof. repeat split; reflexivity. Qed.

(** C4, Scenario E: the chart of accounts comes back as [None]. *)
Lemma missing_chart_is_data_unavailable :
  reconcile decimal_float ascii_upper takes_row
    (stub_api (run_payloads unbalanced_trial_balance balanced_sheet VNone))
    run_date None fresh
  = (Raise data_unavailable, fresh).
Proof.
  apply (proj1 (data_unavailable_iff decimal_float ascii_upper takes_row
      _ run_date None _ fresh
                  (stub_api_serves _ None))).
  split; reflexivity.
Defined.

(** C4 as stated fails on a trial balance that is the empty object: no
    mandatory report is [None], and the run still raises. *)
Lemma empty_trial_balance_is_data_unavailable :
  reconcile decimal_float ascii_upper takes_row
    (stub_api (run_payloads (VDict []) balanced_sheet chart))
    run_date None fresh
  = (Raise data_unavailable, fresh)
  /\ existsb is_none
       (mandatory (run_payloads (VDict []) balanced_sheet chart)) = false.
Proof. split; reflexivity. Qed.

(** C5 on a run over the sample payloads. *)
Lemma reconcile_persists_sample :
  exists (r : run_result) (w' : world),
    reconcile decimal_float ascii_upper takes_row
        (stub_api sample_payloads) run_date None fresh
      = (Ok r, w')
    /\ exists (snap : Snapshot.row) (rows : list AdjustmentRow.row),
         balance_sheet_snapshots (db w') =
           balance_sheet_snapshots (db fresh) ++ [snap]
         /\ adjustments_table (db w') = adjustments_table (db fresh) ++ rows
         /\ map AdjustmentRow.fields rows = result_adjustments r
         /\ Forall (fun row =>
                      AdjustmentRow.reconciliation_log_id row = Snapshot.id snap)
              rows
         /\ Snapshot.id snap =
            next_id (map Snapshot.id (balance_sheet_snapshots (db fresh)))
         /\ Snapshot.date_ snap = default (date_read run_date) None
         /\ Snapshot.is_balanced snap = result_is_balanced r
         /\ Snapshot.adjustments_count snap =
            Z.of_nat (List.length (result_adjustments r))
         /\ Snapshot.status snap = "completed"
         /\ summary_getitem (summary_balance_sheet r) "total_assets"
            = Ok (Snapshot.total_assets snap)
         /\ summary_getitem (summary_balance_sheet r) "total_liabilities"
            = Ok (Snapshot.total_liabilities snap)
         /\ summary_getitem (summary_balance_sheet r) "total_equity"
            = Ok (Snapshot.total_equity snap)
         /\ Snapshot.period snap = default (period_read run_date) None
         /\ result_adjustments r = adjustments (self w')
         /\ result_checks r = reconciliation_checks (self w').
Proof.
  eexists _, _. split; [vm_compute; reflexivity|].
  apply (reconcile_persists decimal_float ascii_upper takes_row
      (stub_api sample_payloads)
           run_date None fresh).
  vm_compute. reflexivity.
Defined.

(** C5 as stated fails: after a run over the sample payloads the
    database holds a snapshot and three adjustment rows that [reconcile]
    itself has written. *)
Lemma reconcile_writes_to_the_database :
  db (snd (reconcile decimal_float ascii_upper takes_row (stub_api sample_payloads)
             run_date None fresh)) =
    {| balance_sheet_snapshots :=
         [ {| Snapshot.id := 1;
              Snapshot.date_ := "2026-01-31";
              Snapshot.period := "2026-01-31";
              Snapshot.total_assets := VFloat 500000;
              Snapshot.total_liabilities := VFloat 200000;
              Snapshot.total_equity := VFloat 300000;
              Snapshot.is_balanced := true;
              Snapshot.adjustments_count := 3;
              Snapshot.status := "completed" |} ];
       adjustments_table :=
         saved_rows 1 [] sample_adjustments |}
  /\ db fresh = {| balance_sheet_snapshots := []; adjustments_table := [] |}.
Proof. split; vm_compute; reflexivity. Qed.

(** C6: a balance sheet that is present and has no ['Rows'] makes the
    run fail.  Checks 1 to 6 go through (two adjustments and three metrics
    are on the instance), the builder returns the empty dict, and reading
    ['total_assets'] from it raises [KeyError]: no result, nothing saved. *)
Theorem reconcile_without_balance_sheet_rows :
  reconcile decimal_float ascii_upper takes_row
    (stub_api (run_payloads unbalanced_trial_balance report_without_rows chart))
    run_date None fresh
  = (Raise (KeyError "total_assets"),
     {| self :=
          {| adjustments :=
               [ plug "Trial Balance Adjustment"
                   "Trial balance out of balance by $" 500;
                 petty_cash_correction ];
             reconciliation_checks :=
               {[ "trial_balance_difference" := VFloat 500;
                  "total_open_ar" := VInt 0;
                  "total_open_ap" := VInt 0 ]} |};
        db := db fresh |}).
Proof. vm_compute. reflexivity. Qed.



(** Retained earnings of -5000.00 in the one section are flagged. *)
Lemma validate_retained_earnings_deficit :
  _validate_retained_earnings decimal_float ascii_upper deficit_sheet VNone fresh =
    (Ok tt,
     extend fresh
       [ {| account_name := VStr "Retained Earnings";
            original_amount := VFloat (-5000);
            adjusted_amount := VFloat (-5000);
            adjustment_amount := VInt 0;
            reason := "Negative retained earnings: $-5,000.00";
            adjustment_type := "info" |} ]).
Proof.
  exact (proj2 (validate_retained_earnings_spec decimal_float ascii_upper
                  [("Rows", VList deficit_sections)] VNone fresh)
           deficit_sections eq_refl eq_refl (le_n 1)).
Defined.

(** A RETAINED row with a single column is passed over by the guard
    on the number of columns, whatever its amount. *)
Example narrow_retained_row_is_skipped :
  _validate_retained_earnings decimal_float ascii_upper narrow_deficit_sheet VNone fresh
  = (Ok tt, fresh).
Proof. reflexivity. Qed.

(** With a RETAINED row in each of two sections, the [break] ends the
    walk of the first section only: the second section's 7000.00 replaces
    the -5000.00 read first, and nothing is flagged. *)
Example break_leaves_inner_loop_only :
  _validate_retained_earnings decimal_float ascii_upper two_retained_sheet VNone fresh
  = (Ok tt, fresh).
Proof. reflexivity. Qed.

(** C8: on a balance sheet with retained earnings of -5000.00 in its
    first section and of 7000.00 in its second, the first RETAINED group
    in traversal order holds -5000.00, for which the claim asks for the
    "info" note; the [break] of check 6 leaves the inner loop only, the
    walk goes on with the second section, whose 7000.00 replaces the
    value, and the check appends nothing. *)
Lemma retained_earnings_break_slip :
  head (omap (retained_total decimal_float ascii_upper)
          (flat_map sub_rows_of two_retained_sections))
  = Some (-5000)%float
  /\ negative_retained (-5000) =
       [ {| account_name := VStr "Retained Earnings";
            original_amount := VFloat (-5000);
            adjusted_amount := VFloat (-5000);
            adjustment_amount := VInt 0;
            reason := "Negative retained earnings: $-5,000.00";
            adjustment_type := "info" |} ]
  /\ _validate_retained_earnings decimal_float ascii_upper two_retained_sheet
       VNone fresh
     = (Ok tt, fresh).
Proof. repeat split; reflexivity. Qed.

(** C9 on a run over the sample payloads. *)
Lemma reconcile_accumulates_sample :
  exists (r : run_result) (w' : world),
    reconcile decimal_float ascii_upper takes_row
        (stub_api sample_payloads) run_date None
      (extend fresh [petty_cash_correction])
      = (Ok r, w')
    /\ exists (new : list adjustment) (rows : list AdjustmentRow.row),
         result_adjustments r =
           adjustments (self (extend fresh [petty_cash_correction])) ++ new
         /\ adjustments (self w') =
              adjustments (self (extend fresh [petty_cash_correction])) ++ new
         /\ adjustments_table (db w') =
              adjustments_table (db (extend fresh [petty_cash_correction]))
              ++ rows
         /\ map AdjustmentRow.fields rows =
              adjustments (self (extend fresh [petty_cash_correction])) ++ new
         /\ result_checks r = reconciliation_checks (self w')
         /\ (forall name : string,
               is_Some (reconciliation_checks
                          (self (extend fresh [petty_cash_correction]))
                        !! name) ->
               is_Some (result_checks r !! name))
         /\ exists snap : Snapshot.row,
              balance_sheet_snapshots (db w')
              = balance_sheet_snapshots
                  (db (extend fresh [petty_cash_correction])) ++ [snap]
              /\ Forall (fun row =>
                           AdjustmentRow.reconciliation_log_id row
                           = Snapshot.id snap)
                   rows.
Proof.
  eexists _, _. split; [vm_compute; reflexivity|].
  apply (reconcile_accumulates decimal_float ascii_upper takes_row
      (stub_api sample_payloads)
           run_date None (extend fresh [petty_cash_correction])).
  vm_compute. reflexivity.
Defined.

(** C9 as stated fails: a second run on the same instance returns the
    first run's three adjustments in front of its own three, and saves
    all six under the second snapshot. *)
Lemma second_run_repeats_first :
  let first :=
    reconcile decimal_float ascii_upper takes_row
        (stub_api sample_payloads) run_date None fresh in
  let second :=
    reconcile decimal_float ascii_upper takes_row
        (stub_api sample_payloads) run_date None
      (snd first) in
  returned_adjustments first = sample_adjustments
  /\ returned_adjustments second = sample_adjustments ++ sample_adjustments
  /\ map AdjustmentRow.reconciliation_log_id
       (adjustments_table (db (snd second)))
     = [1; 1; 1; 2; 2; 2; 2; 2; 2]
  /\ map AdjustmentRow.fields (adjustments_table (db (snd second)))
     = sample_adjustments ++ sample_adjustments ++ sample_adjustments.
Proof. repeat split; vm_compute; reflexivity. Qed.

(** ** The route [/api/balance-sheet]: properties *)

Lemma group_accounts_spec (rows : list Account.row) :
  forall init : Accounts.t,
  fold_left group_account rows init =
    {| Accounts.assets_current :=
         Accounts.assets_current init ++ group_of (in_group "asset" true) rows;
       Accounts.assets_non_current :=
         Accounts.assets_non_current init
         ++ group_of (in_group "asset" false) rows;
       Accounts.liabilities_current :=
         Accounts.liabilities_current init
         ++ group_of (in_group "liability" true) rows;
       Accounts.liabilities_non_current :=
         Accounts.liabilities_non_current init
         ++ group_of (in_group "liability" false) rows;
       Accounts.equity := Accounts.equity init ++ group_of is_equity rows |}.
Proof.
  unfold group_of.
  induction rows as [|a rows IH]; intros init.
  - destruct init. cbn. rewrite !app_nil_r. reflexivity.
  - cbn [fold_left]. rewrite IH. unfold group_account, in_group, is_equity.
    cbn [List.filter].
    destruct (String.eqb_spec (Account.account_type a) "asset") as [->|Ha].
    + cbn [String.eqb Ascii.eqb Bool.eqb andb].
      destruct (column_eq (Account.subcategory a) "current");
        cbn [Bool.eqb map Accounts.assets_current Accounts.assets_non_current
             Accounts.liabilities_current Accounts.liabilities_non_current
             Accounts.equity];
        rewrite <- ?app_assoc; reflexivity.
    + destruct (String.eqb_spec (Account.account_type a) "liability")
        as [->|Hl].
      * cbn [String.eqb Ascii.eqb Bool.eqb andb].
        destruct (column_eq (Account.subcategory a) "current");
          cbn [Bool.eqb map Accounts.assets_current Accounts.assets_non_current
               Accounts.liabilities_current Accounts.liabilities_non_current
               Accounts.equity];
          rewrite <- ?app_assoc; reflexivity.
      * destruct (String.eqb (Account.account_type a) "equity");
          cbn [andb map Accounts.assets_current Accounts.assets_non_current
               Accounts.liabilities_current Accounts.liabilities_non_current
               Accounts.equity];
          rewrite <- ?app_assoc; reflexivity.
Qed.

Lemma account_data_balance (a : Account.row) :
  py_getitem (account_data a) "balance"
  = Ok (nullable VFloat (Account.balance a)).
Proof. reflexivity. Qed.

Lemma sum_balances_from (rows : list Account.row) :
  forall acc : list float,
  for_fold (map account_data rows) (total_of acc)
    (fun total a => balance ← py_getitem a "balance"; py_add total balance)
  = if forallb has_balance rows
    then Ok (total_of (acc ++ omap Account.balance rows))
    else Raise TypeError.
Proof.
  induction rows as [|a rows IH]; intros acc.
  - cbn. rewrite app_nil_r. reflexivity.
  - cbn [map for_fold forallb omap list_omap]. unfold has_balance at 1.
    destruct (Account.balance a) as [x|] eqn:Hx.
    + rewrite account_data_balance, Hx. cbn [nullable mbind result_bind].
      rewrite py_add_total.
      cbn [mbind result_bind andb]. rewrite IH, <- app_assoc. reflexivity.
    + rewrite account_data_balance, Hx. cbn [nullable mbind result_bind andb].
      destruct acc; reflexivity.
Qed.

Lemma sum_balances_spec (member : Account.row -> bool)
  (rows : list Account.row) :
  sum_balances (group_of member rows) =
    if forallb has_balance (List.filter member rows)
    then Ok (total_of (omap Account.balance (List.filter member rows)))
    else Raise TypeError.
Proof. unfold sum_balances, group_of. apply (sum_balances_from _ []). Qed.

(** The accounts of a group have a balance when the listed ones do. *)
Lemma group_has_balance (member : Account.row -> bool)
  (rows : list Account.row) :
  (forall a, member a = true -> listed a = true) ->
  forallb (fun a => implb (listed a) (has_balance a)) rows = true ->
  forallb has_balance (List.filter member rows) = true.
Proof.
  intros Hsub Hall. rewrite forallb_forall in *. intros a Ha.
  apply filter_In in Ha as [Hin Hm]. specialize (Hall a Hin).
  rewrite (Hsub a Hm) in Hall. exact Hall.
Qed.

Lemma in_group_listed (kind : string) (current : bool) (a : Account.row) :
  In kind ["asset"; "liability"; "equity"] ->
  in_group kind current a = true -> listed a = true.
Proof.
  unfold in_group, listed. intros Hkind H.
  apply andb_true_iff in H as [H _]. apply String.eqb_eq in H. rewrite H.
  cbn in Hkind. destruct Hkind as [<-|[<-|[<-|[]]]]; reflexivity.
Qed.

Lemma is_equity_listed (a : Account.row) :
  is_equity a = true -> listed a = true.
Proof.
  unfold is_equity, listed. intros H. apply String.eqb_eq in H. rewrite H.
  reflexivity.
Qed.

(** X10: the response lists every account of type asset, liability or
    equity in exactly one of its five lists, by its type and, for an
    asset or a liability, by whether its subcategory is 'current' (a
    missing or any other subcategory counts as non-current); each list
    keeps the order of the table, and an account of any other type is
    listed nowhere. *)
Theorem get_balance_sheet_groups (rows : list Account.row)
  (response : balance_sheet_response) :
  get_balance_sheet rows = Ok response ->
  accounts response =
    {| Accounts.assets_current := group_of (in_group "asset" true) rows;
       Accounts.assets_non_current := group_of (in_group "asset" false) rows;
       Accounts.liabilities_current := group_of (in_group "liability" true) rows;
       Accounts.liabilities_non_current :=
         group_of (in_group "liability" false) rows;
       Accounts.equity := group_of is_equity rows |}.
Proof.
  unfold get_balance_sheet. rewrite group_accounts_spec. cbn [app
    Accounts.assets_current Accounts.assets_non_current
    Accounts.liabilities_current Accounts.liabilities_non_current
    Accounts.equity].
  repeat match goal with
         | |- context [mbind ?f ?r] =>
             destruct r; cbn [mbind result_bind]; [|discriminate]
         end.
  intros [= <-]. reflexivity.
Qed.

Lemma py_add_total_of (xs ys : list float) :
  exists v, py_add (total_of xs) (total_of ys) = Ok v.
Proof. destruct xs, ys; eexists; reflexivity. Qed.

(** A listed account belongs to one of the five groups. *)
Lemma listed_in_group (a : Account.row) :
  listed a = true ->
  in_group "asset" true a || in_group "asset" false a
  || in_group "liability" true a || in_group "liability" false a
  || is_equity a = true.
Proof.
  unfold listed, in_group, is_equity. cbn [existsb].
  destruct (String.eqb (Account.account_type a) "asset"),
    (String.eqb (Account.account_type a) "liability"),
    (String.eqb (Account.account_type a) "equity"),
    (column_eq (Account.subcategory a) "current"); cbn; congruence.
Qed.

Lemma groups_have_balance (rows : list Account.row) :
  forallb has_balance (List.filter (in_group "asset" true) rows) = true ->
  forallb has_balance (List.filter (in_group "asset" false) rows) = true ->
  forallb has_balance (List.filter (in_group "liability" true) rows) = true ->
  forallb has_balance (List.filter (in_group "liability" false) rows) = true ->
  forallb has_balance (List.filter is_equity rows) = true ->
  forallb (fun a => implb (listed a) (has_balance a)) rows = true.
Proof.
  rewrite !forallb_forall. intros H1 H2 H3 H4 H5 a Ha.
  destruct (listed a) eqn:Hl; [|reflexivity]. cbn [implb].
  apply listed_in_group in Hl.
  repeat (apply orb_true_iff in Hl as [Hl|Hl]);
    [apply H1|apply H2|apply H3|apply H4|apply H5];
    apply filter_In; auto.
Qed.

(** X11: the route answers exactly when every account it lists has a
    balance: a NULL balance on a listed account makes the sum raise
    [TypeError], while one on an account of another type is never read.
    When it answers, the total of a list is the floating-point sum of its
    balances in table order, or the [int] 0 for an empty list, and the
    totals of the assets and of the liabilities add their current and
    non-current parts. *)
Theorem get_balance_sheet_totals (rows : list Account.row) :
  let total member := total_of (omap Account.balance (List.filter member rows)) in
  if forallb (fun a => implb (listed a) (has_balance a)) rows
  then
    exists response : balance_sheet_response,
      get_balance_sheet rows = Ok response
      /\ Totals.current_assets (totals response)
         = total (in_group "asset" true)
      /\ Totals.non_current_assets (totals response)
         = total (in_group "asset" false)
      /\ Totals.current_liabilities (totals response)
         = total (in_group "liability" true)
      /\ Totals.non_current_liabilities (totals response)
         = total (in_group "liability" false)
      /\ Totals.total_equity (totals response) = total is_equity
      /\ py_add (total (in_group "asset" true)) (total (in_group "asset" false))
         = Ok (Totals.total_assets (totals response))
      /\ py_add (total (in_group "liability" true))
           (total (in_group "liability" false))
         = Ok (Totals.total_liabilities (totals response))
  else get_balance_sheet rows = Raise TypeError.
Proof.
  cbv zeta.
  unfold get_balance_sheet. rewrite group_accounts_spec. cbn [app
    Accounts.assets_current Accounts.assets_non_current
    Accounts.liabilities_current Accounts.liabilities_non_current
    Accounts.equity].
  rewrite !sum_balances_spec.
  destruct (py_add_total_of
              (omap Account.balance (List.filter (in_group "asset" true) rows))
              (omap Account.balance (List.filter (in_group "asset" false) rows)))
    as [ta Hta].
  destruct (py_add_total_of
              (omap Account.balance
                 (List.filter (in_group "liability" true) rows))
              (omap Account.balance
                 (List.filter (in_group "liability" false) rows)))
    as [tl Htl].
  destruct (forallb (fun a => implb (listed a) (has_balance a)) rows) eqn:Hall.
  - rewrite !(group_has_balance _ rows) by
      (first [exact Hall | intros a; first [apply is_equity_listed
                                          | apply in_group_listed; cbn; tauto]]).
    cbn [mbind result_bind]. rewrite Hta, Htl. cbn [mbind result_bind].
    eexists. split; [reflexivity|]. cbn. auto 10.
  - pose proof (groups_have_balance rows) as Hgroups.
    destruct (forallb has_balance (List.filter (in_group "asset" true) rows));
      [|reflexivity].
    destruct (forallb has_balance (List.filter (in_group "asset" false) rows));
      [|reflexivity].
    cbn [mbind result_bind]. rewrite Hta. cbn [mbind result_bind].
    destruct (forallb has_balance
                (List.filter (in_group "liability" true) rows)); [|reflexivity].
    destruct (forallb has_balance
                (List.filter (in_group "liability" false) rows)); [|reflexivity].
    cbn [mbind result_bind]. rewrite Htl. cbn [mbind result_bind].
    destruct (forallb has_balance (List.filter is_equity rows)); [|reflexivity].
    rewrite Hgroups in Hall by reflexivity. discriminate.
Qed.

(** ** Further properties on the example payloads *)

(** X1 on Scenario D: the balance sheet balances (500000 against 200000
    + 300000), but check 2 keeps the last group of each side only, 200000
    each, and reports a difference of 200000. *)
Lemma verify_balance_sheet_totals_scenario_D :
  _verify_balance_sheet_totals decimal_float ascii_upper balanced_sheet fresh =
    (Ok tt,
     {| self :=
          {| adjustments :=
               [ {| account_name := VStr "Balance Sheet Adjustment";
                    original_amount := VFloat 200000;
                    adjusted_amount := VInt 0;
                    adjustment_amount := VFloat (-200000);
                    reason := "Balance sheet out of balance by $200000.00";
                    adjustment_type := "correction" |} ];
             reconciliation_checks :=
               {["balance_sheet_difference" := VFloat 200000]} |};
        db := db fresh |}).
Proof.
  unfold balanced_sheet.
  rewrite (proj2 (verify_balance_sheet_totals_spec decimal_float ascii_upper
                    [("Rows", VList balanced_sections)] fresh)
             balanced_sections eq_refl eq_refl).
  vm_compute. reflexivity.
Defined.

(** X2 on three bank accounts: the two whose balance exceeds 1,000,000
    in magnitude get a note, the overdraft included. *)
Lemma reconcile_bank_accounts_sample :
  _reconcile_bank_accounts bank_response unbalanced_trial_balance fresh =
    (Ok tt, extend fresh bank_notes).
Proof.
  exact (reconcile_bank_accounts_spec bank_response unbalanced_trial_balance
           fresh eq_refl).
Defined.

(** X3 on receivables of 550000.75 and payables of 900000: one note,
    for the receivables. *)
Lemma verify_open_items_sample :
  _verify_open_items open_receivables open_payables fresh =
    (Ok tt,
     {| self :=
          {| adjustments := [receivables_review];
             reconciliation_checks :=
               {[ "total_open_ar" := VFloat 550000.75;
                  "total_open_ap" := VInt 900000 ]} |};
        db := db fresh |}).
Proof.
  rewrite (verify_open_items_spec open_receivables open_payables
             (VFloat 550000.75) (VInt 900000) fresh
             eq_refl eq_refl eq_refl eq_refl eq_refl).
  vm_compute. reflexivity.
Defined.

(** X4 on retained earnings of 7000.00 in the first section and
    -5000.00 in the second: the note cites the second. *)
Lemma late_deficit_is_flagged :
  _validate_retained_earnings decimal_float ascii_upper late_deficit_sheet VNone fresh =
    (Ok tt,
     extend fresh
       [ {| account_name := VStr "Retained Earnings";
            original_amount := VFloat (-5000);
            adjusted_amount := VFloat (-5000);
            adjustment_amount := VInt 0;
            reason := "Negative retained earnings: $-5,000.00";
            adjustment_type := "info" |} ]).
Proof.
  exact (retained_earnings_read_from_last_section decimal_float ascii_upper
           [("Rows", VList late_deficit_sections)]
           [VDict [("Rows", VList [group_row "Retained Earnings" "7000.00"])]]
           []
           (VDict [("Rows", VList [group_row "Retained Earnings" "-5000.00"])])
           (-5000)%float VNone fresh eq_refl eq_refl eq_refl eq_refl).
Defined.

(** X6 on a chart whose overdrawn cash account has a [null] name: the
    correction for it has no account name, the table refuses it, and the
    run raises after its snapshot was committed: the snapshot is in the
    database and none of the three adjustments is. *)
Lemma refused_adjustment_keeps_snapshot :
  exists w' : world,
    reconcile decimal_float ascii_upper takes_row
      (stub_api (run_payloads unbalanced_trial_balance balanced_sheet
                   nameless_chart))
      run_date None fresh
    = (Raise SQLAlchemyError, w')
    /\ List.length (adjustments (self w')) = 3%nat
    /\ List.length (balance_sheet_snapshots (db w')) = 1%nat
    /\ adjustments_table (db w') = adjustments_table (db fresh)
    /\ (balance_sheet_snapshots (db w') = balance_sheet_snapshots (db fresh)
        \/ (SQLAlchemyError = SQLAlchemyError
            /\ forallb takes_row (adjustments (self w')) = false
            /\ exists snap : Snapshot.row,
                 balance_sheet_snapshots (db w')
                 = balance_sheet_snapshots (db fresh) ++ [snap]
                 /\ Snapshot.id snap =
                    next_id
                      (map Snapshot.id (balance_sheet_snapshots (db fresh)))
                 /\ Snapshot.status snap = "completed")).
Proof.
  eexists. split; [vm_compute; reflexivity|].
  split; [reflexivity|]. split; [reflexivity|].
  eapply (reconcile_raises_without_adjustment_rows decimal_float ascii_upper
            takes_row
            (stub_api (run_payloads unbalanced_trial_balance balanced_sheet
                         nameless_chart))
            run_date None fresh).
  vm_compute. reflexivity.
Defined.

(** X7 on a collaborator without [get_balance_sheet_report]: the run
    stops at the second fetch. *)
Lemma missing_method_aborts_run :
  reconcile decimal_float ascii_upper takes_row partial_api run_date None fresh
  = (Raise (AttributeError "get_balance_sheet_report"), fresh).
Proof.
  apply (failing_fetch_aborts_run decimal_float ascii_upper takes_row
      partial_api run_date None
           [Ok unbalanced_trial_balance]
           [ Raise (AttributeError "get_chart_of_accounts");
             Raise (AttributeError "get_open_ar");
             Raise (AttributeError "get_open_ap");
             Raise (AttributeError "get_bank_accounts") ]);
    reflexivity.
Defined.

(** X8 on a run over the sample payloads. *)
Lemma reconcile_result_shape_sample :
  exists (r : run_result) (w' : world),
    reconcile decimal_float ascii_upper takes_row
        (stub_api sample_payloads) run_date None fresh
      = (Ok r, w')
    /\ exists s : Summary.t,
         summary_balance_sheet r = SummaryDict s
         /\ (rhs ← py_add (Summary.total_liabilities s) (Summary.total_equity s);
             gap ← py_sub (Summary.total_assets s) rhs ≫= py_abs;
             py_lt gap tolerance) = Ok (result_is_balanced r)
         /\ is_Some (result_checks r !! "balance_sheet_difference")
         /\ is_Some (result_checks r !! "total_open_ar")
         /\ is_Some (result_checks r !! "total_open_ap").
Proof.
  eexists _, _. split; [vm_compute; reflexivity|].
  eapply (reconcile_result_shape decimal_float ascii_upper takes_row
      (stub_api sample_payloads)
            run_date None fresh).
  vm_compute. reflexivity.
Defined.

(** X9 on payloads with all six reports: the run returns six
    adjustments, in the order of the checks (check 2 finds nothing). *)
Lemma reconcile_full_payloads :
  exists (r : run_result) (w' : world),
    reconcile decimal_float ascii_upper takes_row
        (stub_api full_payloads) run_date None fresh
      = (Ok r, w')
    /\ result_adjustments r =
         [ {| account_name := VStr "Trial Balance Adjustment";
              original_amount := VFloat 500;
              adjusted_amount := VInt 0;
              adjustment_amount := VFloat (-500);
              reason := "Trial balance out of balance by $500.00";
              adjustment_type := "correction" |};
           petty_cash_correction ]
         ++ bank_notes
         ++ [ receivables_review;
              {| account_name := VStr "Retained Earnings";
                 original_amount := VFloat (-5000);
                 adjusted_amount := VFloat (-5000);
                 adjustment_amount := VInt 0;
                 reason := "Negative retained earnings: $-5,000.00";
                 adjustment_type := "info" |} ].
Proof.
  exact (reconcile_well_formed decimal_float ascii_upper takes_row
      (stub_api full_payloads) run_date
           None full_payloads fresh (stub_api_serves full_payloads None)
           eq_refl eq_refl).
Defined.

(** X10 on five accounts: the revenue account is listed nowhere, and
    the liability without a subcategory is non-current. *)
Lemma get_balance_sheet_sample :
  exists response : balance_sheet_response,
    get_balance_sheet sample_accounts = Ok response
    /\ accounts response =
         {| Accounts.assets_current :=
              [ VDict [ ("id", VInt 1); ("name", VStr "Cash");
                        ("balance", VFloat 1000.5);
                        ("status", VStr "reconciled");
                        ("description", VNone) ] ];
            Accounts.assets_non_current :=
              [ VDict [ ("id", VInt 2); ("name", VStr "Building");
                        ("balance", VFloat 5000);
                        ("status", VStr "reconciled");
                        ("description", VNone) ] ];
            Accounts.liabilities_current := [];
            Accounts.liabilities_non_current :=
              [ VDict [ ("id", VInt 3); ("name", VStr "Loan");
                        ("balance", VFloat 2000);
                        ("status", VStr "pending");
                        ("description", VNone) ] ];
            Accounts.equity :=
              [ VDict [ ("id", VInt 5); ("name", VStr "Capital");
                        ("balance", VFloat 4000.5);
                        ("status", VStr "reconciled");
                        ("description", VStr "Paid-in capital") ] ] |}.
Proof.
  eexists. split; [vm_compute; reflexivity|].
  apply (get_balance_sheet_groups sample_accounts). vm_compute. reflexivity.
Defined.

(** The totals of the five accounts: the empty list of current
    liabilities adds up to the [int] 0. *)
Example get_balance_sheet_sample_totals :
  (response ← get_balance_sheet sample_accounts; Ok (totals response)) =
    Ok {| Totals.current_assets := VFloat 1000.5;
          Totals.non_current_assets := VFloat 5000;
          Totals.total_assets := VFloat 6000.5;
          Totals.current_liabilities := VInt 0;
          Totals.non_current_liabilities := VFloat 2000;
          Totals.total_liabilities := VFloat 2000;
          Totals.total_equity := VFloat 4000.5 |}.
Proof. reflexivity. Qed.
